(** * Task routing, handoff envelopes and response normalisation

    A shallow embedding of the routing core of the agent tooling:
    - [agent/mcp_agent_mail_client.py]  ([_extract_structured_content]),
    - [agent/handoff_protocol.py]       ([create_task_assignment_message]),
    - [agent/enhanced_orchestrator.py]  (class [EnhancedOrchestrator]),
    - [agent/orchestrator.py]           ([Orchestrator.delegate_task]).

    Python values that cross these functions are JSON shaped, so one
    inductive type [json] serves as the dynamic value type.  A Python call
    either returns or raises; [result] records which, with one extra
    outcome [Unmodelled] for the few behaviours that the value space below
    cannot express (see the conventions).

    Conventions.
    - A [str] is a Rocq [string] whose characters are the code points
      0..255.  [lower] and the white space of [strip] are Python's on that
      range.
    - A [dict] is an association list in insertion order, as Python dicts
      are; [dict_set] overwrites in place and appends new keys.
    - Scores are exact rationals.  The source divides two small machine
      integers in floating point and compares with the literal [0.3]; on
      set sizes below 2^26 the float comparison and the rational one give
      the same answer, because distinct fractions with such denominators
      are further apart than one unit in the last place.
    - JSON numbers with a fraction or an exponent are kept as their lexeme;
      operations that would need their float value answer [Unmodelled].
    - Limits of the interpreter are not fixed by the source: JSON text
      nested deeper than [Json.MAX_NESTING], on which the interpreter may
      raise [RecursionError], and integer literals longer than
      [Json.max_str_digits], on which it may raise [ValueError], are
      answered [Unmodelled].
    - [a / b * 100] is computed as the interpreter does, in binary64
      ([PyFloat]), before [round] takes it to one decimal. *)

From Stdlib Require Import String Ascii List ZArith QArith Bool Arith Lia.
From Stdlib Require Import DecimalString.
Import ListNotations.

Local Open Scope string_scope.
Local Open Scope list_scope.

(** ** Dynamic values *)

#[warnings="-register-all"]
Inductive json : Type :=
| JNull
| JBool (b : bool)
| JInt (z : Z)
| JFloat (lexeme : string)
| JStr (s : string)
| JArr (items : list json)
| JObj (fields : list (string * json)).

(** Insertion-ordered dictionaries with string keys. *)
Definition dict (V : Type) : Type := list (string * V).

Fixpoint dict_get {V : Type} (k : string) (d : dict V) : option V :=
  match d with
  | [] => None
  | (k', v) :: d' => if String.eqb k k' then Some v else dict_get k d'
  end.

Definition has_key {V : Type} (k : string) (d : dict V) : bool :=
  match dict_get k d with Some _ => true | None => false end.

Definition dict_get_default {V : Type} (k : string) (dflt : V) (d : dict V) : V :=
  match dict_get k d with Some v => v | None => dflt end.

Fixpoint dict_set {V : Type} (k : string) (v : V) (d : dict V) : dict V :=
  match d with
  | [] => [(k, v)]
  | (k', v') :: d' =>
      if String.eqb k k' then (k, v) :: d' else (k', v') :: dict_set k v d'
  end.

Definition keys {V : Type} (d : dict V) : list string := map fst d.

(** ** Outcomes of a call *)

Inductive exn : Type :=
| Exception (arg : json)
| TypeError
| AttributeError
| KeyError
| IndexError
| ValueError
| JSONDecodeError
| CalledProcessError
| RuntimeError.

Inductive result (A : Type) : Type :=
| Returns (a : A)
| Raises (e : exn)
| Unmodelled.

Arguments Returns {A} a.
Arguments Raises {A} e.
Arguments Unmodelled {A}.

Definition bind {A B : Type} (m : result A) (k : A -> result B) : result B :=
  match m with
  | Returns a => k a
  | Raises e => Raises e
  | Unmodelled => Unmodelled
  end.

Declare Scope py_scope.
Delimit Scope py_scope with py.
Notation "x <- m ;; k" := (bind m (fun x => k))
  (at level 61, m at next level, right associativity) : py_scope.
Notation "' p <- m ;; k" := (bind m (fun p => k))
  (at level 61, p pattern, m at next level, right associativity) : py_scope.
Local Open Scope py_scope.

(** ** Strings as Python sees them *)

Module PyStr.

Definition code (c : ascii) : N := N_of_ascii c.

(** [str.lower] on one character: A-Z, and the Latin-1 capitals
    U+00C0..U+00DE except the multiplication sign, move up by 32. *)
Definition lower_char (c : ascii) : ascii :=
  let n := code c in
  if ((65 <=? n) && (n <=? 90))%N
     || ((192 <=? n) && (n <=? 222) && negb (n =? 215))%N
  then ascii_of_N (n + 32)
  else c.

Fixpoint lower (s : string) : string :=
  match s with
  | EmptyString => EmptyString
  | String c s' => String (lower_char c) (lower s')
  end.

(** [str.isspace] on one character. *)
Definition is_space (c : ascii) : bool :=
  let n := code c in
  (((9 <=? n) && (n <=? 13)) || ((28 <=? n) && (n <=? 32))
   || (n =? 133) || (n =? 160))%N.

Fixpoint mem_char (c : ascii) (chars : string) : bool :=
  match chars with
  | EmptyString => false
  | String c' r => Ascii.eqb c c' || mem_char c r
  end.

Fixpoint lstrip_by (drop : ascii -> bool) (s : string) : string :=
  match s with
  | EmptyString => EmptyString
  | String c s' => if drop c then lstrip_by drop s' else s
  end.

Fixpoint rstrip_by (drop : ascii -> bool) (s : string) : string :=
  match s with
  | EmptyString => EmptyString
  | String c s' =>
      match rstrip_by drop s' with
      | EmptyString => if drop c then EmptyString else String c EmptyString
      | r => String c r
      end
  end.

Definition strip_by (drop : ascii -> bool) (s : string) : string :=
  rstrip_by drop (lstrip_by drop s).

(** [s.strip()] and [s.strip(chars)]. *)
Definition strip (s : string) : string := strip_by is_space s.
Definition strip_chars (chars s : string) : string :=
  strip_by (fun c => mem_char c chars) s.

Fixpoint drop (n : nat) (s : string) : string :=
  match n, s with
  | O, _ => s
  | S _, EmptyString => EmptyString
  | S n', String _ s' => drop n' s'
  end.

(** [needle in hay] for two strings. *)
Fixpoint contains (needle hay : string) : bool :=
  prefix needle hay
  || match hay with
     | EmptyString => false
     | String _ hay' => contains needle hay'
     end.

(** [s.replace(old, new)]: every non-overlapping occurrence, scanning
    from the left; [skip] counts the characters of a match still to be
    passed over. *)
Fixpoint replace_from (old new : string) (skip : nat) (s : string) : string :=
  match s with
  | EmptyString => EmptyString
  | String c s' =>
      match skip with
      | S k => replace_from old new k s'
      | O =>
          if prefix old s
          then new ++ replace_from old new (String.length old - 1) s'
          else String c (replace_from old new 0 s')
      end
  end.

Fixpoint intersperse (new s : string) : string :=
  match s with
  | EmptyString => new
  | String c s' => new ++ String c (intersperse new s')
  end.

Definition replace (old new s : string) : string :=
  match old with
  | EmptyString => intersperse new s
  | _ => replace_from old new 0 s
  end.

Fixpoint join (sep : string) (l : list string) : string :=
  match l with
  | [] => EmptyString
  | [x] => x
  | x :: l' => x ++ sep ++ join sep l'
  end.

Definition of_Z (z : Z) : string := NilZero.string_of_int (Z.to_int z).

End PyStr.

(** ** Python operators on dynamic values *)

Module Py.

(** Truth value of an object. *)
Definition truthy (v : json) : result bool :=
  match v with
  | JNull => Returns false
  | JBool b => Returns b
  | JInt z => Returns (negb (z =? 0)%Z)
  | JFloat _ => Unmodelled
  | JStr s => Returns (negb (String.eqb s ""))
  | JArr l => Returns (match l with [] => false | _ => true end)
  | JObj d => Returns (match d with [] => false | _ => true end)
  end.

(** [len(v)]. *)
Definition len (v : json) : result nat :=
  match v with
  | JStr s => Returns (String.length s)
  | JArr l => Returns (List.length l)
  | JObj d => Returns (List.length d)
  | _ => Raises TypeError
  end.

(** [v == s] for a string literal [s]. *)
Definition eq_str (v : json) (s : string) : bool :=
  match v with
  | JStr s' => String.eqb s' s
  | _ => false
  end.

(** [needle in v] for a string literal [needle]. *)
Definition contains (needle : string) (v : json) : result bool :=
  match v with
  | JStr s => Returns (PyStr.contains needle s)
  | JArr l => Returns (existsb (fun x => eq_str x needle) l)
  | JObj d => Returns (has_key needle d)
  | _ => Raises TypeError
  end.

(** [v[0]]. *)
Definition item0 (v : json) : result json :=
  match v with
  | JArr (x :: _) => Returns x
  | JArr [] => Raises IndexError
  | JStr (String c _) => Returns (JStr (String c EmptyString))
  | JStr EmptyString => Raises IndexError
  | JObj _ => Raises KeyError
  | _ => Raises TypeError
  end.

(** [v[k]] for a string literal [k]. *)
Definition item (v : json) (k : string) : result json :=
  match v with
  | JObj d =>
      match dict_get k d with
      | Some x => Returns x
      | None => Raises KeyError
      end
  | _ => Raises TypeError
  end.

(** [v.get(k, dflt)]. *)
Definition get (v : json) (k : string) (dflt : json) : result json :=
  match v with
  | JObj d => Returns (dict_get_default k dflt d)
  | _ => Raises AttributeError
  end.

(** [v.lower()]. *)
Definition lower (v : json) : result json :=
  match v with
  | JStr s => Returns (JStr (PyStr.lower s))
  | _ => Raises AttributeError
  end.

(** [str(v)] as an f-string renders it. Containers and floats would
    need [repr]. *)
Definition str (v : json) : result string :=
  match v with
  | JStr s => Returns s
  | JNull => Returns "None"
  | JBool true => Returns "True"
  | JBool false => Returns "False"
  | JInt z => Returns (PyStr.of_Z z)
  | _ => Unmodelled
  end.

End Py.

(** ** [json.loads]

    The decoder of the standard library, as the client and the router call
    it: default options, so [NaN], [Infinity] and [-Infinity] are accepted,
    control characters inside strings are refused, and white space is
    space, tab, line feed and carriage return.  A later duplicate key
    overwrites the earlier value.  An escape for a code point above 255,
    and an integer literal beyond the interpreter's digit limit, fall
    outside the value space. *)

Module Json.

Import PyStr.

Definition dquote : ascii := "034"%char.

Definition quoted (s : string) : string :=
  String dquote (s ++ String dquote EmptyString).

Definition is_ws (c : ascii) : bool :=
  let n := code c in ((n =? 32) || (n =? 9) || (n =? 10) || (n =? 13))%N.

Fixpoint skip_ws (s : string) : string :=
  match s with
  | EmptyString => EmptyString
  | String c s' => if is_ws c then skip_ws s' else s
  end.

Definition is_digit (c : ascii) : bool :=
  ((48 <=? code c) && (code c <=? 57))%N.

Definition hex_val (c : ascii) : option N :=
  let n := code c in
  if ((48 <=? n) && (n <=? 57))%N then Some (n - 48)%N
  else if ((97 <=? n) && (n <=? 102))%N then Some (n - 87)%N
  else if ((65 <=? n) && (n <=? 70))%N then Some (n - 55)%N
  else None.

Definition hex4 (a b c d : ascii) : option N :=
  match hex_val a, hex_val b, hex_val c, hex_val d with
  | Some x, Some y, Some z, Some w => Some (((x * 16 + y) * 16 + z) * 16 + w)%N
  | _, _, _, _ => None
  end.

(** The one-letter escapes. *)
Definition unescape (e : ascii) : option ascii :=
  if Ascii.eqb e dquote then Some dquote
  else if Ascii.eqb e "\" then Some "\"%char
  else if Ascii.eqb e "/" then Some "/"%char
  else if Ascii.eqb e "b" then Some "008"%char
  else if Ascii.eqb e "f" then Some "012"%char
  else if Ascii.eqb e "n" then Some "010"%char
  else if Ascii.eqb e "r" then Some "013"%char
  else if Ascii.eqb e "t" then Some "009"%char
  else None.

(** Body of a string literal, the opening quote already consumed:
    the decoded text and the input after the closing quote. *)
Fixpoint scanstring (s : string) : result (string * string) :=
  match s with
  | EmptyString => Raises JSONDecodeError
  | String c r =>
      if Ascii.eqb c dquote then Returns (EmptyString, r)
      else if Ascii.eqb c "\" then
        match r with
        | EmptyString => Raises JSONDecodeError
        | String e r1 =>
            if Ascii.eqb e "u" then
              match r1 with
              | String h1 (String h2 (String h3 (String h4 r2))) =>
                  match hex4 h1 h2 h3 h4 with
                  | None => Raises JSONDecodeError
                  | Some n =>
                      if (n <? 256)%N
                      then '(str, rest) <- scanstring r2 ;;
                           Returns (String (ascii_of_N n) str, rest)
                      else Unmodelled
                  end
              | _ => Raises JSONDecodeError
              end
            else
              match unescape e with
              | None => Raises JSONDecodeError
              | Some ch =>
                  '(str, rest) <- scanstring r1 ;;
                  Returns (String ch str, rest)
              end
        end
      else if (code c <? 32)%N then Raises JSONDecodeError
      else '(str, rest) <- scanstring r ;; Returns (String c str, rest)
  end.

Fixpoint span_digits (s : string) : string * string :=
  match s with
  | EmptyString => (EmptyString, EmptyString)
  | String c r =>
      if is_digit c
      then let '(ds, rest) := span_digits r in (String c ds, rest)
      else (EmptyString, s)
  end.

Fixpoint digits_value (acc : Z) (ds : string) : Z :=
  match ds with
  | EmptyString => acc
  | String c r => digits_value (10 * acc + Z.of_N (code c - 48)) r
  end.

(** The three groups of the number pattern: an optional minus sign with
    either a lone zero or a non-zero digit and more digits; an optional
    dot with one digit or more; an optional exponent letter with an
    optional sign and one digit or more. *)
Definition match_integer (s : string) : option (bool * string * string) :=
  let '(neg, s1) :=
    match s with
    | String c r => if Ascii.eqb c "-" then (true, r) else (false, s)
    | EmptyString => (false, s)
    end in
  match s1 with
  | EmptyString => None
  | String c r =>
      if Ascii.eqb c "0" then Some (neg, String c EmptyString, r)
      else if is_digit c
      then let '(ds, rest) := span_digits r in Some (neg, String c ds, rest)
      else None
  end.

Definition match_frac (s : string) : string * string :=
  match s with
  | String c r =>
      if Ascii.eqb c "." then
        match span_digits r with
        | (EmptyString, _) => (EmptyString, s)
        | (ds, rest) => (String c ds, rest)
        end
      else (EmptyString, s)
  | EmptyString => (EmptyString, s)
  end.

Definition match_exp (s : string) : string * string :=
  match s with
  | String e r =>
      if Ascii.eqb e "e" || Ascii.eqb e "E" then
        let '(sign, r1) :=
          match r with
          | String c r' =>
              if Ascii.eqb c "+" || Ascii.eqb c "-"
              then (String c EmptyString, r') else (EmptyString, r)
          | EmptyString => (EmptyString, r)
          end in
        match span_digits r1 with
        | (EmptyString, _) => (EmptyString, s)
        | (ds, rest) => (String e (sign ++ ds), rest)
        end
      else (EmptyString, s)
  | EmptyString => (EmptyString, s)
  end.

(** Digits an [int] literal may have before [int()] refuses it. *)
Definition max_str_digits : nat := 4300.

Definition match_number (s : string) : option (result json * string) :=
  match match_integer s with
  | None => None
  | Some (neg, ds, r0) =>
      let '(frac, r1) := match_frac r0 in
      let '(exp, r2) := match_exp r1 in
      match frac, exp with
      | EmptyString, EmptyString =>
          if (max_str_digits <? String.length ds)%nat then Some (Unmodelled, r2)
          else
            let v := digits_value 0 ds in
            Some (Returns (JInt (if neg then - v else v)%Z), r2)
      | _, _ =>
          Some (Returns (JFloat ((if neg then "-" else "") ++ ds ++ frac ++ exp)), r2)
      end
  end.

Definition keyword (s : string) : option (json * string) :=
  if prefix "null" s then Some (JNull, drop 4 s)
  else if prefix "true" s then Some (JBool true, drop 4 s)
  else if prefix "false" s then Some (JBool false, drop 5 s)
  else if prefix "NaN" s then Some (JFloat "NaN", drop 3 s)
  else if prefix "Infinity" s then Some (JFloat "Infinity", drop 8 s)
  else if prefix "-Infinity" s then Some (JFloat "-Infinity", drop 9 s)
  else None.

(** Levels of nested arrays and objects the decoder is followed through.
    The interpreter charges every array and object it enters against its
    recursion limit and raises [RecursionError] when that is used up,
    which no handler for [JSONDecodeError] or [ValueError] catches.  Where
    the limit lies depends on the interpreter and on the stack in use, so
    the decoder below follows the text to this depth, well inside every
    default limit, and answers [Unmodelled] on anything deeper. *)
Definition MAX_NESTING : nat := 100.

(** One value at the head of [s], with the unread rest.  [fuel] bounds
    the number of nested and chained calls; each call consumes at least
    one character, so twice the length of the input is never exhausted
    by [loads].  [depth] is the number of container levels that may
    still be entered. *)
Fixpoint scan_once (fuel depth : nat) (s : string) {struct fuel}
  : result (json * string) :=
  match fuel with
  | O => Unmodelled
  | S fuel' =>
      match s with
      | EmptyString => Raises JSONDecodeError
      | String c r =>
          if Ascii.eqb c dquote then
            '(str, rest) <- scanstring r ;; Returns (JStr str, rest)
          else if Ascii.eqb c "{" then
            match depth with
            | O => Unmodelled
            | S depth' =>
                match skip_ws r with
                | String c1 r1 =>
                    if Ascii.eqb c1 "}" then Returns (JObj [], r1)
                    else if Ascii.eqb c1 dquote
                    then parse_members fuel' depth' r1 []
                    else Raises JSONDecodeError
                | EmptyString => Raises JSONDecodeError
                end
            end
          else if Ascii.eqb c "[" then
            match depth with
            | O => Unmodelled
            | S depth' =>
                match skip_ws r with
                | String c1 r1 =>
                    if Ascii.eqb c1 "]" then Returns (JArr [], r1)
                    else parse_elements fuel' depth' (String c1 r1) []
                | EmptyString => Raises JSONDecodeError
                end
            end
          else
            match keyword s with
            | Some (v, rest) => Returns (v, rest)
            | None =>
                match match_number s with
                | Some (n, rest) => v <- n ;; Returns (v, rest)
                | None => Raises JSONDecodeError
                end
            end
      end
  end

with parse_elements (fuel depth : nat) (s : string) (acc : list json)
  {struct fuel} : result (json * string) :=
  match fuel with
  | O => Unmodelled
  | S fuel' =>
      '(v, r) <- scan_once fuel' depth s ;;
      match skip_ws r with
      | String c r1 =>
          if Ascii.eqb c "]" then Returns (JArr (acc ++ [v]), r1)
          else if Ascii.eqb c ","
          then parse_elements fuel' depth (skip_ws r1) (acc ++ [v])
          else Raises JSONDecodeError
      | EmptyString => Raises JSONDecodeError
      end
  end

with parse_members (fuel depth : nat) (s : string) (acc : dict json)
  {struct fuel} : result (json * string) :=
  match fuel with
  | O => Unmodelled
  | S fuel' =>
      '(key, r) <- scanstring s ;;
      match skip_ws r with
      | String c r1 =>
          if Ascii.eqb c ":" then
            '(v, r2) <- scan_once fuel' depth (skip_ws r1) ;;
            let acc' := dict_set key v acc in
            match skip_ws r2 with
            | String c2 r3 =>
                if Ascii.eqb c2 "}" then Returns (JObj acc', r3)
                else if Ascii.eqb c2 "," then
                  match skip_ws r3 with
                  | String c3 r4 =>
                      if Ascii.eqb c3 dquote
                      then parse_members fuel' depth r4 acc'
                      else Raises JSONDecodeError
                  | EmptyString => Raises JSONDecodeError
                  end
                else Raises JSONDecodeError
            | EmptyString => Raises JSONDecodeError
            end
          else Raises JSONDecodeError
      | EmptyString => Raises JSONDecodeError
      end
  end.

(** [json.loads(s)] *)
Definition loads (s : string) : result json :=
  '(v, r) <- scan_once (2 * String.length s + 2) MAX_NESTING (skip_ws s) ;;
  match skip_ws r with
  | EmptyString => Returns v
  | String _ _ => Raises JSONDecodeError
  end.

(** [json.loads(v)] for a dynamic argument: only text can be decoded. *)
Definition loads_value (v : json) : result json :=
  match v with
  | JStr s => loads s
  | _ => Raises TypeError
  end.

End Json.

(** ** agent/mcp_agent_mail_client.py *)

Module Client.

(** The guard that opens [_extract_structured_content]: a first content
    item of type text whose text mentions an error aborts the call with
    [Exception(text)]. *)
Definition check_error_content (response : dict json) : result unit :=
  if has_key "content" response then
    n <- Py.len (dict_get_default "content" (JArr []) response) ;;
    if (0 <? n)%nat then
      first_content <- Py.item0 (dict_get_default "content" (JArr []) response) ;;
      ty <- Py.get first_content "type" JNull ;;
      if Py.eq_str ty "text" then
        text <- Py.get first_content "text" (JStr "") ;;
        is_error <- Py.contains "Error" text ;;
        if is_error then Raises (Exception text)
        else
          lowered <- Py.lower text ;;
          is_missing <- Py.contains "not found" lowered ;;
          if is_missing then Raises (Exception text) else Returns tt
      else Returns tt
    else Returns tt
  else Returns tt.

(** Case 3 of the source: the tools/call wrapper, whose payload is the
    JSON text of the first content item.  [None] stands for falling out
    of the [if] without returning. *)
Definition unwrap_call_result (response : dict json) : result (option json) :=
  let content_list := dict_get_default "content" (JArr []) response in
  n <- Py.len content_list ;;
  if (0 <? n)%nat then
    first_content <- Py.item0 content_list ;;
    ty <- Py.get first_content "type" JNull ;;
    if Py.eq_str ty "text" then
      text <- Py.get first_content "text" (JStr "{}") ;;
      match Json.loads_value text with
      | Returns actual_result => Returns (Some actual_result)
      | Raises JSONDecodeError => Returns (Some (JObj response))
      | Raises e => Raises e
      | Unmodelled => Unmodelled
      end
    else Returns None
  else Returns None.

Definition _extract_structured_content (response : dict json) : result json :=
  _ <- check_error_content response ;;
  match dict_get "structuredContent" response with
  | Some structured => Returns structured
  | None =>
      if has_key "result" response && negb (has_key "content" response) then
        Returns (dict_get_default "result" JNull response)
      else if has_key "result" response && has_key "content" response then
        unwrapped <- unwrap_call_result response ;;
        match unwrapped with
        | Some v => Returns v
        | None => Returns (JObj response)
        end
      else Returns (JObj response)
  end.

Section Transport.

(** [await mcp_client.call_tool(name, arguments)]: the reply of the mail
    server, or the exception of the transport. *)
Variable call_tool : string -> dict json -> result (dict json).

(** [str(e)] for the exceptions whose text the model does not hold. *)
Variable exn_text : exn -> string.

(** [json.dumps(content)] and [str(content)] of a message payload. *)
Variable dumps : dict json -> string.
Variable repr : dict json -> string.

(** [str(e)]: an [Exception] built from a string prints that string. *)
Definition str_exn (e : exn) : string :=
  match e with
  | Exception (JStr text) => text
  | _ => exn_text e
  end.

(** The body shared by the six helpers: call the tool, normalise the
    reply, and turn any exception into a failure report. *)
Definition call_and_extract (tool_name : string) (arguments : dict json)
  : result (dict json) :=
  match
    (response <- call_tool "call_tool"
                   [ ("tool_name", JStr tool_name); ("arguments", JObj arguments) ] ;;
     _extract_structured_content response)
  with
  | Returns extracted =>
      Returns [ ("success", JBool true); ("response", extracted) ]
  | Raises e =>
      Returns [ ("success", JBool false); ("error", JStr (str_exn e)) ]
  | Unmodelled => Unmodelled
  end.

(** The [params] of [register_agent]: the name only when one is given. *)
Definition register_params
  (project_key : string) (agent_name : option string)
  (model task_description : string) : dict json :=
  let params :=
    [ ("project_key", JStr project_key);
      ("program", JStr "factory-droid");
      ("model", JStr model);
      ("task_description", JStr task_description) ] in
  match agent_name with
  | Some name =>
      if String.eqb name "" then params else dict_set "name" (JStr name) params
  | None => params
  end.

Definition register_agent
  (project_key : string) (agent_name : option string)
  (model task_description : string) : result (dict json) :=
  call_and_extract "register_agent"
    (register_params project_key agent_name model task_description).

(** The arguments of [send_message]. *)
Definition send_arguments
  (project_key sender_name recipient_name : string)
  (content : dict json) (importance : string) : dict json :=
  [ ("project_key", JStr project_key);
    ("sender_name", JStr sender_name);
    ("to", JArr [JStr recipient_name]);
    ("subject", dict_get_default "subject" (JStr "") content);
    ("body_md", JStr (if has_key "type" content then dumps content else repr content));
    ("importance", JStr importance) ].

Definition send_message
  (project_key sender_name recipient_name : string)
  (content : dict json) (importance : string) : result (dict json) :=
  call_and_extract "send_message"
    (send_arguments project_key sender_name recipient_name content importance).

Definition fetch_inbox
  (project_key agent_name : string) (limit : Z) (acknowledged_only : bool)
  : result (dict json) :=
  call_and_extract "fetch_inbox"
    [ ("project_key", JStr project_key);
      ("agent_name", JStr agent_name);
      ("limit", JInt limit);
      ("acknowledged_only", JBool acknowledged_only) ].

Definition acknowledge_message
  (project_key agent_name message_id : string) : result (dict json) :=
  call_and_extract "acknowledge_message"
    [ ("project_key", JStr project_key);
      ("agent_name", JStr agent_name);
      ("message_id", JStr message_id) ].

Definition reserve_file_paths
  (project_key agent_name : string) (paths : list string)
  (ttl_seconds : Z) (exclusive : bool) : result (dict json) :=
  call_and_extract "reserve_file_paths"
    [ ("project_key", JStr project_key);
      ("agent_name", JStr agent_name);
      ("paths", JArr (map JStr paths));
      ("ttl_seconds", JInt ttl_seconds);
      ("exclusive", JBool exclusive) ].

Definition release_file_reservations
  (project_key agent_name : string) : result (dict json) :=
  call_and_extract "release_file_reservations"
    [ ("project_key", JStr project_key);
      ("agent_name", JStr agent_name) ].

End Transport.

End Client.

(** ** agent/handoff_protocol.py *)

Module Handoff.

Definition MESSAGE_TYPE_TASK_ASSIGNMENT : string := "task_assignment".
Definition MESSAGE_VERSION : string := "1.0.0".

(** The clock and the UUID generator are the two inputs of the
    environment; they are passed in. *)
Record stamp : Type := {
  utc_timestamp : string;
  message_id : string
}.

Definition create_base_message (env : stamp) (sender_id message_type : string)
  : dict json :=
  [ ("version", JStr MESSAGE_VERSION);
    ("timestamp", JStr (utc_timestamp env));
    ("sender_id", JStr sender_id);
    ("message_id", JStr (message_id env));
    ("type", JStr message_type) ].

Definition str_list (l : list string) : json := JArr (map JStr l).

(** [if x: message[k] = x] for an optional argument already rendered as a
    dynamic value; [None] is the default of the parameter. *)
Definition set_if_truthy (k : string) (x : option json) (message : dict json)
  : dict json :=
  match x with
  | None => message
  | Some v =>
      match Py.truthy v with
      | Returns true => dict_set k v message
      | _ => message
      end
  end.

Definition create_task_assignment_message
  (env : stamp)
  (sender_id task_id description : string)
  (file_patterns : list string)
  (priority : string)
  (priority_value : Z)
  (specification : option (dict json))
  (dependencies : option (list string))
  (estimated_duration_minutes : option Z)
  (deadline : option string)
  (metadata : option (dict json))
  : dict json :=
  let message := create_base_message env sender_id MESSAGE_TYPE_TASK_ASSIGNMENT in
  let message := dict_set "task_id" (JStr task_id) message in
  let message := dict_set "description" (JStr description) message in
  let message := dict_set "file_patterns" (str_list file_patterns) message in
  let message := dict_set "priority" (JStr priority) message in
  let message := dict_set "priority_value" (JInt priority_value) message in
  let message := set_if_truthy "specification" (option_map JObj specification) message in
  let message := set_if_truthy "dependencies" (option_map str_list dependencies) message in
  let message :=
    set_if_truthy "estimated_duration_minutes"
      (option_map JInt estimated_duration_minutes) message in
  let message := set_if_truthy "deadline" (option_map JStr deadline) message in
  let message := set_if_truthy "metadata" (option_map JObj metadata) message in
  message.

Definition MESSAGE_TYPE_TASK_COMPLETION : string := "task_completion".
Definition MESSAGE_TYPE_ERROR_REPORT : string := "error_report".
Definition MESSAGE_TYPE_STATUS_UPDATE : string := "status_update".
Definition MESSAGE_TYPE_COORDINATION_REQUEST : string := "coordination_request".
Definition MESSAGE_TYPE_FILE_RESERVATION : string := "file_reservation".

Definition dict_list (l : list (dict json)) : json := JArr (map JObj l).

(** [x or []] *)
Definition or_empty (l : option (list string)) : list string :=
  match l with
  | Some (x :: r) => x :: r
  | _ => []
  end.

Definition create_task_completion_message
  (env : stamp)
  (sender_id task_id status completion_summary : string)
  (files_modified : option (list string))
  (test_results : option (dict json))
  (errors_encountered : option (list string))
  (warnings : option (list string))
  (time_spent_minutes : option Z)
  (next_tasks : option (list (dict json)))
  (metadata : option (dict json))
  : dict json :=
  let message := create_base_message env sender_id MESSAGE_TYPE_TASK_COMPLETION in
  let message := dict_set "task_id" (JStr task_id) message in
  let message := dict_set "status" (JStr status) message in
  let message := dict_set "completion_summary" (JStr completion_summary) message in
  let message := dict_set "files_modified" (str_list (or_empty files_modified)) message in
  let message :=
    dict_set "errors_encountered" (str_list (or_empty errors_encountered)) message in
  let message := set_if_truthy "test_results" (option_map JObj test_results) message in
  let message := set_if_truthy "warnings" (option_map str_list warnings) message in
  let message :=
    set_if_truthy "time_spent_minutes" (option_map JInt time_spent_minutes) message in
  let message := set_if_truthy "next_tasks" (option_map dict_list next_tasks) message in
  let message := set_if_truthy "metadata" (option_map JObj metadata) message in
  message.

(** The nested [error] object of an error report. *)
Definition error_object
  (error_code error_message : string)
  (stack_trace : option string)
  (error_context : option (dict json))
  : dict json :=
  let error_obj := [ ("code", JStr error_code); ("message", JStr error_message) ] in
  let error_obj := set_if_truthy "stack_trace" (option_map JStr stack_trace) error_obj in
  let error_obj := set_if_truthy "context" (option_map JObj error_context) error_obj in
  error_obj.

Definition create_error_report_message
  (env : stamp)
  (sender_id task_id severity error_code error_message : string)
  (stack_trace : option string)
  (error_context : option (dict json))
  (attempted_solutions : option (list (dict json)))
  (reproduction_steps : option (list string))
  (needs_human_intervention : bool)
  (suggested_actions : option (list string))
  (impact : option (dict json))
  (attachments : option (list (dict json)))
  : dict json :=
  let message := create_base_message env sender_id MESSAGE_TYPE_ERROR_REPORT in
  let message := dict_set "task_id" (JStr task_id) message in
  let message := dict_set "severity" (JStr severity) message in
  let error_obj := error_object error_code error_message stack_trace error_context in
  let message := dict_set "error" (JObj error_obj) message in
  let message :=
    dict_set "needs_human_intervention" (JBool needs_human_intervention) message in
  let message :=
    set_if_truthy "attempted_solutions" (option_map dict_list attempted_solutions) message in
  let message :=
    set_if_truthy "reproduction_steps" (option_map str_list reproduction_steps) message in
  let message :=
    set_if_truthy "suggested_actions" (option_map str_list suggested_actions) message in
  let message := set_if_truthy "impact" (option_map JObj impact) message in
  let message := set_if_truthy "attachments" (option_map dict_list attachments) message in
  message.

Definition create_status_update_message
  (env : stamp)
  (sender_id task_id update_type status_summary : string)
  (progress metrics : option (dict json))
  (blockers : option (list string))
  (next_milestone : option string)
  (metadata : option (dict json))
  : dict json :=
  let message := create_base_message env sender_id MESSAGE_TYPE_STATUS_UPDATE in
  let message := dict_set "task_id" (JStr task_id) message in
  let message := dict_set "update_type" (JStr update_type) message in
  let message := dict_set "status_summary" (JStr status_summary) message in
  let message := set_if_truthy "progress" (option_map JObj progress) message in
  let message := set_if_truthy "metrics" (option_map JObj metrics) message in
  let message :=
    match blockers with
    | Some (b :: bs) => dict_set "blockers" (str_list (b :: bs)) message
    | _ => dict_set "blockers" (JArr []) message
    end in
  let message := set_if_truthy "next_milestone" (option_map JStr next_milestone) message in
  let message := set_if_truthy "metadata" (option_map JObj metadata) message in
  message.

(** The [(success, message_id)] pair of the high-level functions:
    [message["message_id"]] inside a [try] whose handler answers
    [(False, None)]. *)
Definition sent_id (message : dict json) : bool * option json :=
  match dict_get "message_id" message with
  | Some mid => (true, Some mid)
  | None => (false, None)
  end.

(** The envelope that the module-level [delegate_task] builds. *)
Definition delegate_task_message
  (env : stamp)
  (task_id description : string)
  (file_patterns specialist_tags : list string)
  (estimated_minutes : Z)
  (orchestrator_name : string)
  : dict json :=
  create_task_assignment_message env orchestrator_name task_id description
    file_patterns
    (if (120 <? estimated_minutes)%Z then "high" else "normal")
    (if (120 <? estimated_minutes)%Z then 1 else 2)%Z
    None None (Some estimated_minutes) None
    (Some [ ("labels", str_list specialist_tags);
            ("agent_role", JStr "implementation") ]).

Definition delegate_task
  (env : stamp)
  (task_id agent_name description : string)
  (file_patterns specialist_tags : list string)
  (estimated_minutes : Z)
  (project_key orchestrator_name : string)
  : bool * option json :=
  sent_id (delegate_task_message env task_id description file_patterns
             specialist_tags estimated_minutes orchestrator_name).

Definition DEFAULT_TEST_RESULTS : dict json :=
  [ ("unit_tests", JObj [("total", JInt 0); ("passed", JInt 0); ("failed", JInt 0)]);
    ("integration_tests",
     JObj [("total", JInt 0); ("passed", JInt 0); ("failed", JInt 0)]) ].

(** The envelope that [report_task_completion] builds. *)
Definition report_task_completion_message
  (env : stamp)
  (task_id agent_name completion_summary : string)
  (files_modified : list string)
  (time_spent_minutes : Z)
  (test_results : option (dict json))
  : dict json :=
  create_task_completion_message env agent_name task_id "complete"
    completion_summary (Some files_modified)
    (Some match test_results with
          | Some (r :: rs) => r :: rs
          | _ => DEFAULT_TEST_RESULTS
          end)
    None None (Some time_spent_minutes) None None.

Definition report_task_completion
  (env : stamp)
  (task_id agent_name completion_summary : string)
  (files_modified : list string)
  (time_spent_minutes : Z)
  (project_key : string)
  (test_results : option (dict json))
  : bool * option json :=
  sent_id (report_task_completion_message env task_id agent_name
             completion_summary files_modified time_spent_minutes test_results).

Definition report_error
  (env : stamp)
  (task_id agent_name severity error_code error_message : string)
  (needs_human_intervention : bool)
  : bool * option json :=
  sent_id (create_error_report_message env agent_name task_id severity
             error_code error_message None None None None
             needs_human_intervention None None None).

End Handoff.

(** ** Python sets of hashable values *)

Module PySet.

(** [hash(v)] succeeds on scalars only. *)
Definition hashable (v : json) : result unit :=
  match v with
  | JArr _ | JObj _ => Raises TypeError
  | JFloat _ => Unmodelled
  | _ => Returns tt
  end.

Definition as_int (v : json) : option Z :=
  match v with
  | JBool true => Some 1%Z
  | JBool false => Some 0%Z
  | JInt z => Some z
  | _ => None
  end.

(** Equality of two hashable values: [True == 1], and a string only
    equals a string. *)
Definition key_eqb (a b : json) : bool :=
  match a, b with
  | JStr x, JStr y => String.eqb x y
  | JNull, JNull => true
  | _, _ =>
      match as_int a, as_int b with
      | Some x, Some y => (x =? y)%Z
      | _, _ => false
      end
  end.

Definition mem (x : json) (s : list json) : bool := existsb (key_eqb x) s.

Definition add (x : json) (s : list json) : list json :=
  if mem x s then s else s ++ [x].

(** [set(l)] for values known to be hashable. *)
Definition of_list (l : list json) : list json :=
  fold_left (fun s x => add x s) l [].

(** [iter(v)] *)
Definition elements (v : json) : result (list json) :=
  match v with
  | JArr l => Returns l
  | JStr s => Returns (map (fun c => JStr (String c EmptyString)) (list_ascii_of_string s))
  | JObj d => Returns (map JStr (keys d))
  | _ => Raises TypeError
  end.

(** [s.update(items)] *)
Fixpoint update (s : list json) (items : list json) : result (list json) :=
  match items with
  | [] => Returns s
  | x :: items' => _ <- hashable x ;; update (add x s) items'
  end.

Definition inter (a b : list json) : list json := filter (fun x => mem x b) a.

Definition union (a b : list json) : list json :=
  a ++ filter (fun x => negb (mem x a)) b.

End PySet.

(** ** Floating point arithmetic *)

Module PyFloat.

(** The integer nearest to [x / y] for [0 < y], ties to the even one. *)
Definition nearest_even (x y : Z) : Z :=
  let q := (x / y)%Z in
  let r := (x mod y)%Z in
  match (2 * r ?= y)%Z with
  | Lt => q
  | Gt => (q + 1)%Z
  | Eq => if Z.even q then q else (q + 1)%Z
  end.

(** The double nearest to a rational: a significand of 53 bits, ties to
    the even one.  The exponent is not bounded; the quotients taken here
    lie between the reciprocal of a set size and one hundred. *)
Definition binary64 (q : Q) : Q :=
  let n := Qnum q in
  let d := Zpos (Qden q) in
  if (n =? 0)%Z then 0
  else
    let a := Z.abs n in
    let scale (e : Z) : Z * Z :=
      if (0 <=? e)%Z then (a, d * 2 ^ e)%Z else (a * 2 ^ (- e), d)%Z in
    let e0 := (Z.log2 a - Z.log2 d - 52)%Z in
    let e := let '(x, y) := scale e0 in
             if (x <? 2 ^ 52 * y)%Z then (e0 - 1)%Z else e0 in
    let '(x, y) := scale e in
    let m := (Z.sgn n * nearest_even x y)%Z in
    Qred (if (0 <=? e)%Z then inject_Z (m * 2 ^ e)
          else m # Z.to_pos (2 ^ (- e))).

(** [a / b] on two [int]s, for [0 < b]. *)
Definition truediv (a b : nat) : Q := binary64 (Z.of_nat a # Pos.of_nat b).

(** [x * y] on two [float]s. *)
Definition mul (x y : Q) : Q := binary64 (x * y).

End PyFloat.

(** ** agent/enhanced_orchestrator.py *)

Module EnhancedOrchestrator.

Record agent_info : Type := {
  specialist_tags : list string;
  capabilities : list string;
  description : string
}.

Definition load_agent_definitions : dict agent_info :=
  [ ("orchestrator",
     {| specialist_tags := ["coordination"; "routing"; "task-management"];
        capabilities := ["task_delegation"; "agent_coordination"; "conflict_resolution"];
        description := "Main coordinator for task delegation and agent management" |});
    ("prd",
     {| specialist_tags := ["requirements"; "planning"; "documentation"; "analysis"];
        capabilities := ["prd_generation"; "requirements_gathering"; "specification"];
        description := "Generates Product Requirements Documents and specifications" |});
    ("generate-tasks",
     {| specialist_tags := ["task-generation"; "planning"; "breakdown"];
        capabilities := ["task_breakdown"; "parallelization"; "dependency_mapping"];
        description := "Breaks down features into implementation tasks" |});
    ("task-coordinator",
     {| specialist_tags := ["bd"; "bv"; "beads"; "task-tracking"];
        capabilities := ["task_management"; "dependency_tracking"; "progress_monitoring"];
        description := "Manages task creation, tracking, and coordination using beads" |});
    ("codebase-researcher",
     {| specialist_tags := ["codebase"; "research"; "analysis"; "patterns"];
        capabilities := ["code_analysis"; "pattern_detection"; "architecture_review"];
        description := "Analyzes codebase for patterns, architecture, and technical context" |});
    ("git-history-analyzer",
     {| specialist_tags := ["git"; "history"; "analysis"; "evolution"];
        capabilities := ["commit_analysis"; "change_tracking"; "collaboration_analysis"];
        description := "Analyzes git history for patterns and team collaboration" |});
    ("figma-design-extractor",
     {| specialist_tags := ["figma"; "design"; "ui"; "frontend"];
        capabilities := ["design_extraction"; "token_analysis"; "component_specification"];
        description := "Extracts design tokens and specifications from Figma" |});
    ("implementation",
     {| specialist_tags := ["implementation"; "coding"; "development"];
        capabilities := ["code_generation"; "feature_implementation"; "integration"];
        description := "Implements features and writes code" |});
    ("testing",
     {| specialist_tags := ["testing"; "validation"; "quality"];
        capabilities := ["test_generation"; "validation"; "verification"];
        description := "Tests implementations and validates requirements" |});
    ("fixing",
     {| specialist_tags := ["fixing"; "debugging"; "repair"];
        capabilities := ["bug_fixing"; "issue_resolution"; "troubleshooting"];
        description := "Fixes bugs and resolves issues identified in testing" |});
    ("verification",
     {| specialist_tags := ["verification"; "review"; "approval"];
        capabilities := ["final_review"; "sign_off"; "quality_assurance"];
        description := "Verifies work is complete and ready for next phase" |}) ].

Definition HANDOFF_MARKER : string := "EXPLICIT_HANDOFF:".

(** The two quote characters removed around the annotation. *)
Definition QUOTE_CHARS : string := String Json.dquote "'".

(** The JSON text that [parse_notes_for_handoff] hands to the decoder. *)
Definition handoff_json_str (notes : string) : string :=
  PyStr.strip_chars QUOTE_CHARS (PyStr.strip (PyStr.replace HANDOFF_MARKER "" notes)).

(** Returns the decoded annotation, or [JNull] for Python's [None].  The
    diagnostic written to the error stream on a decoding failure is not
    part of the result. *)
Definition parse_notes_for_handoff (notes : json) : result json :=
  nonempty <- Py.truthy notes ;;
  if negb nonempty then Returns JNull
  else
    marked <- Py.contains HANDOFF_MARKER notes ;;
    if negb marked then Returns JNull
    else
      match notes with
      | JStr s =>
          match Json.loads (handoff_json_str s) with
          | Returns handoff_data => Returns handoff_data
          | Raises JSONDecodeError => Returns JNull
          | Raises ValueError => Returns JNull
          | Raises e => Raises e
          | Unmodelled => Unmodelled
          end
      | _ => Raises AttributeError
      end.

Definition keyword_map : dict (list string) :=
  [ ("python", ["python"; "backend"; "django"; "flask"; "fastapi"]);
    ("testing", ["testing"; "tests"; "pytest"; "unittest"; "validate"; "test"]);
    ("mcp", ["mcp"; "agent"; "mail"; "orchestrator"; "coordination"]);
    ("frontend", ["react"; "typescript"; "javascript"; "frontend"; "ui"; "component"; "html"; "css"]);
    ("database", ["database"; "sql"; "migration"; "schema"; "sqlite"; "postgres"; "mysql"]);
    ("documentation", ["documentation"; "docs"; "readme"; "guide"; "comment"]);
    ("shell", ["bash"; "shell"; "script"; "automation"]);
    ("validation", ["validate"; "verify"; "check"; "ensure"]);
    ("implementation", ["implement"; "code"; "develop"; "create"; "build"]);
    ("fixing", ["fix"; "repair"; "debug"; "resolve"]);
    ("git", ["git"; "commit"; "history"; "branch"; "merge"]);
    ("figma", ["figma"; "design"; "ui"; "mockup"; "prototype"]) ].

(** Tags announced by the annotation in [notes]. *)
Definition explicit_tags (task_data : dict json) : result (list json) :=
  match dict_get "notes" task_data with
  | None => Returns []
  | Some notes =>
      has_notes <- Py.truthy notes ;;
      if has_notes then
        handoff_data <- parse_notes_for_handoff notes ;;
        present <- Py.truthy handoff_data ;;
        if present then
          tagged <- Py.contains "specialist_tags" handoff_data ;;
          if tagged then
            announced <- Py.item handoff_data "specialist_tags" ;;
            items <- PySet.elements announced ;;
            PySet.update [] items
          else Returns []
        else Returns []
      else Returns []
  end.

(** Tags detected in the lower-cased title and description. *)
Definition detect_keywords (text : string) (tags : list json) : list json :=
  fold_left
    (fun tags '(tag, keywords) =>
       if existsb (fun keyword => PyStr.contains keyword text) keywords
       then PySet.add (JStr tag) tags
       else tags)
    keyword_map tags.

(** [if not tags: tags.add('general')] *)
Definition general_if_empty (tags : list json) : list json :=
  match tags with
  | [] => PySet.add (JStr "general") tags
  | _ :: _ => tags
  end.

(** The result is [list(tags)]; Python fixes no order for it, the model
    lists the tags in the order they were added. *)
Definition extract_specialist_tags (task_data : dict json) : result (list json) :=
  tags <- explicit_tags task_data ;;
  title <- Py.str (dict_get_default "title" (JStr "") task_data) ;;
  descr <- Py.str (dict_get_default "description" (JStr "") task_data) ;;
  let text := PyStr.lower (title ++ " " ++ descr) in
  Returns (general_if_empty (detect_keywords text tags)).

(** Overlap score of an agent against the tags of a task. *)
Definition overlap (agent_tags task_tag_set : list json) : nat :=
  List.length (PySet.inter agent_tags task_tag_set).

Definition total (agent_tags task_tag_set : list json) : nat :=
  List.length (PySet.union agent_tags task_tag_set).

Definition ratio (num den : nat) : Q := Z.of_nat num # Pos.of_nat den.

Definition jaccard (agent_tags task_tag_set : list json) : Q :=
  if (0 <? total agent_tags task_tag_set)%nat
  then ratio (overlap agent_tags task_tag_set) (total agent_tags task_tag_set)
  else 0.

Definition agent_tag_set (info : agent_info) : list json :=
  PySet.of_list (map JStr (specialist_tags info)).

Definition Qltb (x y : Q) : bool := negb (Qle_bool y x).

(** [max(items, key=...)] on a non-empty sequence: the first item whose
    key no later item exceeds. *)
Fixpoint max_from {A : Type} (key : A -> Q) (best : A) (items : list A) : A :=
  match items with
  | [] => best
  | x :: items' => max_from key (if Qltb (key best) (key x) then x else best) items'
  end.

Definition max_by {A : Type} (key : A -> Q) (items : list A) : result A :=
  match items with
  | [] => Raises ValueError
  | x :: items' => Returns (max_from key x items')
  end.

(** The floor below which no agent is proposed. *)
Definition THRESHOLD : Q := 3 # 10.

Section Instance.

(** [self.agent_registry] *)
Variable agent_registry : dict agent_info.

Definition agent_scores (specialist_tags : list json) : dict Q :=
  fold_left
    (fun scores '(agent_name, info) =>
       dict_set agent_name
         (jaccard (agent_tag_set info) (PySet.of_list specialist_tags)) scores)
    agent_registry [].

Definition match_agent_to_task (task_data : dict json) : result (option string) :=
  specialist_tags <- extract_specialist_tags task_data ;;
  match specialist_tags with
  | [] => Returns None
  | _ =>
      best_agent <- max_by snd (agent_scores specialist_tags) ;;
      if Qle_bool THRESHOLD (snd best_agent)
      then Returns (Some (fst best_agent))
      else Returns None
  end.

(** [subprocess.run(['bd', 'show', task_id, '--json'], check=True).stdout];
    the task store is read-only while a batch is routed. *)
Variable bd_show : string -> result string.

(** [str(e)] of a caught exception, as interpolated in error messages. *)
Variable exn_text : exn -> string.

(** Truth value of an optional agent name. *)
Definition named (agent : option string) : bool :=
  match agent with
  | Some name => negb (String.eqb name "")
  | None => false
  end.

(** The [try] block of [route_task].  The assignment envelope it builds
    is dropped and its construction cannot fail, so it leaves no trace. *)
Definition route_task_try (task_id orchestrator_name : string)
  : result (bool * string * option string) :=
  stdout <- bd_show task_id ;;
  task_data <- Json.loads stdout ;;
  let task_data :=
    match task_data with
    | JArr (first :: _) => first
    | _ => task_data
    end in
  title <- Py.get task_data "title" (JStr "Unknown Task") ;;
  descr <- Py.get task_data "description" (JStr "") ;;
  match task_data with
  | JObj fields =>
      specialist_tags <- extract_specialist_tags fields ;;
      assigned_agent <- match_agent_to_task fields ;;
      if named assigned_agent then
        Returns (true,
                 ("Task " ++ task_id ++ " routed to "
                    ++ match assigned_agent with Some a => a | None => "" end)%string,
                 assigned_agent)
      else
        Returns (false, ("No suitable agent found for task " ++ task_id)%string, None)
  | _ => Raises AttributeError
  end.

Definition route_task (task_id orchestrator_name : string)
  : result (bool * string * option string) :=
  match route_task_try task_id orchestrator_name with
  | Returns outcome => Returns outcome
  | Raises e =>
      Returns (false,
               ("Error routing task " ++ task_id ++ ": " ++ exn_text e)%string,
               None)
  | Unmodelled => Unmodelled
  end.

Record report : Type := {
  total_tasks : nat;
  successful_routes : nat;
  failed_routes : nat;
  assignments : dict (option string);
  errors : list (string * string)
}.

Definition record_route (rep : report) (task_id : string)
  (outcome : bool * string * option string) : report :=
  let '(success, message, assigned_agent) := outcome in
  if success then
    {| total_tasks := total_tasks rep;
       successful_routes := successful_routes rep + 1;
       failed_routes := failed_routes rep;
       assignments := dict_set task_id assigned_agent (assignments rep);
       errors := errors rep |}
  else
    {| total_tasks := total_tasks rep;
       successful_routes := successful_routes rep;
       failed_routes := failed_routes rep + 1;
       assignments := assignments rep;
       errors := errors rep ++ [(task_id, message)] |}.

Fixpoint route_each (task_ids : list string) (rep : report) : result report :=
  match task_ids with
  | [] => Returns rep
  | task_id :: rest =>
      outcome <- route_task task_id "orchestrator" ;;
      route_each rest (record_route rep task_id outcome)
  end.

Definition route_batch (task_ids : list string) : result report :=
  route_each task_ids
    {| total_tasks := List.length task_ids;
       successful_routes := 0;
       failed_routes := 0;
       assignments := [];
       errors := [] |}.

(** [round(x, 1)]: the multiple of one tenth nearest to the exact value
    of the double [x], ties to the even one. *)
Definition round_half_even (n : Z) (d : positive) : Z :=
  let q := (n / Zpos d)%Z in
  let r := (n mod Zpos d)%Z in
  match (2 * r ?= Zpos d)%Z with
  | Lt => q
  | Gt => (q + 1)%Z
  | Eq => if Z.even q then q else (q + 1)%Z
  end.

Definition round1 (x : Q) : Q := round_half_even (Qnum x * 10) (Qden x) # 10.

Record suggestion : Type := {
  suggested_agent : option string;
  confidence : Q;
  reason : string;
  suggestion_tags : list json
}.

Definition matched_tag_names (info : option agent_info) (task_tag_set : list json)
  : list string :=
  match info with
  | Some i =>
      filter (fun t => PySet.mem (JStr t) task_tag_set)
        (nodup string_dec (specialist_tags i))
  | None => []
  end.

Definition get_routing_suggestion (task_data : dict json) : result suggestion :=
  specialist_tags <- extract_specialist_tags task_data ;;
  assigned_agent <- match_agent_to_task task_data ;;
  if named assigned_agent then
    let info :=
      match assigned_agent with
      | Some a => dict_get a agent_registry
      | None => None
      end in
    let agent_tags :=
      match info with Some i => agent_tag_set i | None => [] end in
    let task_tag_set := PySet.of_list specialist_tags in
    let n := overlap agent_tags task_tag_set in
    let d := total agent_tags task_tag_set in
    let conf :=
      if (0 <? d)%nat then PyFloat.mul (PyFloat.truediv n d) 100 else 0 in
    Returns {| suggested_agent := assigned_agent;
               confidence := round1 conf;
               reason := ("Matched on tags: "
                            ++ PyStr.join ", " (matched_tag_names info task_tag_set))%string;
               suggestion_tags := specialist_tags |}
  else
    Returns {| suggested_agent := None;
               confidence := 0;
               reason := "No suitable agent found";
               suggestion_tags := specialist_tags |}.

End Instance.

End EnhancedOrchestrator.

(** ** agent/orchestrator.py *)

Module Orchestrator.

Definition list_or_empty (l : option (list string)) : list string :=
  match l with Some x => x | None => [] end.

Definition priority_label (priority : Z) : string :=
  if (priority <=? 1)%Z then "high" else "normal".

(** The [message_content] dictionary of [delegate_task]. *)
Definition message_content
  (task_id description : string)
  (file_patterns : option (list string))
  (priority : Z)
  (dependencies : option (list string))
  (estimated_minutes : Z)
  (metadata : option (dict json))
  : dict json :=
  let content :=
    [ ("type", JStr "task_assignment");
      ("task_id", JStr task_id);
      ("description", JStr description);
      ("file_patterns", Handoff.str_list (list_or_empty file_patterns));
      ("priority", JStr (priority_label priority));
      ("priority_value", JInt priority);
      ("estimated_duration_minutes", JInt estimated_minutes);
      ("dependencies", Handoff.str_list (list_or_empty dependencies)) ] in
  Handoff.set_if_truthy "metadata" (option_map JObj metadata) content.

Section Delegation.

(** [self.project_key], [self.agent_name] and the awaited [send_message]
    of the mail client, which reports failures in its result. *)
Variables project_key agent_name : string.
Variable send_message :
  string -> string -> string -> dict json -> string -> dict json.

(** Every exception of the [try] block is re-raised as [RuntimeError]. *)
Definition delegate_task
  (droid_name task_id description : string)
  (file_patterns : option (list string))
  (priority : Z)
  (dependencies : option (list string))
  (estimated_minutes : Z)
  (metadata : option (dict json))
  : result (dict json) :=
  let content :=
    message_content task_id description file_patterns priority dependencies
      estimated_minutes metadata in
  let send_result :=
    send_message project_key agent_name droid_name content (priority_label priority) in
  let attempt :=
    sent <- Py.truthy (dict_get_default "success" JNull send_result) ;;
    if sent then
      mid <- Py.get (dict_get_default "response" (JObj []) send_result)
               "message_id" (JStr "unknown") ;;
      Returns [ ("success", JBool true);
                ("task_id", JStr task_id);
                ("droid_name", JStr droid_name);
                ("error", JNull);
                ("message_id", mid) ]
    else Raises RuntimeError in
  match attempt with
  | Returns r => Returns r
  | Raises _ => Raises RuntimeError
  | Unmodelled => Unmodelled
  end.

End Delegation.

(** The attributes of an [Orchestrator] object, apart from the client
    itself; [None] and [JNull] are Python's [None]. *)
Record session : Type := {
  model : string;
  session_key : option string;
  session_name : string;
  registration_result : json
}.

Definition DEFAULT_TASK_DESCRIPTION : string :=
  "Task coordination and delegation to specialist droids".

Section Session.

(** The type of MCP clients; [None] in [__init__] is Python's [None]. *)
Variable client : Type.

Definition __init__ (mcp_client : option client) (model : string)
  : result (client * session) :=
  match mcp_client with
  | None => Raises ValueError
  | Some c =>
      Returns (c, {| model := model;
                     session_key := None;
                     session_name := "orchestrator";
                     registration_result := JNull |})
  end.

(** [sys.version_info], [get_project_key()] and the awaited
    [register_agent] of the mail client. *)
Variables python_major python_minor : Z.
Variable get_project_key : result string.
Variable register_agent :
  client -> string -> option string -> string -> string -> result (dict json).

Definition python_too_old : bool :=
  ((python_major <? 3) || ((python_major =? 3) && (python_minor <? 10)))%Z.

(** The part of [initialize] that follows a successful registration. *)
Definition registered (self : session) (response : json) : result (dict json) :=
  agent_id <- Py.get response "id" (JStr "unknown") ;;
  actual_name <- Py.get response "name" (JStr (session_name self)) ;;
  let result :=
    [ ("success", JBool false); ("mcp_registered", JBool false); ("error", JNull) ] in
  let result := dict_set "mcp_registered" (JBool true) result in
  let result := dict_set "agent_id" agent_id result in
  let result := dict_set "agent_name" actual_name result in
  let result := dict_set "success" (JBool true) result in
  Returns result.

(** Every exception of a [try] block leaves as [RuntimeError]. *)
Definition as_runtime_error {A : Type} (r : result A) : result A :=
  match r with
  | Raises _ => Raises RuntimeError
  | other => other
  end.

(** The outcome of [initialize] and the object afterwards. *)
Definition initialize (mcp_client : client) (self : session)
  (task_description : string) : result (dict json) * session :=
  if python_too_old then (Raises RuntimeError, self)
  else
    match get_project_key with
    | Raises _ => (Raises RuntimeError, self)
    | Unmodelled => (Unmodelled, self)
    | Returns key =>
        let self :=
          {| model := model self;
             session_key := Some key;
             session_name := session_name self;
             registration_result := registration_result self |} in
        let description :=
          if String.eqb task_description "" then DEFAULT_TASK_DESCRIPTION
          else task_description in
        match register_agent mcp_client key (Some (session_name self))
                (model self) description with
        | Raises _ => (Raises RuntimeError, self)
        | Unmodelled => (Unmodelled, self)
        | Returns registration =>
            match Py.truthy (dict_get_default "success" JNull registration) with
            | Raises _ => (Raises RuntimeError, self)
            | Unmodelled => (Unmodelled, self)
            | Returns false => (Raises RuntimeError, self)
            | Returns true =>
                let response := dict_get_default "response" JNull registration in
                let self :=
                  {| model := model self;
                     session_key := session_key self;
                     session_name := session_name self;
                     registration_result := response |} in
                (as_runtime_error (registered self response), self)
            end
        end
    end.

Definition get_status (self : session) : dict json :=
  [ ("mcp_available", JBool true);
    ("agent_name", JStr (session_name self));
    ("project_key",
     match session_key self with Some key => JStr key | None => JNull end);
    ("model", JStr (model self));
    ("registration", registration_result self) ].

(** [initialize_orchestrator]: construct, then initialise. *)
Definition initialize_orchestrator (mcp_client : option client)
  (model task_description : string) : result (dict json) :=
  '(c, self) <- __init__ mcp_client model ;;
  fst (initialize c self task_description).

End Session.

End Orchestrator.

(** ** Vocabulary of the specification *)

(** [needle] occurs in [hay]. *)
Definition Substring (needle hay : string) : Prop :=
  exists pre post, hay = (pre ++ needle ++ post)%string.

(** [needle], given in lower case, occurs in [hay] up to letter case. *)
Definition SubstringNoCase (needle hay : string) : Prop :=
  exists pre mid post,
    hay = (pre ++ mid ++ post)%string /\ PyStr.lower mid = needle.

(** A task record with its three text fields. *)
Definition task_record (title descr notes : string) : dict json :=
  [ ("title", JStr title); ("description", JStr descr); ("notes", JStr notes) ].

(** The annotation object of the handoff scenario, as JSON text. *)
Definition testing_python_json : string :=
  ("{" ++ Json.quoted "specialist_tags" ++ ":["
     ++ Json.quoted "testing" ++ "," ++ Json.quoted "python" ++ "]}")%string.

(** The text of the wrapped-result scenario. *)
Definition ok_true_json : string := ("{" ++ Json.quoted "ok" ++ ":true}")%string.

(** Notes that put a word in front of the annotation, and notes whose
    annotation is a bare number. *)
Definition prose_then_annotation : string :=
  ("see " ++ EnhancedOrchestrator.HANDOFF_MARKER ++ " " ++ testing_python_json)%string.

Definition scalar_annotation : string :=
  (EnhancedOrchestrator.HANDOFF_MARKER ++ " 5")%string.

(** The end-to-end scenario. *)
Definition pytest_task : dict json :=
  task_record "Write pytest tests for JWT endpoint" "" "".

(** Score of a registered agent against the tags of a task. *)
Definition score (info : EnhancedOrchestrator.agent_info) (tags : list json) : Q :=
  EnhancedOrchestrator.jaccard
    (EnhancedOrchestrator.agent_tag_set info) (PySet.of_list tags).

(** The Jaccard similarity of two lists of tags read as sets: the number
    of distinct tags they share over the number of distinct tags in
    either, and zero when there is no tag at all. *)
Definition distinct (tags : list string) : nat :=
  List.length (nodup string_dec tags).

Definition shared (a b : list string) : list string :=
  filter (fun t => existsb (String.eqb t) b) a.

Definition Jaccard (a b : list string) : Q :=
  match distinct (a ++ b) with
  | O => 0
  | S n => Z.of_nat (distinct (shared a b)) # Pos.of_nat (S n)
  end.

(** Notes announcing ten tags, three of them the tags of the testing
    agent: its score is three tenths exactly. *)
Definition ten_tag_notes : string :=
  (EnhancedOrchestrator.HANDOFF_MARKER ++ " {" ++ Json.quoted "specialist_tags" ++ ":["
     ++ Json.quoted "testing" ++ "," ++ Json.quoted "validation" ++ ","
     ++ Json.quoted "quality" ++ "," ++ Json.quoted "a" ++ "," ++ Json.quoted "b" ++ ","
     ++ Json.quoted "c" ++ "," ++ Json.quoted "d" ++ "," ++ Json.quoted "e" ++ ","
     ++ Json.quoted "f" ++ "," ++ Json.quoted "g" ++ "]}")%string.

Definition ten_tag_names : list string :=
  ["testing"; "validation"; "quality"; "a"; "b"; "c"; "d"; "e"; "f"; "g"].

Definition ten_tags : list json :=
  map JStr ["testing"; "validation"; "quality"; "a"; "b"; "c"; "d"; "e"; "f"; "g"].

Definition boundary_task : dict json := task_record "" "" ten_tag_notes.

(** A task whose only tag meets one tag of a four-tag agent. *)
Definition merge_task : dict json := task_record "merge the branch" "" "".

Definition testing_agent : EnhancedOrchestrator.agent_info :=
  {| EnhancedOrchestrator.specialist_tags := ["testing"; "validation"; "quality"];
     EnhancedOrchestrator.capabilities := ["test_generation"; "validation"; "verification"];
     EnhancedOrchestrator.description := "Tests implementations and validates requirements" |}.

(** The error entries a batch owes: one per failed attempt, in order. *)
Definition routing_errors
  (route : string -> result (bool * string * option string))
  (task_ids : list string) : list (string * string) :=
  flat_map
    (fun task_id =>
       match route task_id with
       | Returns (false, message, _) => [(task_id, message)]
       | _ => []
       end)
    task_ids.

(** A task store with one task, and the rendering of exceptions used in
    the batch example. *)
Definition one_task_store (task_id : string) : result string :=
  if String.eqb task_id "bd-1"
  then Returns ("{" ++ Json.quoted "title" ++ ":"
                  ++ Json.quoted "Write pytest tests for JWT endpoint" ++ "}")%string
  else Raises CalledProcessError.

Definition exn_name (e : exn) : string :=
  match e with
  | Exception _ => "Exception"
  | TypeError => "TypeError"
  | AttributeError => "AttributeError"
  | KeyError => "KeyError"
  | IndexError => "IndexError"
  | ValueError => "ValueError"
  | JSONDecodeError => "JSONDecodeError"
  | CalledProcessError => "CalledProcessError"
  | RuntimeError => "RuntimeError"
  end.

(** The annotation of the routing demonstration in the source: a role and
    three tags. *)
Definition demo_annotation_notes : string :=
  (EnhancedOrchestrator.HANDOFF_MARKER ++ " {" ++ Json.quoted "agent_role" ++ ":"
     ++ Json.quoted "testing" ++ "," ++ Json.quoted "specialist_tags" ++ ":["
     ++ Json.quoted "testing" ++ "," ++ Json.quoted "python" ++ ","
     ++ Json.quoted "validation" ++ "]}")%string.

(** Notes announcing the three tags of the first registered agent and the
    three tags of a later one: both score one half. *)
Definition tie_tag_names : list string :=
  ["coordination"; "routing"; "task-management"; "fixing"; "debugging"; "repair"].

Definition tie_notes : string :=
  (EnhancedOrchestrator.HANDOFF_MARKER ++ " {" ++ Json.quoted "specialist_tags" ++ ":["
     ++ PyStr.join "," (map Json.quoted tie_tag_names) ++ "]}")%string.

Definition tie_task : dict json := task_record "" "" tie_notes.

(** The wrapped-result scenario, and the same response with a
    [structuredContent] key in front. *)
Definition wrapped_response : dict json :=
  [ ("result", JObj [("ok", JBool true)]);
    ("content", JArr [JObj [("type", JStr "text"); ("text", JStr ok_true_json)]]) ].

Definition three_key_response : dict json :=
  [ ("structuredContent", JObj [("id", JInt 7)]);
    ("result", JObj [("ok", JBool true)]);
    ("content", JArr [JObj [("type", JStr "text"); ("text", JStr ok_true_json)]]) ].

(** [n] opening brackets: JSON text that nests [n] arrays. *)
Definition open_brackets (n : nat) : string :=
  string_of_list_ascii (repeat "["%char n).

(** * Properties *)

(** ** Strings *)

Section StringFacts.

Import PyStr.

Lemma append_assoc (a b c : string) :
  ((a ++ b) ++ c)%string = (a ++ (b ++ c))%string.
Proof.
  induction a as [|x a IH]; simpl; [reflexivity | now rewrite IH].
Qed.

Lemma append_empty_r (a : string) : (a ++ "")%string = a.
Proof.
  induction a as [|x a IH]; simpl; [reflexivity | now rewrite IH].
Qed.

Lemma prefix_iff (p s : string) :
  prefix p s = true <-> exists r, s = (p ++ r)%string.
Proof.
  revert s; induction p as [|x p IH]; intros s.
  - split; [intros _; now exists s | now destruct s].
  - destruct s as [|y s]; simpl.
    + split; [discriminate | intros [r Hr]; discriminate].
    + destruct (ascii_dec x y) as [->|Hxy].
      * rewrite IH. split; intros [r Hr]; exists r.
        -- now rewrite Hr.
        -- now injection Hr.
      * split; [discriminate | intros [r Hr]; injection Hr; intros _ E].
        now elim Hxy.
Qed.

Lemma contains_iff (needle hay : string) :
  contains needle hay = true <-> Substring needle hay.
Proof.
  unfold Substring. induction hay as [|c hay IH].
  - cbn [contains]. rewrite orb_false_r, prefix_iff. split.
    + intros [r Hr]. now exists EmptyString, r.
    + intros [pre [post H]]. destruct pre; [now exists post | discriminate].
  - cbn [contains]. rewrite orb_true_iff, prefix_iff, IH. split.
    + intros [[r Hr] | [pre [post H]]].
      * now exists EmptyString, r.
      * exists (String c pre), post. simpl. now rewrite H.
    + intros [pre [post H]]. destruct pre as [|x pre].
      * left. now exists post.
      * right. injection H as _ H. now exists pre, post.
Qed.

Lemma contains_false_iff (needle hay : string) :
  contains needle hay = false <-> ~ Substring needle hay.
Proof.
  rewrite <- contains_iff. destruct (contains needle hay); split; intros H.
  - discriminate.
  - now elim H.
  - discriminate.
  - reflexivity.
Qed.

Lemma lower_app (a b : string) :
  lower (a ++ b) = (lower a ++ lower b)%string.
Proof.
  induction a as [|x a IH]; simpl; [reflexivity | now rewrite IH].
Qed.

Lemma lower_split (s a b : string) :
  lower s = (a ++ b)%string ->
  exists s1 s2, s = (s1 ++ s2)%string /\ lower s1 = a /\ lower s2 = b.
Proof.
  revert s; induction a as [|x a IH]; intros s H.
  - exists EmptyString, s. now repeat split.
  - destruct s as [|y s]; [discriminate|]. simpl in H.
    injection H as Hx H. destruct (IH _ H) as [s1 [s2 [E [H1 H2]]]].
    exists (String y s1), s2. simpl. rewrite H1, Hx, E. now repeat split.
Qed.

Lemma contains_lower_iff (needle hay : string) :
  contains needle (lower hay) = true <-> SubstringNoCase needle hay.
Proof.
  rewrite contains_iff. unfold Substring, SubstringNoCase. split.
  - intros [pre [post H]].
    destruct (lower_split _ _ _ H) as [s1 [s2 [E [H1 H2]]]].
    destruct (lower_split _ _ _ H2) as [m [s3 [E' [Hm H3]]]].
    exists s1, m, s3. now rewrite E, E'.
  - intros [pre [mid [post [E Hm]]]].
    exists (lower pre), (lower post). now rewrite E, !lower_app, Hm.
Qed.

Lemma contains_lower_false_iff (needle hay : string) :
  contains needle (lower hay) = false <-> ~ SubstringNoCase needle hay.
Proof.
  rewrite <- contains_lower_iff.
  destruct (contains needle (lower hay)); split; intros H.
  - discriminate.
  - now elim H.
  - discriminate.
  - reflexivity.
Qed.

End StringFacts.

(** ** Dictionaries *)

Section DictFacts.

Context {V : Type}.

Lemma dict_get_set_same (k : string) (v : V) (d : dict V) :
  dict_get k (dict_set k v d) = Some v.
Proof.
  induction d as [|[k' v'] d IH]; simpl.
  - now rewrite String.eqb_refl.
  - destruct (String.eqb k k') eqn:E; simpl.
    + now rewrite String.eqb_refl.
    + now rewrite E.
Qed.

Lemma dict_get_set_other (k k' : string) (v : V) (d : dict V) :
  k <> k' -> dict_get k (dict_set k' v d) = dict_get k d.
Proof.
  intros Hk. induction d as [|[k0 v0] d IH]; simpl.
  - destruct (String.eqb_spec k k'); [contradiction | reflexivity].
  - destruct (String.eqb_spec k' k0) as [->|Hne]; simpl.
    + destruct (String.eqb_spec k k0); [contradiction | reflexivity].
    + destruct (String.eqb_spec k k0); [reflexivity | exact IH].
Qed.

Lemma dict_get_in (k : string) (v : V) (d : dict V) :
  NoDup (keys d) -> In (k, v) d -> dict_get k d = Some v.
Proof.
  induction d as [|[k0 v0] d IH]; simpl; intros Hnd Hin; [contradiction|].
  inversion Hnd as [|? ? Hnotin Hnd']; subst.
  destruct Hin as [E | Hin].
  - injection E as -> ->. now rewrite String.eqb_refl.
  - destruct (String.eqb_spec k k0) as [->|Hne].
    + elim Hnotin. unfold keys. change k0 with (fst (k0, v)).
      now apply in_map.
    + now apply IH.
Qed.

End DictFacts.

(** ** Response normalisation *)

Section Normalizer.

Import Client.

Variables (response : dict json) (first : dict json) (rest : list json).
Variable text : string.

Hypothesis content_first :
  dict_get "content" response = Some (JArr (JObj first :: rest)).
Hypothesis first_is_text : dict_get "type" first = Some (JStr "text").
Hypothesis first_text : dict_get "text" first = Some (JStr text).

Lemma check_error_content_text :
  check_error_content response =
    if PyStr.contains "Error" text || PyStr.contains "not found" (PyStr.lower text)
    then Raises (Exception (JStr text))
    else Returns tt.
Proof using content_first first_is_text first_text.
  unfold check_error_content, has_key, dict_get_default.
  rewrite content_first. cbn [Py.len Py.item0 bind List.length Nat.ltb Nat.leb].
  unfold Py.get, dict_get_default. rewrite first_is_text, first_text.
  cbn [bind Py.eq_str Py.contains Py.lower]. rewrite String.eqb_refl.
  destruct (PyStr.contains "Error" text); [reflexivity|].
  cbn [orb]. now destruct (PyStr.contains "not found" (PyStr.lower text)).
Qed.

Lemma unwrap_call_result_text :
  unwrap_call_result response =
    match Json.loads text with
    | Returns actual_result => Returns (Some actual_result)
    | Raises JSONDecodeError => Returns (Some (JObj response))
    | Raises e => Raises e
    | Unmodelled => Unmodelled
    end.
Proof using content_first first_is_text first_text.
  unfold unwrap_call_result, dict_get_default.
  rewrite content_first. cbn [Py.len Py.item0 bind List.length Nat.ltb Nat.leb].
  unfold Py.get, dict_get_default. rewrite first_is_text, first_text.
  cbn [bind Py.eq_str Json.loads_value]. now rewrite String.eqb_refl.
Qed.

End Normalizer.

(** C1. A response whose first content item is a text mentioning
    [Error], or [not found] in any letter case, makes the normaliser
    raise with exactly that text, whatever other keys the response has:
    the check runs before the rules for [structuredContent] and
    [result]. *)
Theorem embedded_error_raised_first :
  forall (response first : dict json) (rest : list json) (text : string),
    dict_get "content" response = Some (JArr (JObj first :: rest)) ->
    dict_get "type" first = Some (JStr "text") ->
    dict_get "text" first = Some (JStr text) ->
    Substring "Error" text \/ SubstringNoCase "not found" text ->
    Client._extract_structured_content response = Raises (Exception (JStr text)).
Proof.
  intros response first rest text Hc Hty Htx Herr.
  unfold Client._extract_structured_content.
  rewrite (check_error_content_text _ _ _ _ Hc Hty Htx).
  assert (E : PyStr.contains "Error" text
              || PyStr.contains "not found" (PyStr.lower text) = true).
  { apply orb_true_iff. destruct Herr as [H | H].
    - left. now apply contains_iff.
    - right. now apply contains_lower_iff. }
  now rewrite E.
Qed.

(** The scenario of the specification: the reply ["Agent not found"]. *)
Lemma embedded_error_agent_not_found :
  (Substring "Error" "Agent not found"
   \/ SubstringNoCase "not found" "Agent not found")
  /\ Client._extract_structured_content
       [ ("content",
          JArr [JObj [("type", JStr "text"); ("text", JStr "Agent not found")]]) ]
     = Raises (Exception (JStr "Agent not found")).
Proof.
  assert (H : Substring "Error" "Agent not found"
              \/ SubstringNoCase "not found" "Agent not found").
  { right. exists "Agent ", "not found", "". split; reflexivity. }
  split; [exact H|].
  exact (embedded_error_raised_first
           [ ("content",
              JArr [JObj [("type", JStr "text"); ("text", JStr "Agent not found")]]) ]
           [("type", JStr "text"); ("text", JStr "Agent not found")] []
           "Agent not found" eq_refl eq_refl eq_refl H).
Defined.

(** The check also wins over a [structuredContent] and a [result] key. *)
Example embedded_error_beats_structured_content :
  Client._extract_structured_content
    [ ("structuredContent", JObj [("id", JInt 7)]);
      ("result", JObj [("id", JInt 7)]);
      ("content", JArr [JObj [("type", JStr "text"); ("text", JStr "Error: NOT FOUND")]]) ]
  = Raises (Exception (JStr "Error: NOT FOUND")).
Proof. reflexivity. Qed.

(** C4 as stated fails: with [result], [content], a text item that is
    valid JSON and no error wording, a [structuredContent] key still
    decides the outcome. *)
Lemma wrapped_result_loses_to_structured_content :
  has_key "result" three_key_response = true
  /\ dict_get "content" three_key_response
       = Some (JArr [JObj [("type", JStr "text"); ("text", JStr ok_true_json)]])
  /\ Client.check_error_content three_key_response = Returns tt
  /\ Json.loads ok_true_json = Returns (JObj [("ok", JBool true)])
  /\ Client._extract_structured_content three_key_response
       = Returns (JObj [("id", JInt 7)])
  /\ Client._extract_structured_content three_key_response
       <> Returns (JObj [("ok", JBool true)]).
Proof.
  repeat split; try reflexivity.
  vm_compute. discriminate.
Qed.

(** C4, amended. Without a [structuredContent] key, a response with
    [result] and [content] whose first item is an error-free text
    normalises to the value [json.loads] returns for the text, and to the
    whole response when [json.loads] raises [JSONDecodeError] on it. *)
Theorem wrapped_result_decoded :
  forall (response first : dict json) (rest : list json) (text : string),
    dict_get "structuredContent" response = None ->
    has_key "result" response = true ->
    dict_get "content" response = Some (JArr (JObj first :: rest)) ->
    dict_get "type" first = Some (JStr "text") ->
    dict_get "text" first = Some (JStr text) ->
    ~ Substring "Error" text ->
    ~ SubstringNoCase "not found" text ->
    (forall v, Json.loads text = Returns v ->
               Client._extract_structured_content response = Returns v)
    /\ (Json.loads text = Raises JSONDecodeError ->
        Client._extract_structured_content response = Returns (JObj response)).
Proof.
  intros response first rest text Hsc Hres Hc Hty Htx Hne Hnf.
  assert (E : Client._extract_structured_content response =
              unwrapped <- Client.unwrap_call_result response ;;
              match unwrapped with
              | Some v => Returns v
              | None => Returns (JObj response)
              end).
  { unfold Client._extract_structured_content.
    rewrite (check_error_content_text _ _ _ _ Hc Hty Htx).
    apply contains_false_iff in Hne. apply contains_lower_false_iff in Hnf.
    rewrite Hne, Hnf. cbn [orb bind]. rewrite Hsc, Hres.
    unfold has_key at 1 2. now rewrite Hc. }
  rewrite E, (unwrap_call_result_text _ _ _ _ Hc Hty Htx).
  split; [intros v Hv | intros Hv]; now rewrite Hv.
Qed.

(** The scenario of the specification: the inner object is returned, not
    the envelope. *)
Lemma wrapped_result_ok_true :
  ~ Substring "Error" ok_true_json
  /\ ~ SubstringNoCase "not found" ok_true_json
  /\ Json.loads ok_true_json = Returns (JObj [("ok", JBool true)])
  /\ Client._extract_structured_content wrapped_response
     = Returns (JObj [("ok", JBool true)]).
Proof.
  assert (Hne : ~ Substring "Error" ok_true_json)
    by (apply contains_false_iff; reflexivity).
  assert (Hnf : ~ SubstringNoCase "not found" ok_true_json)
    by (apply contains_lower_false_iff; reflexivity).
  assert (Hl : Json.loads ok_true_json = Returns (JObj [("ok", JBool true)]))
    by reflexivity.
  split; [exact Hne | split; [exact Hnf | split; [exact Hl |]]].
  exact (proj1 (wrapped_result_decoded wrapped_response
                  [("type", JStr "text"); ("text", JStr ok_true_json)] []
                  ok_true_json eq_refl eq_refl eq_refl eq_refl eq_refl Hne Hnf)
               _ Hl).
Defined.

(** A text that is not JSON leaves the envelope as it is. *)
Example wrapped_result_plain_text :
  Client._extract_structured_content
    [ ("result", JNull);
      ("content", JArr [JObj [("type", JStr "text"); ("text", JStr "done")]]) ]
  = Returns (JObj
      [ ("result", JNull);
        ("content", JArr [JObj [("type", JStr "text"); ("text", JStr "done")]]) ]).
Proof. reflexivity. Qed.

(** Text nested beyond the bound is not decided by the decoder: the
    interpreter may raise [RecursionError] there, which the normaliser
    does not catch. *)
Example wrapped_result_nested_text :
  Json.loads (open_brackets Json.MAX_NESTING) = Raises JSONDecodeError
  /\ Json.loads (open_brackets (S Json.MAX_NESTING)) = Unmodelled
  /\ Client._extract_structured_content
       [ ("result", JNull);
         ("content",
          JArr [JObj [("type", JStr "text");
                      ("text", JStr (open_brackets (S Json.MAX_NESTING)))]]) ]
     = Unmodelled.
Proof. repeat split; vm_compute; reflexivity. Qed.

(** ** Tag extraction *)

Section TagFacts.

Import EnhancedOrchestrator.

Lemma key_eqb_str (t : string) (v : json) :
  PySet.key_eqb (JStr t) v = true -> v = JStr t.
Proof.
  destruct v; simpl; try discriminate.
  intros H. apply String.eqb_eq in H. now subst.
Qed.

Lemma mem_str_in (t : string) (s : list json) :
  PySet.mem (JStr t) s = true -> In (JStr t) s.
Proof.
  unfold PySet.mem. rewrite existsb_exists.
  intros [v [Hin Hv]]. now rewrite <- (key_eqb_str _ _ Hv).
Qed.

Lemma in_add_keep (x y : json) (s : list json) :
  In x s -> In x (PySet.add y s).
Proof.
  unfold PySet.add. destruct (PySet.mem y s); [easy|].
  intros H. apply in_or_app. now left.
Qed.

Lemma in_add_str (t : string) (s : list json) :
  In (JStr t) (PySet.add (JStr t) s).
Proof.
  unfold PySet.add. destruct (PySet.mem (JStr t) s) eqn:E.
  - now apply mem_str_in.
  - apply in_or_app. right. now left.
Qed.

Lemma add_nonempty (x : json) (s : list json) : PySet.add x s <> [].
Proof.
  unfold PySet.add. destruct (PySet.mem x s) eqn:E.
  - destruct s; [discriminate E | discriminate].
  - destruct s; discriminate.
Qed.

Lemma detect_keywords_keeps (text : string) (x : json) (tags : list json) :
  In x tags -> In x (detect_keywords text tags).
Proof.
  unfold detect_keywords. generalize keyword_map as table.
  intros table; revert tags.
  induction table as [|[tag keywords] table IH]; intros tags H; simpl; [exact H|].
  apply IH. destruct (existsb _ keywords); [now apply in_add_keep | exact H].
Qed.

Lemma general_if_empty_keeps (x : json) (tags : list json) :
  In x tags -> In x (general_if_empty tags).
Proof. destruct tags; [contradiction | easy]. Qed.

Lemma general_if_empty_nonempty (tags : list json) : general_if_empty tags <> [].
Proof. destruct tags; [apply add_nonempty | discriminate]. Qed.

(** Whatever [extract_specialist_tags] returns is not empty. *)
Lemma extract_nonempty (task_data : dict json) (tags : list json) :
  extract_specialist_tags task_data = Returns tags -> tags <> [].
Proof.
  unfold extract_specialist_tags.
  destruct (explicit_tags task_data); cbn [bind]; try discriminate.
  destruct (Py.str _); cbn [bind]; try discriminate.
  destruct (Py.str _); cbn [bind]; try discriminate.
  intros E. injection E as <-. apply general_if_empty_nonempty.
Qed.

Lemma extract_of_record (title descr notes : string) :
  extract_specialist_tags (task_record title descr notes) =
    tags <- explicit_tags (task_record title descr notes) ;;
    Returns (general_if_empty
               (detect_keywords (PyStr.lower (title ++ " " ++ descr)) tags)).
Proof. reflexivity. Qed.

Lemma contains_marker_nonempty (notes : string) :
  PyStr.contains HANDOFF_MARKER notes = true -> notes <> "".
Proof. intros H ->. discriminate H. Qed.

Lemma parse_notes_marked (notes : string) :
  PyStr.contains HANDOFF_MARKER notes = true ->
  parse_notes_for_handoff (JStr notes) =
    match Json.loads (handoff_json_str notes) with
    | Returns handoff_data => Returns handoff_data
    | Raises JSONDecodeError => Returns JNull
    | Raises ValueError => Returns JNull
    | Raises e => Raises e
    | Unmodelled => Unmodelled
    end.
Proof.
  intros H. unfold parse_notes_for_handoff. cbn [Py.truthy Py.contains bind].
  destruct (String.eqb_spec notes "") as [->|_]; [discriminate H|].
  cbn [negb]. now rewrite H.
Qed.

Lemma parse_notes_unmarked (notes : string) :
  PyStr.contains HANDOFF_MARKER notes = false ->
  parse_notes_for_handoff (JStr notes) = Returns JNull.
Proof.
  intros H. unfold parse_notes_for_handoff. cbn [Py.truthy Py.contains bind].
  destruct (negb (negb (notes =? ""))); [reflexivity | now rewrite H].
Qed.

Lemma explicit_tags_of_record (title descr notes : string) :
  explicit_tags (task_record title descr notes) =
    if String.eqb notes "" then Returns []
    else
      handoff_data <- parse_notes_for_handoff (JStr notes) ;;
      present <- Py.truthy handoff_data ;;
      if present then
        tagged <- Py.contains "specialist_tags" handoff_data ;;
        if tagged then
          announced <- Py.item handoff_data "specialist_tags" ;;
          items <- PySet.elements announced ;;
          PySet.update [] items
        else Returns []
      else Returns [].
Proof.
  unfold explicit_tags.
  change (dict_get "notes" (task_record title descr notes)) with (Some (JStr notes)).
  cbn [Py.truthy bind]. now destruct (String.eqb notes "").
Qed.

(** Notes without the marker never fail the extraction. *)
Lemma extract_total_without_marker (title descr notes : string) :
  PyStr.contains HANDOFF_MARKER notes = false ->
  extract_specialist_tags (task_record title descr notes) =
    Returns (general_if_empty
               (detect_keywords (PyStr.lower (title ++ " " ++ descr)) [])).
Proof.
  intros H. rewrite extract_of_record, explicit_tags_of_record.
  destruct (String.eqb notes ""); [reflexivity|].
  now rewrite (parse_notes_unmarked _ H).
Qed.

End TagFacts.

(** C2 as stated fails: a word in front of the annotation makes the
    remainder of the notes undecodable, the annotation is dropped and
    only the sentinel tag is left. *)
Lemma annotation_after_prose_is_dropped :
  Substring (EnhancedOrchestrator.HANDOFF_MARKER ++ " " ++ testing_python_json)
            prose_then_annotation
  /\ EnhancedOrchestrator.extract_specialist_tags
       (task_record "" "" prose_then_annotation) = Returns [JStr "general"]
  /\ ~ In (JStr "testing") [JStr "general"].
Proof.
  split; [| split].
  - exists "see ", "". reflexivity.
  - vm_compute. reflexivity.
  - intros [H | []]. discriminate H.
Qed.

(** C2, amended. When the notes carry the marker and nothing but the
    annotation object is left once the marker is deleted and white space
    and quote characters are stripped from both ends, the extracted tags
    include [testing] and [python]. *)
Theorem annotation_tags_extracted :
  forall title descr notes : string,
    Substring EnhancedOrchestrator.HANDOFF_MARKER notes ->
    EnhancedOrchestrator.handoff_json_str notes = testing_python_json ->
    exists tags,
      EnhancedOrchestrator.extract_specialist_tags (task_record title descr notes)
        = Returns tags
      /\ In (JStr "testing") tags /\ In (JStr "python") tags.
Proof.
  intros title descr notes Hm Hj.
  apply contains_iff in Hm.
  rewrite extract_of_record, explicit_tags_of_record.
  destruct (String.eqb_spec notes "") as [E|_];
    [now elim (contains_marker_nonempty _ Hm)|].
  rewrite (parse_notes_marked _ Hm), Hj.
  change (Json.loads testing_python_json)
    with (Returns (JObj [("specialist_tags", JArr [JStr "testing"; JStr "python"])])).
  cbn [bind Py.truthy Py.contains has_key].
  set (announced := if has_key _ _ then _ else _).
  change announced with (Returns [JStr "testing"; JStr "python"]).
  clear announced. cbn [bind].
  eexists. split; [reflexivity|].
  split; apply general_if_empty_keeps, detect_keywords_keeps; simpl; auto.
Qed.

(** The notes made of the marker and the object alone. *)
Lemma annotation_tags_extracted_exact :
  Substring EnhancedOrchestrator.HANDOFF_MARKER
    (EnhancedOrchestrator.HANDOFF_MARKER ++ " " ++ testing_python_json)
  /\ EnhancedOrchestrator.handoff_json_str
       (EnhancedOrchestrator.HANDOFF_MARKER ++ " " ++ testing_python_json)
     = testing_python_json
  /\ exists tags,
       EnhancedOrchestrator.extract_specialist_tags
         (task_record "Add login" ""
            (EnhancedOrchestrator.HANDOFF_MARKER ++ " " ++ testing_python_json))
         = Returns tags
       /\ In (JStr "testing") tags /\ In (JStr "python") tags.
Proof.
  assert (Hm : Substring EnhancedOrchestrator.HANDOFF_MARKER
                 (EnhancedOrchestrator.HANDOFF_MARKER ++ " " ++ testing_python_json)).
  { exists "", (" " ++ testing_python_json)%string. reflexivity. }
  split; [exact Hm | split; [reflexivity|]].
  exact (annotation_tags_extracted "Add login" ""
           (EnhancedOrchestrator.HANDOFF_MARKER ++ " " ++ testing_python_json)
           Hm eq_refl).
Defined.

(** C5. On notes whose annotation decodes to a number the extraction
    raises instead of returning a tag set: the membership test
    ['specialist_tags' in handoff_data] is applied to an [int]. *)
Theorem extract_raises_on_scalar_annotation :
  EnhancedOrchestrator.parse_notes_for_handoff (JStr scalar_annotation)
    = Returns (JInt 5)
  /\ EnhancedOrchestrator.extract_specialist_tags
       (task_record "" "" scalar_annotation) = Raises TypeError.
Proof. split; vm_compute; reflexivity. Qed.

(** With all three fields empty the result is the sentinel alone. *)
Example extract_empty_record :
  EnhancedOrchestrator.extract_specialist_tags (task_record "" "" "")
  = Returns [JStr "general"].
Proof. vm_compute. reflexivity. Qed.

(** ** Matching *)

Section MatchFacts.

Import EnhancedOrchestrator.

Local Open Scope Q_scope.

Lemma Qltb_lt (x y : Q) : Qltb x y = true <-> x < y.
Proof.
  unfold Qltb. rewrite negb_true_iff. split.
  - intros H. apply Qnot_le_lt. intros Hle.
    apply Qle_bool_iff in Hle. congruence.
  - intros H. destruct (Qle_bool y x) eqn:E; [|reflexivity].
    apply Qle_bool_iff in E. now apply Qlt_not_le in H.
Qed.

Lemma Qltb_ge (x y : Q) : Qltb x y = false <-> y <= x.
Proof.
  unfold Qltb. rewrite negb_false_iff. apply Qle_bool_iff.
Qed.

Lemma Qle_bool_lt (x y : Q) : Qle_bool x y = false <-> y < x.
Proof.
  rewrite <- Qltb_lt. unfold Qltb. now rewrite negb_true_iff.
Qed.

(** [max_from] returns one of the candidates, and none has a larger key. *)
Lemma max_from_spec {A : Type} (key : A -> Q) (items : list A) (best : A) :
  In (max_from key best items) (best :: items)
  /\ forall x, In x (best :: items) -> key x <= key (max_from key best items).
Proof.
  revert best. induction items as [|y items IH]; intros best; simpl.
  - split; [now left | intros x [<- | []]; apply Qle_refl].
  - destruct (Qltb (key best) (key y)) eqn:E.
    + destruct (IH y) as [Hin Hmax]. split.
      * right. exact Hin.
      * intros x [<- | Hx].
        -- apply Qltb_lt in E. apply Qlt_le_weak.
           eapply Qlt_le_trans; [exact E | apply Hmax; now left].
        -- now apply Hmax.
    + destruct (IH best) as [Hin Hmax]. split.
      * destruct Hin as [<- | Hin]; [now left | right; now right].
      * intros x [<- | [<- | Hx]].
        -- apply Hmax. now left.
        -- apply Qltb_ge in E.
           eapply Qle_trans; [exact E | apply Hmax; now left].
        -- apply Hmax. now right.
Qed.

Lemma dict_set_fresh {V : Type} (k : string) (v : V) (d : dict V) :
  ~ In k (keys d) -> dict_set k v d = (d ++ [(k, v)])%list.
Proof.
  induction d as [|[k0 v0] d IH]; simpl; intros H; [reflexivity|].
  destruct (String.eqb_spec k k0) as [->|Hne].
  - elim H. now left.
  - rewrite IH; [reflexivity | intros Hin; apply H; now right].
Qed.

Variable agent_registry : dict agent_info.
Hypothesis unique_names : NoDup (keys agent_registry).

(** On a registry without repeated names the score table lists the
    agents in registry order. *)
Lemma agent_scores_map (tags : list json) :
  agent_scores agent_registry tags =
    map (fun entry => (fst entry, score (snd entry) tags)) agent_registry.
Proof using unique_names.
  unfold agent_scores.
  set (f := fun (scores : dict Q) '(agent_name, info) =>
              dict_set agent_name
                (jaccard (agent_tag_set info) (PySet.of_list tags)) scores).
  set (g := fun entry : string * agent_info => (fst entry, score (snd entry) tags)).
  assert (G : forall reg acc,
             NoDup (keys acc ++ keys reg) ->
             fold_left f reg acc = (acc ++ map g reg)%list).
  { induction reg as [|[n i] reg IH]; intros acc Hnd; simpl.
    - now rewrite app_nil_r.
    - rewrite dict_set_fresh.
      + rewrite IH.
        * now rewrite <- app_assoc.
        * unfold keys in *. rewrite map_app, <- app_assoc. exact Hnd.
      + apply NoDup_remove_2 in Hnd. intros Hin. apply Hnd.
        apply in_or_app. now left. }
  exact (G agent_registry [] unique_names).
Qed.

(** What the matcher answers once the tags are known. *)
Lemma match_agent_cases (task_data : dict json) (tags : list json) :
  extract_specialist_tags task_data = Returns tags ->
  (agent_registry = [] /\
   match_agent_to_task agent_registry task_data = Raises ValueError)
  \/ exists name info,
       In (name, info) agent_registry
       /\ (forall n i, In (n, i) agent_registry -> score i tags <= score info tags)
       /\ match_agent_to_task agent_registry task_data =
            Returns (if Qle_bool THRESHOLD (score info tags)
                     then Some name else None).
Proof using unique_names.
  intros Hx. unfold match_agent_to_task. rewrite Hx. cbn [bind].
  pose proof (extract_nonempty _ _ Hx) as Hne.
  destruct tags as [|t tags']; [now elim Hne|].
  rewrite agent_scores_map.
  destruct agent_registry as [|[n0 i0] reg] eqn:Ereg; [now left|].
  right. cbn [map max_by bind fst snd].
  set (g := fun entry : string * agent_info =>
              (fst entry, score (snd entry) (t :: tags'))).
  destruct (max_from_spec snd (map g reg) (g (n0, i0))) as [Hin Hmax].
  change (g (n0, i0) :: map g reg) with (map g ((n0, i0) :: reg)) in Hin, Hmax.
  apply in_map_iff in Hin. destruct Hin as [[name info] [Eg Hin]].
  exists name, info. split; [exact Hin | split].
  - intros n i Hni.
    assert (Hle := Hmax (g (n, i)) (in_map g _ _ Hni)).
    rewrite <- Eg in Hle. exact Hle.
  - change (n0, score i0 (t :: tags')) with (g (n0, i0)).
    rewrite <- Eg. cbn [g fst snd].
    now destruct (Qle_bool THRESHOLD (score info (t :: tags'))).
Qed.

End MatchFacts.

Lemma default_registry_unique :
  NoDup (keys EnhancedOrchestrator.load_agent_definitions).
Proof.
  repeat (constructor; [simpl; intuition discriminate|]). constructor.
Qed.

Lemma default_registry_named :
  ~ In "" (keys EnhancedOrchestrator.load_agent_definitions).
Proof. simpl. intuition discriminate. Qed.

(** ** The score as a Jaccard similarity *)

Section JaccardFacts.

Import EnhancedOrchestrator.

Lemma mem_str_iff (t : string) (s : list json) :
  PySet.mem (JStr t) s = true <-> In (JStr t) s.
Proof.
  split; [apply mem_str_in|].
  intros H. unfold PySet.mem. apply existsb_exists. exists (JStr t).
  split; [exact H | simpl; apply String.eqb_refl].
Qed.

Lemma existsb_eqb_in (t : string) (l : list string) :
  existsb (String.eqb t) l = true <-> In t l.
Proof.
  rewrite existsb_exists. split.
  - intros [x [Hin Hx]]. apply String.eqb_eq in Hx. now subst.
  - intros H. exists t. split; [exact H | apply String.eqb_refl].
Qed.

Lemma add_str_spec (t : string) (s : list json) :
  NoDup s ->
  NoDup (PySet.add (JStr t) s)
  /\ forall x, In x (PySet.add (JStr t) s) <-> In x s \/ x = JStr t.
Proof.
  intros Hnd. unfold PySet.add. destruct (PySet.mem (JStr t) s) eqn:E.
  - apply mem_str_in in E. split; [exact Hnd|].
    intros x. split; [now left | intros [H | ->]; assumption].
  - assert (Hn : ~ In (JStr t) s).
    { intros H. apply mem_str_iff in H. congruence. }
    split.
    + apply NoDup_app; [exact Hnd | repeat constructor; intros [] |].
      intros a Ha [<- | []]. now apply Hn.
    + intros x. rewrite in_app_iff. simpl. intuition congruence.
Qed.

(** A set built from a list of strings repeats nothing and holds those
    strings and no more. *)
Lemma of_list_strings (l : list string) :
  NoDup (PySet.of_list (map JStr l))
  /\ forall x, In x (PySet.of_list (map JStr l)) <-> exists t, x = JStr t /\ In t l.
Proof.
  unfold PySet.of_list.
  assert (G : forall (l : list string) (acc : list json),
             NoDup acc ->
             NoDup (fold_left (fun s x => PySet.add x s) (map JStr l) acc)
             /\ forall x,
                  In x (fold_left (fun s x => PySet.add x s) (map JStr l) acc)
                  <-> In x acc \/ exists t, x = JStr t /\ In t l).
  { clear l. induction l as [|a l IH]; intros acc Hnd; simpl.
    - split; [exact Hnd|]. intros x. split; [now left|].
      intros [H | [t [_ []]]]. exact H.
    - destruct (add_str_spec a acc Hnd) as [Hnd' Hin'].
      destruct (IH _ Hnd') as [Hnd'' Hin'']. split; [exact Hnd''|].
      intros x. rewrite Hin'', Hin'. split.
      + intros [[H | ->] | [t [-> Ht]]].
        * now left.
        * right. exists a. split; [reflexivity | now left].
        * right. exists t. split; [reflexivity | now right].
      + intros [H | [t [-> [<- | Ht]]]].
        * left. now left.
        * left. now right.
        * right. now exists t. }
  destruct (G l [] (NoDup_nil _)) as [Hnd Hin]. split; [exact Hnd|].
  intros x. rewrite Hin. split; [intros [[] | H]; exact H | now right].
Qed.

(** A duplicate-free list holding exactly the strings of [l] has as many
    items as [l] has distinct strings. *)
Lemma length_distinct (s : list json) (l : list string) :
  NoDup s ->
  (forall x, In x s <-> exists t, x = JStr t /\ In t l) ->
  List.length s = distinct l.
Proof.
  intros Hnd Hin. unfold distinct.
  rewrite <- (length_map JStr (nodup string_dec l)).
  assert (Hnd' : NoDup (map JStr (nodup string_dec l))).
  { apply NoDup_map_NoDup_ForallPairs; [|apply NoDup_nodup].
    intros x y _ _ E. now injection E. }
  apply Nat.le_antisymm; apply NoDup_incl_length; try assumption.
  - intros x Hx. apply Hin in Hx. destruct Hx as [t [-> Ht]].
    apply in_map. now apply nodup_In.
  - intros x Hx. apply in_map_iff in Hx. destruct Hx as [t [<- Ht]].
    apply Hin. exists t. split; [reflexivity|]. now apply nodup_In in Ht.
Qed.

Lemma overlap_distinct (a b : list string) :
  overlap (PySet.of_list (map JStr a)) (PySet.of_list (map JStr b))
  = distinct (shared a b).
Proof.
  destruct (of_list_strings a) as [Ha Ia]. destruct (of_list_strings b) as [Hb Ib].
  unfold overlap, PySet.inter. apply length_distinct.
  - now apply NoDup_filter.
  - intros x. rewrite filter_In, Ia. unfold shared. split.
    + intros [[t [-> Ht]] Hm]. exists t. split; [reflexivity|].
      apply filter_In. split; [exact Ht|]. apply existsb_eqb_in.
      apply mem_str_in in Hm. apply Ib in Hm.
      destruct Hm as [t' [E Ht']]. injection E as ->. exact Ht'.
    + intros [t [-> Ht]]. apply filter_In in Ht. destruct Ht as [Ht Hb'].
      apply existsb_eqb_in in Hb'. split; [now exists t|].
      apply mem_str_iff. apply Ib. now exists t.
Qed.

Lemma total_distinct (a b : list string) :
  total (PySet.of_list (map JStr a)) (PySet.of_list (map JStr b))
  = distinct (a ++ b).
Proof.
  destruct (of_list_strings a) as [Ha Ia]. destruct (of_list_strings b) as [Hb Ib].
  unfold total, PySet.union. apply length_distinct.
  - apply NoDup_app; [exact Ha | now apply NoDup_filter |].
    intros x Hx Hf. apply filter_In in Hf. destruct Hf as [_ Hf].
    apply Ia in Hx. destruct Hx as [t [-> Ht]].
    assert (Hm : PySet.mem (JStr t) (PySet.of_list (map JStr a)) = true).
    { apply mem_str_iff. apply Ia. now exists t. }
    rewrite Hm in Hf. discriminate Hf.
  - intros x. rewrite in_app_iff, filter_In, Ia, Ib. split.
    + intros [[t [-> Ht]] | [[t [-> Ht]] _]]; exists t;
        (split; [reflexivity | apply in_or_app; tauto]).
    + intros [t [-> Ht]]. apply in_app_or in Ht. destruct Ht as [Ht | Ht].
      * left. now exists t.
      * destruct (PySet.mem (JStr t) (PySet.of_list (map JStr a))) eqn:Hm.
        -- left. apply mem_str_in in Hm. now apply Ia in Hm.
        -- right. split; [now exists t | reflexivity].
Qed.

(** On string tags the score the matcher computes is the Jaccard
    similarity of the agent's tags and the task's tags. *)
Lemma score_Jaccard (info : agent_info) (names : list string) :
  score info (map JStr names) = Jaccard (specialist_tags info) names.
Proof.
  unfold score, jaccard, agent_tag_set.
  rewrite overlap_distinct, total_distinct. unfold Jaccard, ratio.
  now destruct (distinct (specialist_tags info ++ names)).
Qed.

End JaccardFacts.

(** C3. For every set of string tags the extraction returns, some
    registered agent has the largest Jaccard similarity to it (shared
    distinct tags over distinct tags in either); the matcher returns that
    agent exactly when this similarity is at least three tenths, the
    bound included, and returns [None] exactly when it is below. *)
Theorem threshold_selects_best_agent :
  forall (agent_registry : dict EnhancedOrchestrator.agent_info)
         (task_data : dict json) (names : list string),
    NoDup (keys agent_registry) ->
    agent_registry <> [] ->
    EnhancedOrchestrator.extract_specialist_tags task_data
      = Returns (map JStr names) ->
    exists name info,
      In (name, info) agent_registry
      /\ (forall n i,
            In (n, i) agent_registry ->
            (Jaccard (EnhancedOrchestrator.specialist_tags i) names
             <= Jaccard (EnhancedOrchestrator.specialist_tags info) names)%Q)
      /\ (EnhancedOrchestrator.match_agent_to_task agent_registry task_data
            = Returns (Some name)
          <-> (3 # 10
               <= Jaccard (EnhancedOrchestrator.specialist_tags info) names)%Q)
      /\ (EnhancedOrchestrator.match_agent_to_task agent_registry task_data
            = Returns None
          <-> (Jaccard (EnhancedOrchestrator.specialist_tags info) names
               < 3 # 10)%Q).
Proof.
  intros reg task_data names Hnd Hne Hx.
  destruct (match_agent_cases reg Hnd task_data _ Hx)
    as [[E _] | [name [info [Hin [Hmax Hm]]]]]; [contradiction|].
  exists name, info. split; [exact Hin | split].
  - intros n i Hni. rewrite <- !score_Jaccard. now apply (Hmax n).
  - rewrite Hm, <- score_Jaccard.
    change (3 # 10)%Q with EnhancedOrchestrator.THRESHOLD.
    destruct (Qle_bool EnhancedOrchestrator.THRESHOLD
                (score info (map JStr names))) eqn:E.
    + apply Qle_bool_iff in E. split; split; intros H.
      * exact E.
      * reflexivity.
      * discriminate H.
      * now apply Qlt_not_le in H.
    + apply Qle_bool_lt in E. split; split; intros H.
      * discriminate H.
      * now apply Qlt_not_le in E.
      * exact E.
      * reflexivity.
Qed.

(** The theorem at the task that announces ten tags, three of them the
    tags of the agent [testing]: the similarity is three tenths exactly
    and [testing] is returned. *)
Lemma threshold_at_boundary_task :
  NoDup (keys EnhancedOrchestrator.load_agent_definitions)
  /\ EnhancedOrchestrator.load_agent_definitions <> []
  /\ EnhancedOrchestrator.extract_specialist_tags boundary_task
     = Returns (map JStr ten_tag_names)
  /\ Jaccard (EnhancedOrchestrator.specialist_tags testing_agent) ten_tag_names
     = (3 # 10)%Q
  /\ EnhancedOrchestrator.match_agent_to_task
       EnhancedOrchestrator.load_agent_definitions boundary_task
     = Returns (Some "testing")
  /\ exists name info,
       In (name, info) EnhancedOrchestrator.load_agent_definitions
       /\ (forall n i,
             In (n, i) EnhancedOrchestrator.load_agent_definitions ->
             (Jaccard (EnhancedOrchestrator.specialist_tags i) ten_tag_names
              <= Jaccard (EnhancedOrchestrator.specialist_tags info)
                   ten_tag_names)%Q)
       /\ (EnhancedOrchestrator.match_agent_to_task
             EnhancedOrchestrator.load_agent_definitions boundary_task
             = Returns (Some name)
           <-> (3 # 10
                <= Jaccard (EnhancedOrchestrator.specialist_tags info)
                     ten_tag_names)%Q)
       /\ (EnhancedOrchestrator.match_agent_to_task
             EnhancedOrchestrator.load_agent_definitions boundary_task
             = Returns None
           <-> (Jaccard (EnhancedOrchestrator.specialist_tags info) ten_tag_names
                < 3 # 10)%Q).
Proof.
  assert (Hne : EnhancedOrchestrator.load_agent_definitions <> []) by discriminate.
  assert (Hx : EnhancedOrchestrator.extract_specialist_tags boundary_task
               = Returns (map JStr ten_tag_names)) by (vm_compute; reflexivity).
  split; [exact default_registry_unique|].
  split; [exact Hne|].
  split; [exact Hx|].
  split; [vm_compute; reflexivity|].
  split; [vm_compute; reflexivity|].
  exact (threshold_selects_best_agent EnhancedOrchestrator.load_agent_definitions
           boundary_task ten_tag_names default_registry_unique Hne Hx).
Defined.

(** A score of three tenths exactly is accepted. *)
Example boundary_score_selected :
  score testing_agent ten_tags = (3 # 10)%Q
  /\ EnhancedOrchestrator.match_agent_to_task
       EnhancedOrchestrator.load_agent_definitions boundary_task
     = Returns (Some "testing").
Proof. split; vm_compute; reflexivity. Qed.

(** A best score of one quarter is refused. *)
Example below_threshold_refused :
  EnhancedOrchestrator.extract_specialist_tags merge_task = Returns [JStr "git"]
  /\ EnhancedOrchestrator.max_by snd
       (EnhancedOrchestrator.agent_scores
          EnhancedOrchestrator.load_agent_definitions [JStr "git"])
     = Returns ("git-history-analyzer", (1 # 4)%Q)
  /\ EnhancedOrchestrator.match_agent_to_task
       EnhancedOrchestrator.load_agent_definitions merge_task
     = Returns None.
Proof. repeat split; vm_compute; reflexivity. Qed.

(** C6. The pytest task is matched to the agent named [testing], which
    carries the tag [testing] and scores one third, above the floor. *)
Theorem pytest_task_routed_to_testing :
  EnhancedOrchestrator.extract_specialist_tags pytest_task = Returns [JStr "testing"]
  /\ EnhancedOrchestrator.match_agent_to_task
       EnhancedOrchestrator.load_agent_definitions pytest_task
     = Returns (Some "testing")
  /\ dict_get "testing" EnhancedOrchestrator.load_agent_definitions
     = Some testing_agent
  /\ In "testing" (EnhancedOrchestrator.specialist_tags testing_agent)
  /\ score testing_agent [JStr "testing"] = (1 # 3)%Q
  /\ (EnhancedOrchestrator.THRESHOLD <= score testing_agent [JStr "testing"])%Q.
Proof.
  split; [vm_compute; reflexivity|].
  split; [vm_compute; reflexivity|].
  split; [reflexivity|].
  split; [now left|].
  split; [vm_compute; reflexivity|].
  apply Qle_bool_iff. vm_compute. reflexivity.
Qed.

(** ** Confidence of a suggestion *)

Section SuggestionFacts.

Import EnhancedOrchestrator.

Local Open Scope Q_scope.

Lemma Zpos_of_nat (n : nat) :
  (1 <= n)%nat -> Z.pos (Pos.of_nat n) = Z.of_nat n.
Proof.
  destruct n as [|n]; [lia|]. intros _.
  rewrite <- Pos.of_nat_succ. now rewrite Zpos_P_of_succ_nat, Nat2Z.inj_succ.
Qed.

Lemma inter_length_le (a b : list json) :
  (List.length (PySet.inter a b) <= List.length (PySet.union a b))%nat.
Proof.
  unfold PySet.inter, PySet.union. rewrite length_app.
  pose proof (filter_length_le (fun x => PySet.mem x b) a). lia.
Qed.

(** A score at the floor or above comes from a union that is not empty
    and an overlap of at least three tenths of it. *)
Lemma threshold_counts (a b : list json) :
  THRESHOLD <= jaccard a b ->
  (1 <= total a b)%nat
  /\ (3 * total a b <= 10 * overlap a b)%nat
  /\ jaccard a b = ratio (overlap a b) (total a b).
Proof.
  unfold jaccard. destruct (Nat.ltb_spec 0 (total a b)) as [Hpos | Hz].
  - intros Hq. split; [lia|]. split; [|reflexivity].
    unfold THRESHOLD, ratio, Qle in Hq. cbn [Qnum Qden] in Hq.
    rewrite Zpos_of_nat in Hq by lia. lia.
  - intros Hq. unfold THRESHOLD, Qle in Hq. simpl in Hq. lia.
Qed.

Lemma of_list_length_le (l : list json) :
  (List.length (PySet.of_list l) <= List.length l)%nat.
Proof.
  unfold PySet.of_list.
  assert (G : forall (l acc : list json),
             (List.length (fold_left (fun s x => PySet.add x s) l acc)
              <= List.length acc + List.length l)%nat).
  { clear l. induction l as [|x l IH]; intros acc; simpl; [lia|].
    specialize (IH (PySet.add x acc)). unfold PySet.add in *.
    destruct (PySet.mem x acc); [lia|].
    rewrite length_app in IH. simpl in IH. lia. }
  exact (G l []).
Qed.

(** No agent of the default registry carries more than four tags. *)
Lemma default_agent_tags (name : string) (info : agent_info) :
  In (name, info) load_agent_definitions ->
  (List.length (specialist_tags info) <= 4)%nat.
Proof.
  simpl. intros H.
  repeat (destruct H as [H | H]; [injection H as _ <-; simpl; lia|]).
  contradiction.
Qed.

Lemma default_overlap (name : string) (info : agent_info) (tags : list json) :
  In (name, info) load_agent_definitions ->
  (overlap (agent_tag_set info) tags <= 4)%nat.
Proof.
  intros Hin. unfold overlap, PySet.inter, agent_tag_set.
  pose proof (filter_length_le (fun x => PySet.mem x tags)
                (PySet.of_list (map JStr (specialist_tags info)))) as H1.
  pose proof (of_list_length_le (map JStr (specialist_tags info))) as H2.
  rewrite length_map in H2.
  pose proof (default_agent_tags _ _ Hin). lia.
Qed.

(** The percentages a set of at most four tags can show at the floor or
    above.  Each is a number of tenths, closer than one twentieth to the
    hundredfold of the quotient: the double that is rounded and the exact
    quotient round to the same tenth. *)
Lemma confidence_table (o t : nat) :
  (o <= 4)%nat -> (1 <= t)%nat -> (o <= t)%nat -> (3 * t <= 10 * o)%nat ->
  Qden (round1 (PyFloat.mul (PyFloat.truediv o t) 100)) = 10%positive
  /\ (2 * Z.abs (1000 * Z.of_nat o
                 - Qnum (round1 (PyFloat.mul (PyFloat.truediv o t) 100))
                   * Z.of_nat t)
      < Z.of_nat t)%Z
  /\ (300 <= Qnum (round1 (PyFloat.mul (PyFloat.truediv o t) 100)) <= 1000)%Z.
Proof.
  intros Ho Ht Hle Hf.
  assert (T : forallb
                (fun '(o, t) =>
                   implb ((o <=? t)%nat && (3 * t <=? 10 * o)%nat)
                     (let c := Qnum (round1 (PyFloat.mul (PyFloat.truediv o t) 100)) in
                      (2 * Z.abs (1000 * Z.of_nat o - c * Z.of_nat t) <? Z.of_nat t)%Z
                      && (300 <=? c)%Z && (c <=? 1000)%Z))
                (list_prod (seq 0 5) (seq 1 13)) = true)
    by (vm_compute; reflexivity).
  rewrite forallb_forall in T.
  assert (Hin : In (o, t) (list_prod (seq 0 5) (seq 1 13))).
  { apply in_prod; apply in_seq; lia. }
  specialize (T _ Hin). cbn beta iota zeta in T.
  apply Nat.leb_le in Hf, Hle. rewrite Hf, Hle in T. cbn [implb andb] in T.
  apply andb_true_iff in T. destruct T as [T T3].
  apply andb_true_iff in T. destruct T as [T1 T2].
  apply Z.ltb_lt in T1. apply Z.leb_le in T2. apply Z.leb_le in T3.
  split; [reflexivity|]. split; [exact T1 | split; assumption].
Qed.

(** Agreement of the suggestion with the matcher on any registry whose
    names are distinct and not empty. *)
Lemma suggestion_agrees_on_registry :
  forall (agent_registry : dict agent_info) (task_data : dict json),
    NoDup (keys agent_registry) ->
    ~ In "" (keys agent_registry) ->
    match match_agent_to_task agent_registry task_data with
    | Returns assigned =>
        exists s tags,
          get_routing_suggestion agent_registry task_data = Returns s
          /\ extract_specialist_tags task_data = Returns tags
          /\ suggested_agent s = assigned
          /\ suggestion_tags s = tags
          /\ match assigned with
             | None => confidence s = 0
             | Some name =>
                 exists info,
                   In (name, info) agent_registry
                   /\ THRESHOLD <= score info tags
                   /\ confidence s
                      = round1
                          (PyFloat.mul
                             (PyFloat.truediv
                                (overlap (agent_tag_set info) (PySet.of_list tags))
                                (total (agent_tag_set info) (PySet.of_list tags)))
                             100)
             end
    | Raises e => get_routing_suggestion agent_registry task_data = Raises e
    | Unmodelled => get_routing_suggestion agent_registry task_data = Unmodelled
    end.
Proof.
  intros reg task_data Hnd Hnamed.
  unfold get_routing_suggestion.
  destruct (extract_specialist_tags task_data) as [tags| e |] eqn:Hx.
  - destruct (match_agent_cases reg Hnd task_data tags Hx)
      as [[E Hm] | [name [info [Hin [Hmax Hm]]]]].
    + rewrite Hm. reflexivity.
    + rewrite Hm. cbn [bind].
      destruct (Qle_bool THRESHOLD (score info tags)) eqn:E.
      * assert (Hname : name <> "").
        { intros ->. apply Hnamed. unfold keys.
          change "" with (fst ("", info)). now apply in_map. }
        unfold named.
        destruct (String.eqb_spec name "") as [|_]; [contradiction|].
        cbn [negb]. rewrite (dict_get_in _ _ _ Hnd Hin).
        apply Qle_bool_iff in E.
        eexists. exists tags. split; [reflexivity|].
        split; [reflexivity|]. split; [reflexivity|]. split; [reflexivity|].
        exists info. split; [exact Hin | split; [exact E|]].
        cbn [confidence].
        destruct (threshold_counts _ _ E) as [Hpos _].
        apply Nat.ltb_lt in Hpos. now rewrite Hpos.
      * cbn [named].
        eexists. exists tags. repeat split.
  - unfold match_agent_to_task. now rewrite Hx.
  - unfold match_agent_to_task. now rewrite Hx.
Qed.

(** On the default registry a suggestion that names an agent shows one
    of the percentages of the table. *)
Lemma default_confidence (info : agent_info) (name : string) (tags : list json) :
  In (name, info) load_agent_definitions ->
  THRESHOLD <= score info tags ->
  exists o t : nat,
    o = overlap (agent_tag_set info) (PySet.of_list tags)
    /\ t = total (agent_tag_set info) (PySet.of_list tags)
    /\ (1 <= t)%nat
    /\ score info tags = ratio o t
    /\ Qden (round1 (PyFloat.mul (PyFloat.truediv o t) 100)) = 10%positive
    /\ (2 * Z.abs (1000 * Z.of_nat o
                   - Qnum (round1 (PyFloat.mul (PyFloat.truediv o t) 100))
                     * Z.of_nat t)
        < Z.of_nat t)%Z
    /\ (300 <= Qnum (round1 (PyFloat.mul (PyFloat.truediv o t) 100)) <= 1000)%Z.
Proof.
  intros Hin Ht.
  destruct (threshold_counts _ _ Ht) as [Hpos [Hf Ej]].
  pose proof (default_overlap _ _ (PySet.of_list tags) Hin) as Ho.
  pose proof (inter_length_le (agent_tag_set info) (PySet.of_list tags)) as Hle.
  destruct (confidence_table _ _ Ho Hpos Hle Hf) as [Hd [Hk Hr]].
  eexists. eexists. split; [reflexivity|]. split; [reflexivity|].
  split; [exact Hpos|]. split; [exact Ej|].
  split; [exact Hd | split; [exact Hk | exact Hr]].
Qed.

End SuggestionFacts.

(** C8. On the registry the orchestrator loads, the suggestion names the
    agent the matcher returns for the same task, and raises when the
    matcher raises.  When no agent is returned the confidence is zero.
    When an agent is returned the confidence is a number of tenths, and
    for string tags it lies closer than one twentieth to the hundredfold
    of the Jaccard similarity between that agent's tags and the extracted
    tags: it is that percentage rounded to one decimal place. *)
Theorem suggestion_agrees_with_matcher :
  forall task_data : dict json,
    match EnhancedOrchestrator.match_agent_to_task
            EnhancedOrchestrator.load_agent_definitions task_data with
    | Returns assigned =>
        exists s,
          EnhancedOrchestrator.get_routing_suggestion
            EnhancedOrchestrator.load_agent_definitions task_data = Returns s
          /\ EnhancedOrchestrator.suggested_agent s = assigned
          /\ match assigned with
             | None => EnhancedOrchestrator.confidence s = 0%Q
             | Some name =>
                 exists (info : EnhancedOrchestrator.agent_info) (k : Z),
                   dict_get name EnhancedOrchestrator.load_agent_definitions
                     = Some info
                   /\ EnhancedOrchestrator.confidence s = (k # 10)%Q
                   /\ forall names : list string,
                        EnhancedOrchestrator.extract_specialist_tags task_data
                          = Returns (map JStr names) ->
                        (Jaccard (EnhancedOrchestrator.specialist_tags info) names
                           * 100 - (1 # 20) < k # 10)%Q
                        /\ (k # 10
                            < Jaccard (EnhancedOrchestrator.specialist_tags info)
                                names * 100 + (1 # 20))%Q
             end
    | Raises e =>
        EnhancedOrchestrator.get_routing_suggestion
          EnhancedOrchestrator.load_agent_definitions task_data = Raises e
    | Unmodelled =>
        EnhancedOrchestrator.get_routing_suggestion
          EnhancedOrchestrator.load_agent_definitions task_data = Unmodelled
    end.
Proof.
  intros task_data.
  pose proof (suggestion_agrees_on_registry
                EnhancedOrchestrator.load_agent_definitions task_data
                default_registry_unique default_registry_named) as H.
  destruct (EnhancedOrchestrator.match_agent_to_task
              EnhancedOrchestrator.load_agent_definitions task_data)
    as [assigned| e |]; [|exact H|exact H].
  destruct H as [s [tags [Hs [Hx [Ha [_ Hc]]]]]].
  exists s. split; [exact Hs|]. split; [exact Ha|].
  destruct assigned as [name|]; [|exact Hc].
  destruct Hc as [info [Hin [Ht Ec]]].
  destruct (default_confidence info name tags Hin Ht)
    as [o [t [Eo [Et [Hpos [Ej [Hd [Hk _]]]]]]]].
  rewrite <- Eo, <- Et in Ec. rewrite <- Ec in Hd, Hk.
  exists info, (Qnum (EnhancedOrchestrator.confidence s)).
  split; [exact (dict_get_in _ _ _ default_registry_unique Hin)|].
  split.
  { destruct (EnhancedOrchestrator.confidence s) as [n d].
    cbn [Qnum Qden] in *. now rewrite Hd. }
  intros names Hn. rewrite Hx in Hn. injection Hn as ->.
  rewrite <- score_Jaccard, Ej.
  set (k := Qnum (EnhancedOrchestrator.confidence s)) in *.
  unfold EnhancedOrchestrator.ratio, Qlt, Qminus, Qplus, Qmult, Qopp.
  cbn [Qnum Qden]. rewrite !Pos2Z.inj_mul, Zpos_of_nat by exact Hpos.
  split; lia.
Qed.

(** On the pytest task: agent [testing], confidence 33.3. *)
Example suggestion_confidence_pytest :
  option_map EnhancedOrchestrator.confidence
    (match EnhancedOrchestrator.get_routing_suggestion
             EnhancedOrchestrator.load_agent_definitions pytest_task with
     | Returns s => Some s
     | _ => None
     end)
  = Some (333 # 10)%Q.
Proof. vm_compute. reflexivity. Qed.

(** The double is rounded, not the exact quotient: 49/80 of a hundred is
    61.25 exactly and would round to the even 61.2, the double computed
    for it lies above and rounds to 61.3. *)
Example confidence_rounds_the_double :
  EnhancedOrchestrator.round1 (PyFloat.mul (PyFloat.truediv 49 80) 100)
  = (613 # 10)%Q
  /\ EnhancedOrchestrator.round1 (EnhancedOrchestrator.ratio 49 80 * 100)
     = (612 # 10)%Q.
Proof. split; vm_compute; reflexivity. Qed.

(** ** Batch routing *)

Section BatchFacts.

Import EnhancedOrchestrator.

Variable agent_registry : dict agent_info.
Variable bd_show : string -> result string.
Variable exn_text : exn -> string.

Let route (task_id : string) : result (bool * string * option string) :=
  route_task agent_registry bd_show exn_text task_id "orchestrator".

(** [route_task] catches every exception of its body. *)
Lemma route_task_never_raises (task_id : string) (e : exn) :
  route task_id <> Raises e.
Proof.
  unfold route, route_task.
  destruct (route_task_try _ _ _ _); discriminate.
Qed.

(** A successful route names its agent. *)
Lemma route_task_success_named (task_id message : string) (agent : option string) :
  route task_id = Returns (true, message, agent) ->
  exists name, agent = Some name /\ name <> "".
Proof.
  unfold route, route_task, route_task_try.
  destruct (bd_show task_id) as [stdout| |]; cbn [bind]; try discriminate.
  destruct (Json.loads stdout) as [task_data| |]; cbn [bind]; try discriminate.
  set (td := match task_data with JArr (first :: _) => first | _ => task_data end).
  destruct (Py.get td "title" _); cbn [bind]; try discriminate.
  destruct (Py.get td "description" _); cbn [bind]; try discriminate.
  destruct td; try discriminate.
  destruct (extract_specialist_tags fields); cbn [bind]; try discriminate.
  destruct (match_agent_to_task agent_registry fields) as [assigned| |];
    cbn [bind]; try discriminate.
  destruct (named assigned) eqn:En; [|discriminate].
  intros E. injection E as _ <-.
  destruct assigned as [name|]; [|discriminate En].
  exists name. split; [reflexivity|].
  intros ->. discriminate En.
Qed.

Lemma route_each_spec (task_ids : list string) :
  forall rep0,
    (forall task_id, In task_id task_ids -> route task_id <> Unmodelled) ->
    exists rep,
      route_each agent_registry bd_show exn_text task_ids rep0 = Returns rep
      /\ total_tasks rep = total_tasks rep0
      /\ (successful_routes rep + failed_routes rep
          = successful_routes rep0 + failed_routes rep0 + List.length task_ids)%nat
      /\ (failed_routes rep
          = failed_routes rep0 + List.length (routing_errors route task_ids))%nat
      /\ errors rep = (errors rep0 ++ routing_errors route task_ids)%list
      /\ (forall task_id message agent,
            In task_id task_ids ->
            route task_id = Returns (true, message, agent) ->
            dict_get task_id (assignments rep) = Some agent)
      /\ (forall task_id,
            (forall message agent,
               In task_id task_ids ->
               route task_id <> Returns (true, message, agent)) ->
            dict_get task_id (assignments rep) = dict_get task_id (assignments rep0)).
Proof.
  induction task_ids as [|id0 rest IH]; intros rep0 Hmod.
  - exists rep0. cbn [route_each routing_errors flat_map List.length].
    rewrite app_nil_r, !Nat.add_0_r.
    repeat split; try reflexivity. intros ? ? ? [].
  - assert (Hrest : forall task_id, In task_id rest -> route task_id <> Unmodelled)
      by (intros t Ht; apply Hmod; now right).
    cbn [route_each]. fold (route id0).
    destruct (route id0) as [[[success message] agent] | e |] eqn:Er.
    2: now elim (route_task_never_raises id0 e).
    2: now elim (Hmod id0 (or_introl eq_refl)).
    cbn [bind].
    destruct (IH (record_route rep0 id0 (success, message, agent)) Hrest)
      as [rep [Hrun [Htot [Hsum [Hfail [Herr [Hok Hkeep]]]]]]].
    exists rep. split; [exact Hrun|].
    cbn [routing_errors flat_map]. fold (routing_errors route rest). rewrite Er.
    destruct success; cbn [record_route total_tasks successful_routes failed_routes
                             assignments errors] in *.
    + split; [exact Htot|]. split; [cbn [List.length]; lia|].
      split; [exact Hfail|]. split; [exact Herr|]. split.
      * intros t m a [<- | Hin] Ht.
        -- destruct (in_dec string_dec id0 rest) as [Hin | Hnin].
           ++ exact (Hok _ _ _ Hin Ht).
           ++ rewrite Hkeep by (intros ? ? Hin; contradiction).
              rewrite Er in Ht. injection Ht as _ <-.
              apply dict_get_set_same.
        -- exact (Hok _ _ _ Hin Ht).
      * intros t Ht. rewrite Hkeep.
        -- apply dict_get_set_other. intros ->.
           exact (Ht _ _ (or_introl eq_refl) Er).
        -- intros m a Hin. apply Ht. now right.
    + split; [exact Htot|].
      split; [cbn [List.length app]; lia|].
      split; [cbn [List.length app]; lia|].
      split; [rewrite Herr, <- app_assoc; reflexivity|]. split.
      * intros t m a [<- | Hin] Ht; [rewrite Er in Ht; discriminate Ht|].
        exact (Hok _ _ _ Hin Ht).
      * intros t Ht. apply Hkeep. intros m a Hin. apply Ht. now right.
Qed.

End BatchFacts.

(** C9. A batch routes every task of its list whatever happened to the
    earlier ones, and its report counts them all: the total is the
    length of the list, successes and failures add up to it, each
    successfully routed id is a key of [assignments] bound to its agent,
    no other id is, and [errors] holds one entry per failed attempt. *)
Theorem batch_report_accounts_for_every_task :
  forall (agent_registry : dict EnhancedOrchestrator.agent_info)
         (bd_show : string -> result string)
         (exn_text : exn -> string)
         (task_ids : list string),
    (forall task_id,
       In task_id task_ids ->
       EnhancedOrchestrator.route_task agent_registry bd_show exn_text
         task_id "orchestrator" <> Unmodelled) ->
    exists rep,
      EnhancedOrchestrator.route_batch agent_registry bd_show exn_text task_ids
        = Returns rep
      /\ EnhancedOrchestrator.total_tasks rep = List.length task_ids
      /\ (EnhancedOrchestrator.successful_routes rep
          + EnhancedOrchestrator.failed_routes rep
          = EnhancedOrchestrator.total_tasks rep)%nat
      /\ EnhancedOrchestrator.failed_routes rep
         = List.length (EnhancedOrchestrator.errors rep)
      /\ EnhancedOrchestrator.errors rep
         = routing_errors
             (fun task_id =>
                EnhancedOrchestrator.route_task agent_registry bd_show exn_text
                  task_id "orchestrator")
             task_ids
      /\ (forall task_id message agent,
            In task_id task_ids ->
            EnhancedOrchestrator.route_task agent_registry bd_show exn_text
              task_id "orchestrator" = Returns (true, message, agent) ->
            dict_get task_id (EnhancedOrchestrator.assignments rep) = Some agent
            /\ exists name, agent = Some name)
      /\ (forall task_id,
            (forall message agent,
               In task_id task_ids ->
               EnhancedOrchestrator.route_task agent_registry bd_show exn_text
                 task_id "orchestrator" <> Returns (true, message, agent)) ->
            dict_get task_id (EnhancedOrchestrator.assignments rep) = None).
Proof.
  intros reg bd_show exn_text task_ids Hmod.
  unfold EnhancedOrchestrator.route_batch.
  destruct (route_each_spec reg bd_show exn_text task_ids
              {| EnhancedOrchestrator.total_tasks := List.length task_ids;
                 EnhancedOrchestrator.successful_routes := 0;
                 EnhancedOrchestrator.failed_routes := 0;
                 EnhancedOrchestrator.assignments := [];
                 EnhancedOrchestrator.errors := [] |} Hmod)
    as [rep [Hrun [Htot [Hsum [Hfail [Herr [Hok Hkeep]]]]]]].
  cbn [EnhancedOrchestrator.total_tasks EnhancedOrchestrator.successful_routes
       EnhancedOrchestrator.failed_routes EnhancedOrchestrator.assignments
       EnhancedOrchestrator.errors app] in *.
  exists rep. split; [exact Hrun|]. split; [exact Htot|].
  split; [lia|]. split; [rewrite Herr; exact Hfail|]. split; [exact Herr|]. split.
  - intros t m a Hin Ht. split; [exact (Hok _ _ _ Hin Ht)|].
    destruct (route_task_success_named reg bd_show exn_text _ _ _ Ht) as [n [E _]].
    now exists n.
  - intros t Ht. now rewrite (Hkeep t Ht).
Qed.

(** The theorem on a batch of two: the first id is in the store, the
    second makes the lookup fail; the first is assigned all the same
    when it comes second. *)
Lemma batch_of_two :
  (forall task_id,
     In task_id ["bd-9"; "bd-1"] ->
     EnhancedOrchestrator.route_task EnhancedOrchestrator.load_agent_definitions
       one_task_store exn_name task_id "orchestrator" <> Unmodelled)
  /\ exists rep,
       EnhancedOrchestrator.route_batch EnhancedOrchestrator.load_agent_definitions
         one_task_store exn_name ["bd-9"; "bd-1"] = Returns rep
       /\ EnhancedOrchestrator.total_tasks rep = 2%nat
       /\ EnhancedOrchestrator.successful_routes rep = 1%nat
       /\ EnhancedOrchestrator.failed_routes rep = 1%nat
       /\ EnhancedOrchestrator.assignments rep = [("bd-1", Some "testing")]
       /\ EnhancedOrchestrator.errors rep
          = [("bd-9", "Error routing task bd-9: CalledProcessError")].
Proof.
  assert (Hmod : forall task_id,
             In task_id ["bd-9"; "bd-1"] ->
             EnhancedOrchestrator.route_task EnhancedOrchestrator.load_agent_definitions
               one_task_store exn_name task_id "orchestrator" <> Unmodelled).
  { intros t [<- | [<- | []]]; vm_compute; discriminate. }
  split; [exact Hmod|].
  destruct (batch_report_accounts_for_every_task
              EnhancedOrchestrator.load_agent_definitions one_task_store exn_name
              ["bd-9"; "bd-1"] Hmod) as [rep [Hrun _]].
  exists rep. split; [exact Hrun|].
  assert (E : Returns rep
              = EnhancedOrchestrator.route_batch
                  EnhancedOrchestrator.load_agent_definitions
                  one_task_store exn_name ["bd-9"; "bd-1"]) by now rewrite Hrun.
  vm_compute in E. injection E as ->. repeat split.
Defined.

(** ** Envelopes *)

Lemma dict_get_set_if_truthy_other (k k' : string) (x : option json) (m : dict json) :
  k <> k' -> dict_get k (Handoff.set_if_truthy k' x m) = dict_get k m.
Proof.
  intros Hk. unfold Handoff.set_if_truthy.
  destruct x as [v|]; [|reflexivity].
  destruct (Py.truthy v) as [[|]| |]; try reflexivity.
  now apply dict_get_set_other.
Qed.

Ltac skip_optional_fields :=
  repeat (rewrite dict_get_set_if_truthy_other by discriminate).

(** C7. The envelope gives back the [task_id], [file_patterns] and
    [priority_value] it was built from, and an optional argument left at
    its default leaves no key behind, whatever the other arguments are. *)
Theorem assignment_envelope_round_trip :
  forall (env : Handoff.stamp) (sender_id task_id description : string)
         (file_patterns : list string) (priority : string) (priority_value : Z)
         (specification : option (dict json)) (dependencies : option (list string))
         (estimated_duration_minutes : option Z) (deadline : option string)
         (metadata : option (dict json)),
    let build := Handoff.create_task_assignment_message env sender_id task_id
                   description file_patterns priority priority_value in
    dict_get "task_id"
      (build specification dependencies estimated_duration_minutes deadline metadata)
      = Some (JStr task_id)
    /\ dict_get "file_patterns"
         (build specification dependencies estimated_duration_minutes deadline metadata)
       = Some (JArr (map JStr file_patterns))
    /\ dict_get "priority_value"
         (build specification dependencies estimated_duration_minutes deadline metadata)
       = Some (JInt priority_value)
    /\ dict_get "specification"
         (build None dependencies estimated_duration_minutes deadline metadata) = None
    /\ dict_get "dependencies"
         (build specification None estimated_duration_minutes deadline metadata) = None
    /\ dict_get "estimated_duration_minutes"
         (build specification dependencies None deadline metadata) = None
    /\ dict_get "deadline"
         (build specification dependencies estimated_duration_minutes None metadata) = None
    /\ dict_get "metadata"
         (build specification dependencies estimated_duration_minutes deadline None) = None.
Proof.
  intros. unfold build, Handoff.create_task_assignment_message.
  repeat split; skip_optional_fields; try reflexivity.
  all: cbn [option_map Handoff.set_if_truthy]; skip_optional_fields; reflexivity.
Qed.

(** With every optional argument at its default the envelope has the
    five header keys and the five required ones, in that order. *)
Example assignment_envelope_keys :
  keys (Handoff.create_task_assignment_message
          {| Handoff.utc_timestamp := "2025-01-01T00:00:00Z";
             Handoff.message_id := "0f8fad5b-d9cb-469f-a165-70867728950e" |}
          "orchestrator" "bd-1" "Add login" ["src/**/*.py"] "normal" 2
          None None None None None)
  = [ "version"; "timestamp"; "sender_id"; "message_id"; "type";
      "task_id"; "description"; "file_patterns"; "priority"; "priority_value" ].
Proof. reflexivity. Qed.

(** C10. The delegated content labels the priority [high] exactly when
    the number is at most one and [normal] otherwise, and carries the
    number itself as [priority_value]; no other label is ever written. *)
Theorem delegated_priority_is_high_or_normal :
  forall (task_id description : string) (file_patterns : option (list string))
         (priority : Z) (dependencies : option (list string))
         (estimated_minutes : Z) (metadata : option (dict json)),
    let content := Orchestrator.message_content task_id description file_patterns
                     priority dependencies estimated_minutes metadata in
    dict_get "priority_value" content = Some (JInt priority)
    /\ (dict_get "priority" content = Some (JStr "high") <-> (priority <= 1)%Z)
    /\ (dict_get "priority" content = Some (JStr "normal") <-> (1 < priority)%Z)
    /\ dict_get "priority" content <> Some (JStr "urgent")
    /\ dict_get "priority" content <> Some (JStr "low")
    /\ (dict_get "priority"
          (Orchestrator.message_content task_id description file_patterns
             0 dependencies estimated_minutes metadata),
        dict_get "priority_value"
          (Orchestrator.message_content task_id description file_patterns
             0 dependencies estimated_minutes metadata))
       = (Some (JStr "high"), Some (JInt 0))
    /\ (dict_get "priority"
          (Orchestrator.message_content task_id description file_patterns
             3 dependencies estimated_minutes metadata),
        dict_get "priority_value"
          (Orchestrator.message_content task_id description file_patterns
             3 dependencies estimated_minutes metadata))
       = (Some (JStr "normal"), Some (JInt 3)).
Proof.
  intros. unfold content, Orchestrator.message_content.
  skip_optional_fields.
  cbn. unfold Orchestrator.priority_label.
  split; [reflexivity|].
  destruct (Z.leb_spec priority 1) as [Hle | Hgt].
  - repeat split; try discriminate; try reflexivity; lia.
  - repeat split; try discriminate; try reflexivity; lia.
Qed.

(** What [delegate_task] passes to the mail client is that content, with
    the same two-valued label as importance. *)
Example delegate_task_sends_content :
  forall (droid_name task_id description : string) (priority : Z),
    Orchestrator.delegate_task "proj" "orchestrator"
      (fun _ _ recipient content importance =>
         [ ("success", JBool true);
           ("response",
            JObj [("message_id",
                   JArr [JStr recipient; JObj content; JStr importance])]) ])
      droid_name task_id description None priority None 60 None
    = Returns
        [ ("success", JBool true);
          ("task_id", JStr task_id);
          ("droid_name", JStr droid_name);
          ("error", JNull);
          ("message_id",
           JArr [ JStr droid_name;
                  JObj (Orchestrator.message_content task_id description None
                          priority None 60 None);
                  JStr (Orchestrator.priority_label priority) ]) ].
Proof. reflexivity. Qed.

(** ** More on response normalisation *)

(** X1. A reply without a [content] key never raises: it yields its
    [structuredContent] if it has one, else its [result] if it has one,
    else the reply itself. *)
Theorem normalize_without_content :
  forall response : dict json,
    dict_get "content" response = None ->
    Client._extract_structured_content response =
      Returns match dict_get "structuredContent" response with
              | Some structured => structured
              | None =>
                  match dict_get "result" response with
                  | Some r => r
                  | None => JObj response
                  end
              end.
Proof.
  intros response Hc.
  unfold Client._extract_structured_content, Client.check_error_content, has_key,
    dict_get_default.
  rewrite Hc. cbn [bind].
  destruct (dict_get "structuredContent" response); [reflexivity|].
  now destruct (dict_get "result" response).
Qed.

(** The direct-call scenario: the granted reservations come back as they
    are. *)
Lemma normalize_granted_reservation :
  dict_get "content" [("result", JObj [("granted", JArr [JObj [("id", JInt 1)]])])]
    = None
  /\ Client._extract_structured_content
       [("result", JObj [("granted", JArr [JObj [("id", JInt 1)]])])]
     = Returns (JObj [("granted", JArr [JObj [("id", JInt 1)]])]).
Proof.
  split; [reflexivity|].
  exact (normalize_without_content
           [("result", JObj [("granted", JArr [JObj [("id", JInt 1)]])])] eq_refl).
Defined.

(** X2. With an empty [content] list the [result] is not unwrapped: the
    reply yields its [structuredContent] if present and otherwise the
    whole reply, [result] key included. *)
Theorem normalize_empty_content :
  forall response : dict json,
    dict_get "content" response = Some (JArr []) ->
    Client._extract_structured_content response =
      Returns match dict_get "structuredContent" response with
              | Some structured => structured
              | None => JObj response
              end.
Proof.
  intros response Hc.
  unfold Client._extract_structured_content, Client.check_error_content,
    Client.unwrap_call_result, has_key, dict_get_default.
  rewrite Hc. cbn [Py.len bind List.length Nat.ltb Nat.leb].
  destruct (dict_get "structuredContent" response); [reflexivity|].
  now destruct (dict_get "result" response).
Qed.

Lemma normalize_empty_content_keeps_envelope :
  dict_get "content" [("result", JObj [("id", JInt 1)]); ("content", JArr [])]
    = Some (JArr [])
  /\ Client._extract_structured_content
       [("result", JObj [("id", JInt 1)]); ("content", JArr [])]
     = Returns (JObj [("result", JObj [("id", JInt 1)]); ("content", JArr [])]).
Proof.
  split; [reflexivity|].
  exact (normalize_empty_content
           [("result", JObj [("id", JInt 1)]); ("content", JArr [])] eq_refl).
Defined.

Lemma eq_str_true (v : json) (s : string) : Py.eq_str v s = true -> v = JStr s.
Proof.
  destruct v; simpl; try discriminate.
  intros H. apply String.eqb_eq in H. now subst.
Qed.

(** X3. A first content item that is an object of another type than
    [text] is neither searched for error wording nor decoded: the reply
    yields its [structuredContent] if present and otherwise itself. *)
Theorem normalize_non_text_item :
  forall (response first : dict json) (rest : list json),
    dict_get "content" response = Some (JArr (JObj first :: rest)) ->
    dict_get "type" first <> Some (JStr "text") ->
    Client._extract_structured_content response =
      Returns match dict_get "structuredContent" response with
              | Some structured => structured
              | None => JObj response
              end.
Proof.
  intros response first rest Hc Hty.
  assert (E : Py.eq_str (dict_get_default "type" JNull first) "text" = false).
  { destruct (Py.eq_str _ "text") eqn:E; [|reflexivity].
    apply eq_str_true in E. unfold dict_get_default in E.
    destruct (dict_get "type" first); [now subst | discriminate E]. }
  unfold Client._extract_structured_content, Client.check_error_content,
    Client.unwrap_call_result, has_key, dict_get_default.
  rewrite Hc. cbn [Py.len Py.item0 Py.get bind List.length Nat.ltb Nat.leb].
  rewrite E. cbn [bind].
  destruct (dict_get "structuredContent" response); [reflexivity|].
  now destruct (dict_get "result" response).
Qed.

Lemma normalize_image_item :
  dict_get "type" [("type", JStr "image"); ("text", JStr "Error")]
    <> Some (JStr "text")
  /\ Client._extract_structured_content
       [ ("result", JNull);
         ("content", JArr [JObj [("type", JStr "image"); ("text", JStr "Error")]]) ]
     = Returns (JObj
         [ ("result", JNull);
           ("content", JArr [JObj [("type", JStr "image"); ("text", JStr "Error")]]) ]).
Proof.
  assert (H : dict_get "type" [("type", JStr "image"); ("text", JStr "Error")]
              <> Some (JStr "text")) by discriminate.
  split; [exact H|].
  exact (normalize_non_text_item
           [ ("result", JNull);
             ("content", JArr [JObj [("type", JStr "image"); ("text", JStr "Error")]]) ]
           [("type", JStr "image"); ("text", JStr "Error")] [] eq_refl H).
Defined.

(** X4. A text item that has no [text] key counts as the text of an
    empty object: with a [result] key and no [structuredContent] the
    reply normalises to the empty object. *)
Theorem normalize_text_item_without_text :
  forall (response first : dict json) (rest : list json),
    dict_get "structuredContent" response = None ->
    has_key "result" response = true ->
    dict_get "content" response = Some (JArr (JObj first :: rest)) ->
    dict_get "type" first = Some (JStr "text") ->
    dict_get "text" first = None ->
    Client._extract_structured_content response = Returns (JObj []).
Proof.
  intros response first rest Hsc Hres Hc Hty Htx.
  unfold Client._extract_structured_content, Client.check_error_content,
    Client.unwrap_call_result.
  rewrite Hres. unfold has_key, dict_get_default.
  rewrite Hc, Hsc. cbn [Py.len Py.item0 Py.get bind List.length Nat.ltb Nat.leb].
  unfold dict_get_default. rewrite Hty, Htx. reflexivity.
Qed.

Lemma normalize_text_item_without_text_example :
  has_key "result"
    [("result", JInt 1); ("content", JArr [JObj [("type", JStr "text")]])] = true
  /\ Client._extract_structured_content
       [("result", JInt 1); ("content", JArr [JObj [("type", JStr "text")]])]
     = Returns (JObj []).
Proof.
  split; [reflexivity|].
  exact (normalize_text_item_without_text
           [("result", JInt 1); ("content", JArr [JObj [("type", JStr "text")]])]
           [("type", JStr "text")] [] eq_refl eq_refl eq_refl eq_refl eq_refl).
Defined.

(** X5. A reply with neither [result] nor [structuredContent] whose first
    content item is a text free of error wording is returned as it is,
    whether or not the text is JSON. *)
Theorem normalize_plain_text_reply :
  forall (response first : dict json) (rest : list json) (text : string),
    dict_get "structuredContent" response = None ->
    dict_get "result" response = None ->
    dict_get "content" response = Some (JArr (JObj first :: rest)) ->
    dict_get "type" first = Some (JStr "text") ->
    dict_get "text" first = Some (JStr text) ->
    ~ Substring "Error" text ->
    ~ SubstringNoCase "not found" text ->
    Client._extract_structured_content response = Returns (JObj response).
Proof.
  intros response first rest text Hsc Hres Hc Hty Htx Hne Hnf.
  unfold Client._extract_structured_content.
  rewrite (check_error_content_text _ _ _ _ Hc Hty Htx).
  apply contains_false_iff in Hne. apply contains_lower_false_iff in Hnf.
  rewrite Hne, Hnf. cbn [orb bind]. rewrite Hsc.
  unfold has_key. now rewrite Hres.
Qed.

Lemma normalize_plain_text_reply_example :
  ~ Substring "Error" "[1, 2]"
  /\ ~ SubstringNoCase "not found" "[1, 2]"
  /\ Client._extract_structured_content
       [("content", JArr [JObj [("type", JStr "text"); ("text", JStr "[1, 2]")]])]
     = Returns (JObj
         [("content", JArr [JObj [("type", JStr "text"); ("text", JStr "[1, 2]")]])]).
Proof.
  assert (Hne : ~ Substring "Error" "[1, 2]")
    by (apply contains_false_iff; reflexivity).
  assert (Hnf : ~ SubstringNoCase "not found" "[1, 2]")
    by (apply contains_lower_false_iff; reflexivity).
  split; [exact Hne | split; [exact Hnf|]].
  exact (normalize_plain_text_reply
           [("content", JArr [JObj [("type", JStr "text"); ("text", JStr "[1, 2]")]])]
           [("type", JStr "text"); ("text", JStr "[1, 2]")] [] "[1, 2]"
           eq_refl eq_refl eq_refl eq_refl eq_refl Hne Hnf).
Defined.

(** ** The mail client helpers *)

Section ClientFacts.

Variable call_tool : string -> dict json -> result (dict json).
Variable exn_text : exn -> string.
Variables dumps repr : dict json -> string.

Lemma call_and_extract_never_raises (tool : string) (arguments : dict json) (e : exn) :
  Client.call_and_extract call_tool exn_text tool arguments <> Raises e.
Proof.
  unfold Client.call_and_extract.
  destruct (bind _ _); discriminate.
Qed.

Lemma call_and_extract_error_text
  (tool : string) (arguments response first : dict json) (rest : list json)
  (text : string) :
  call_tool "call_tool" [("tool_name", JStr tool); ("arguments", JObj arguments)]
    = Returns response ->
  dict_get "content" response = Some (JArr (JObj first :: rest)) ->
  dict_get "type" first = Some (JStr "text") ->
  dict_get "text" first = Some (JStr text) ->
  Substring "Error" text \/ SubstringNoCase "not found" text ->
  Client.call_and_extract call_tool exn_text tool arguments
    = Returns [("success", JBool false); ("error", JStr text)].
Proof using Type.
  intros Hcall Hc Hty Htx Herr.
  unfold Client.call_and_extract. rewrite Hcall. cbn [bind].
  unfold Client._extract_structured_content.
  rewrite (check_error_content_text _ _ _ _ Hc Hty Htx).
  assert (E : PyStr.contains "Error" text
              || PyStr.contains "not found" (PyStr.lower text) = true).
  { apply orb_true_iff. destruct Herr as [H | H].
    - left. now apply contains_iff.
    - right. now apply contains_lower_iff. }
  now rewrite E.
Qed.

End ClientFacts.

(** X6. No exception leaves the six helpers of the mail client, whatever
    the transport does: a failure is reported in the returned record. *)
Theorem client_helpers_never_raise :
  forall (call_tool : string -> dict json -> result (dict json))
         (exn_text : exn -> string) (dumps repr : dict json -> string) (e : exn),
    (forall project_key agent_name model task_description,
        Client.register_agent call_tool exn_text project_key agent_name model
          task_description <> Raises e)
    /\ (forall project_key sender_name recipient_name content importance,
        Client.send_message call_tool exn_text dumps repr project_key sender_name
          recipient_name content importance <> Raises e)
    /\ (forall project_key agent_name limit acknowledged_only,
        Client.fetch_inbox call_tool exn_text project_key agent_name limit
          acknowledged_only <> Raises e)
    /\ (forall project_key agent_name message_id,
        Client.acknowledge_message call_tool exn_text project_key agent_name
          message_id <> Raises e)
    /\ (forall project_key agent_name paths ttl_seconds exclusive,
        Client.reserve_file_paths call_tool exn_text project_key agent_name paths
          ttl_seconds exclusive <> Raises e)
    /\ (forall project_key agent_name,
        Client.release_file_reservations call_tool exn_text project_key agent_name
          <> Raises e).
Proof.
  intros. repeat split; intros; apply call_and_extract_never_raises.
Qed.

(** X7. When the server answers [send_message] with a text item that
    mentions [Error], or [not found] in any letter case, the helper
    reports a failure whose error is that text. *)
Theorem send_message_reports_embedded_error :
  forall (call_tool : string -> dict json -> result (dict json))
         (exn_text : exn -> string) (dumps repr : dict json -> string)
         (project_key sender_name recipient_name : string)
         (content : dict json) (importance : string)
         (response first : dict json) (rest : list json) (text : string),
    call_tool "call_tool"
      [ ("tool_name", JStr "send_message");
        ("arguments",
         JObj (Client.send_arguments dumps repr project_key sender_name
                 recipient_name content importance)) ]
      = Returns response ->
    dict_get "content" response = Some (JArr (JObj first :: rest)) ->
    dict_get "type" first = Some (JStr "text") ->
    dict_get "text" first = Some (JStr text) ->
    Substring "Error" text \/ SubstringNoCase "not found" text ->
    Client.send_message call_tool exn_text dumps repr project_key sender_name
      recipient_name content importance
      = Returns [("success", JBool false); ("error", JStr text)].
Proof.
  intros. unfold Client.send_message.
  eapply call_and_extract_error_text; eassumption.
Qed.

Lemma send_message_recipient_not_found :
  (Substring "Error" "Recipient not found"
   \/ SubstringNoCase "not found" "Recipient not found")
  /\ Client.send_message
       (fun _ _ =>
          Returns [("content",
                    JArr [JObj [("type", JStr "text");
                                ("text", JStr "Recipient not found")]])])
       (fun _ => "") (fun _ => "") (fun _ => "")
       "proj" "orchestrator" "nobody" [("type", JStr "task_assignment")] "normal"
     = Returns [("success", JBool false); ("error", JStr "Recipient not found")].
Proof.
  assert (H : Substring "Error" "Recipient not found"
              \/ SubstringNoCase "not found" "Recipient not found").
  { right. exists "Recipient ", "not found", "". split; reflexivity. }
  split; [exact H|].
  exact (send_message_reports_embedded_error
           (fun _ _ =>
              Returns [("content",
                        JArr [JObj [("type", JStr "text");
                                    ("text", JStr "Recipient not found")]])])
           (fun _ => "") (fun _ => "") (fun _ => "")
           "proj" "orchestrator" "nobody" [("type", JStr "task_assignment")] "normal"
           _ [("type", JStr "text"); ("text", JStr "Recipient not found")] []
           "Recipient not found" eq_refl eq_refl eq_refl eq_refl H).
Defined.

(** ** Delegation and initialisation *)

(** X8. [Orchestrator.delegate_task] never hands back a failure record:
    what it returns has [success] true, no error and the id the server
    gave (or [unknown]); every failure leaves as [RuntimeError], in
    particular a send result whose [success] is false. *)
Theorem delegate_task_returns_success_only :
  forall (project_key agent_name : string)
         (send_message : string -> string -> string -> dict json -> string -> dict json)
         (droid_name task_id description : string)
         (file_patterns : option (list string)) (priority : Z)
         (dependencies : option (list string)) (estimated_minutes : Z)
         (metadata : option (dict json)),
    let outcome :=
      Orchestrator.delegate_task project_key agent_name send_message droid_name
        task_id description file_patterns priority dependencies estimated_minutes
        metadata in
    let send_result :=
      send_message project_key agent_name droid_name
        (Orchestrator.message_content task_id description file_patterns priority
           dependencies estimated_minutes metadata)
        (Orchestrator.priority_label priority) in
    (forall r, outcome = Returns r ->
       Py.truthy (dict_get_default "success" JNull send_result) = Returns true
       /\ dict_get "success" r = Some (JBool true)
       /\ dict_get "error" r = Some JNull
       /\ dict_get "task_id" r = Some (JStr task_id)
       /\ dict_get "droid_name" r = Some (JStr droid_name)
       /\ Py.get (dict_get_default "response" (JObj []) send_result)
            "message_id" (JStr "unknown")
          = Returns (dict_get_default "message_id" JNull r))
    /\ (forall e, outcome = Raises e -> e = RuntimeError)
    /\ (dict_get "success" send_result = Some (JBool false) ->
        outcome = Raises RuntimeError)
    /\ (dict_get "success" send_result = None -> outcome = Raises RuntimeError).
Proof.
  intros. unfold outcome, Orchestrator.delegate_task. fold send_result.
  split; [|split; [|split]].
  - intros r H.
    destruct (Py.truthy (dict_get_default "success" JNull send_result))
      as [[|]| |]; cbn [bind] in H; try discriminate H.
    destruct (Py.get _ "message_id" _) as [mid| |]; cbn [bind] in H;
      try discriminate H.
    injection H as <-. repeat split.
  - intros e H.
    destruct (bind _ _); try discriminate H. now injection H as <-.
  - intros H. unfold dict_get_default. now rewrite H.
  - intros H. unfold dict_get_default. now rewrite H.
Qed.

Section InitFacts.

Variable client : Type.
Variables python_major python_minor : Z.
Variable get_project_key : result string.
Variable register_agent :
  client -> string -> option string -> string -> string -> result (dict json).

Let initialize :=
  Orchestrator.initialize client python_major python_minor get_project_key
    register_agent.

Lemma initialize_returns (c : client) (self : Orchestrator.session)
  (task_description : string) (r : dict json) :
  fst (initialize c self task_description) = Returns r ->
  Orchestrator.python_too_old python_major python_minor = false
  /\ exists key registration,
       get_project_key = Returns key
       /\ register_agent c key (Some (Orchestrator.session_name self))
            (Orchestrator.model self)
            (if String.eqb task_description ""
             then Orchestrator.DEFAULT_TASK_DESCRIPTION else task_description)
          = Returns registration
       /\ Py.truthy (dict_get_default "success" JNull registration) = Returns true
       /\ Orchestrator.session_key (snd (initialize c self task_description))
          = Some key
       /\ Orchestrator.registration_result (snd (initialize c self task_description))
          = dict_get_default "response" JNull registration
       /\ dict_get "success" r = Some (JBool true)
       /\ dict_get "mcp_registered" r = Some (JBool true)
       /\ dict_get "error" r = Some JNull.
Proof using Type.
  unfold initialize, Orchestrator.initialize.
  destruct (Orchestrator.python_too_old python_major python_minor);
    [discriminate|].
  destruct get_project_key as [key| |]; try discriminate.
  cbn [Orchestrator.session_name Orchestrator.model].
  destruct (register_agent c key _ _ _) as [registration| |] eqn:Er;
    try discriminate.
  destruct (Py.truthy (dict_get_default "success" JNull registration))
    as [[|]| |] eqn:Et; try discriminate.
  cbn [fst snd Orchestrator.session_key Orchestrator.registration_result].
  unfold Orchestrator.registered.
  destruct (Py.get (dict_get_default "response" JNull registration) "id" _)
    as [agent_id| |]; cbn [bind Orchestrator.as_runtime_error]; try discriminate.
  destruct (Py.get (dict_get_default "response" JNull registration) "name" _)
    as [actual_name| |]; cbn [bind Orchestrator.as_runtime_error]; try discriminate.
  intros H. injection H as <-.
  split; [reflexivity|]. exists key, registration.
  repeat split; reflexivity || exact Et || exact Er.
Qed.

Lemma initialize_raises (c : client) (self : Orchestrator.session)
  (task_description : string) (e : exn) :
  fst (initialize c self task_description) = Raises e -> e = RuntimeError.
Proof using Type.
  unfold initialize, Orchestrator.initialize.
  destruct (Orchestrator.python_too_old python_major python_minor);
    [intros H; now injection H as <-|].
  destruct get_project_key as [key| |];
    [| intros H; now injection H as <- | discriminate].
  destruct (register_agent c key _ _ _) as [registration| |];
    [| intros H; now injection H as <- | discriminate].
  destruct (Py.truthy (dict_get_default "success" JNull registration))
    as [[|]| |]; try (intros H; now injection H as <-); try discriminate.
  cbn [fst]. destruct (Orchestrator.registered _ _); cbn; try discriminate.
  intros H; now injection H as <-.
Qed.

End InitFacts.

(** X9. [initialize] returns only after the version check, the project
    key and the registration all succeeded, and then reports [success]
    and [mcp_registered] as true and leaves the key and the server's
    response in the object; every failure leaves as [RuntimeError]. *)
Theorem initialize_succeeds_or_raises_runtime_error :
  forall (client : Type) (python_major python_minor : Z)
         (get_project_key : result string)
         (register_agent :
            client -> string -> option string -> string -> string ->
            result (dict json))
         (c : client) (self : Orchestrator.session) (task_description : string),
    let run :=
      Orchestrator.initialize client python_major python_minor get_project_key
        register_agent c self task_description in
    (forall r, fst run = Returns r ->
       Orchestrator.python_too_old python_major python_minor = false
       /\ exists key registration,
            get_project_key = Returns key
            /\ register_agent c key (Some (Orchestrator.session_name self))
                 (Orchestrator.model self)
                 (if String.eqb task_description ""
                  then Orchestrator.DEFAULT_TASK_DESCRIPTION else task_description)
               = Returns registration
            /\ Py.truthy (dict_get_default "success" JNull registration)
               = Returns true
            /\ Orchestrator.session_key (snd run) = Some key
            /\ Orchestrator.registration_result (snd run)
               = dict_get_default "response" JNull registration
            /\ dict_get "success" r = Some (JBool true)
            /\ dict_get "mcp_registered" r = Some (JBool true)
            /\ dict_get "error" r = Some JNull)
    /\ (forall e, fst run = Raises e -> e = RuntimeError).
Proof.
  intros. split.
  - intros r H. exact (initialize_returns _ _ _ _ _ _ _ _ _ H).
  - intros e H. exact (initialize_raises _ _ _ _ _ _ _ _ _ H).
Qed.

(** A registration that the server accepts, on Python 3.11. *)
Example initialize_registered :
  Orchestrator.initialize unit 3 11 (Returns "/repo")
    (fun _ _ _ _ _ =>
       Returns [ ("success", JBool true);
                 ("response", JObj [("id", JInt 7); ("name", JStr "BlueLake")]) ])
    tt
    {| Orchestrator.model := "gpt-4";
       Orchestrator.session_key := None;
       Orchestrator.session_name := "orchestrator";
       Orchestrator.registration_result := JNull |}
    ""
  = (Returns [ ("success", JBool true); ("mcp_registered", JBool true);
               ("error", JNull); ("agent_id", JInt 7);
               ("agent_name", JStr "BlueLake") ],
     {| Orchestrator.model := "gpt-4";
        Orchestrator.session_key := Some "/repo";
        Orchestrator.session_name := "orchestrator";
        Orchestrator.registration_result :=
          JObj [("id", JInt 7); ("name", JStr "BlueLake")] |}).
Proof. reflexivity. Qed.

(** X10. Initialisation over the mail client: when the server answers
    the registration with an error text, [initialize] raises
    [RuntimeError]; the object keeps the project key and has no
    registration. *)
Theorem initialize_fails_on_embedded_error :
  forall (call_tool : string -> dict json -> result (dict json))
         (exn_text : exn -> string) (python_major python_minor : Z)
         (key : string) (self : Orchestrator.session) (task_description : string)
         (response first : dict json) (rest : list json) (text : string),
    Orchestrator.python_too_old python_major python_minor = false ->
    call_tool "call_tool"
      [ ("tool_name", JStr "register_agent");
        ("arguments",
         JObj (Client.register_params key (Some (Orchestrator.session_name self))
                 (Orchestrator.model self)
                 (if String.eqb task_description ""
                  then Orchestrator.DEFAULT_TASK_DESCRIPTION
                  else task_description))) ]
      = Returns response ->
    dict_get "content" response = Some (JArr (JObj first :: rest)) ->
    dict_get "type" first = Some (JStr "text") ->
    dict_get "text" first = Some (JStr text) ->
    Substring "Error" text \/ SubstringNoCase "not found" text ->
    Orchestrator.initialize _ python_major python_minor (Returns key)
      (fun transport => Client.register_agent transport exn_text)
      call_tool self task_description
    = (Raises RuntimeError,
       {| Orchestrator.model := Orchestrator.model self;
          Orchestrator.session_key := Some key;
          Orchestrator.session_name := Orchestrator.session_name self;
          Orchestrator.registration_result :=
            Orchestrator.registration_result self |}).
Proof.
  intros call_tool exn_text major minor key self td response first rest text
    Hver Hcall Hc Hty Htx Herr.
  unfold Orchestrator.initialize. rewrite Hver.
  cbn [Orchestrator.session_name Orchestrator.model].
  unfold Client.register_agent.
  rewrite (call_and_extract_error_text call_tool exn_text _ _ _ _ _ _
             Hcall Hc Hty Htx Herr).
  reflexivity.
Qed.

Lemma initialize_fails_on_database_error :
  Orchestrator.python_too_old 3 12 = false
  /\ (Substring "Error" "Error: database is locked"
      \/ SubstringNoCase "not found" "Error: database is locked")
  /\ fst (Orchestrator.initialize _ 3 12 (Returns "/repo")
            (fun transport => Client.register_agent transport (fun _ => ""))
            (fun _ _ =>
               Returns [("content",
                         JArr [JObj [("type", JStr "text");
                                     ("text", JStr "Error: database is locked")]])])
            {| Orchestrator.model := "gpt-4";
               Orchestrator.session_key := None;
               Orchestrator.session_name := "orchestrator";
               Orchestrator.registration_result := JNull |}
            "")
     = Raises RuntimeError.
Proof.
  assert (H : Substring "Error" "Error: database is locked"
              \/ SubstringNoCase "not found" "Error: database is locked").
  { left. exists "", ": database is locked". reflexivity. }
  split; [reflexivity | split; [exact H|]].
  rewrite (initialize_fails_on_embedded_error
             (fun _ _ =>
                Returns [("content",
                          JArr [JObj [("type", JStr "text");
                                      ("text", JStr "Error: database is locked")]])])
             (fun _ => "") 3 12 "/repo"
             {| Orchestrator.model := "gpt-4";
                Orchestrator.session_key := None;
                Orchestrator.session_name := "orchestrator";
                Orchestrator.registration_result := JNull |}
             "" _ [("type", JStr "text"); ("text", JStr "Error: database is locked")]
             [] "Error: database is locked" eq_refl eq_refl eq_refl eq_refl eq_refl H).
  reflexivity.
Defined.

(** X11. Delegation over the mail client: when the server answers the
    message with an error text, [delegate_task] raises [RuntimeError]. *)
Theorem delegate_task_fails_on_embedded_error :
  forall (call_tool : string -> dict json -> result (dict json))
         (exn_text : exn -> string) (dumps repr : dict json -> string)
         (send : string -> string -> string -> dict json -> string -> dict json)
         (project_key agent_name droid_name task_id description : string)
         (file_patterns : option (list string)) (priority : Z)
         (dependencies : option (list string)) (estimated_minutes : Z)
         (metadata : option (dict json))
         (response first : dict json) (rest : list json) (text : string),
    let content :=
      Orchestrator.message_content task_id description file_patterns priority
        dependencies estimated_minutes metadata in
    let importance := Orchestrator.priority_label priority in
    Client.send_message call_tool exn_text dumps repr project_key agent_name
      droid_name content importance
      = Returns (send project_key agent_name droid_name content importance) ->
    call_tool "call_tool"
      [ ("tool_name", JStr "send_message");
        ("arguments",
         JObj (Client.send_arguments dumps repr project_key agent_name droid_name
                 content importance)) ]
      = Returns response ->
    dict_get "content" response = Some (JArr (JObj first :: rest)) ->
    dict_get "type" first = Some (JStr "text") ->
    dict_get "text" first = Some (JStr text) ->
    Substring "Error" text \/ SubstringNoCase "not found" text ->
    Orchestrator.delegate_task project_key agent_name send droid_name task_id
      description file_patterns priority dependencies estimated_minutes metadata
    = Raises RuntimeError.
Proof.
  intros call_tool exn_text dumps repr send pk name droid task_id description
    fp priority deps est md response first rest text content importance
    Hsend Hcall Hc Hty Htx Herr.
  unfold Client.send_message in Hsend.
  rewrite (call_and_extract_error_text call_tool exn_text _ _ _ _ _ _
             Hcall Hc Hty Htx Herr) in Hsend.
  injection Hsend as Hsend.
  unfold Orchestrator.delegate_task. fold content importance.
  now rewrite <- Hsend.
Qed.

Lemma delegate_task_fails_on_unknown_droid :
  (Substring "Error" "Agent not found" \/ SubstringNoCase "not found" "Agent not found")
  /\ Orchestrator.delegate_task "proj" "orchestrator"
       (fun _ _ _ _ _ => [("success", JBool false); ("error", JStr "Agent not found")])
       "nobody" "bd-1" "Add login" None 1 None 60 None
     = Raises RuntimeError.
Proof.
  assert (H : Substring "Error" "Agent not found"
              \/ SubstringNoCase "not found" "Agent not found").
  { right. exists "Agent ", "not found", "". split; reflexivity. }
  split; [exact H|].
  exact (delegate_task_fails_on_embedded_error
           (fun _ _ =>
              Returns [("content",
                        JArr [JObj [("type", JStr "text");
                                    ("text", JStr "Agent not found")]])])
           (fun _ => "") (fun _ => "") (fun _ => "")
           (fun _ _ _ _ _ => [("success", JBool false); ("error", JStr "Agent not found")])
           "proj" "orchestrator" "nobody" "bd-1" "Add login" None 1 None 60 None
           _ [("type", JStr "text"); ("text", JStr "Agent not found")] []
           "Agent not found" eq_refl eq_refl eq_refl eq_refl eq_refl H).
Defined.

(** ** More on envelopes *)

Lemma dict_get_set_if_truthy_same (k : string) (x : option json) (m : dict json) :
  dict_get k (Handoff.set_if_truthy k x m) =
    match x with
    | Some v =>
        match Py.truthy v with
        | Returns true => Some v
        | _ => dict_get k m
        end
    | None => dict_get k m
    end.
Proof.
  unfold Handoff.set_if_truthy. destruct x as [v|]; [|reflexivity].
  destruct (Py.truthy v) as [[|]| |]; try reflexivity.
  apply dict_get_set_same.
Qed.

Ltac skip_fields :=
  repeat first [ rewrite dict_get_set_if_truthy_other by discriminate
               | rewrite dict_get_set_other by discriminate ].

Ltac optional_field :=
  skip_optional_fields; rewrite dict_get_set_if_truthy_same;
  skip_optional_fields; cbn [option_map Py.truthy].

(** X12. In a task assignment an optional argument that is given but
    falsy is left out like an absent one: an empty specification,
    dependency list, deadline or metadata, and a duration of zero.  Any
    other value is stored under its key unchanged. *)
Theorem assignment_optional_fields :
  forall (env : Handoff.stamp) (sender_id task_id description : string)
         (file_patterns : list string) (priority : string) (priority_value : Z)
         (specification : option (dict json)) (dependencies : option (list string))
         (estimated_duration_minutes : option Z) (deadline : option string)
         (metadata : option (dict json)),
    let message :=
      Handoff.create_task_assignment_message env sender_id task_id description
        file_patterns priority priority_value specification dependencies
        estimated_duration_minutes deadline metadata in
    dict_get "specification" message
      = match specification with
        | Some (f :: fs) => Some (JObj (f :: fs))
        | _ => None
        end
    /\ dict_get "dependencies" message
       = match dependencies with
         | Some (d :: ds) => Some (JArr (map JStr (d :: ds)))
         | _ => None
         end
    /\ dict_get "estimated_duration_minutes" message
       = match estimated_duration_minutes with
         | Some n => if (n =? 0)%Z then None else Some (JInt n)
         | None => None
         end
    /\ dict_get "deadline" message
       = match deadline with
         | Some d => if String.eqb d "" then None else Some (JStr d)
         | None => None
         end
    /\ dict_get "metadata" message
       = match metadata with
         | Some (f :: fs) => Some (JObj (f :: fs))
         | _ => None
         end.
Proof.
  intros. unfold message, Handoff.create_task_assignment_message.
  repeat split; optional_field.
  - now destruct specification as [[|f fs]|].
  - now destruct dependencies as [[|d ds]|].
  - destruct estimated_duration_minutes as [n|]; [|reflexivity].
    cbn [option_map Py.truthy]. now destruct (n =? 0)%Z.
  - destruct deadline as [d|]; [|reflexivity].
    cbn [option_map Py.truthy]. now destruct (String.eqb d "").
  - now destruct metadata as [[|f fs]|].
Qed.

(** X13. The five header keys of every envelope hold the protocol
    version, the stamp of the environment, the sender and the type of the
    constructor; no later field overwrites them. *)
Theorem envelope_headers :
  forall (env : Handoff.stamp) (sender_id task_id : string),
    let header (message_type : string) (message : dict json) :=
      dict_get "version" message = Some (JStr "1.0.0")
      /\ dict_get "timestamp" message = Some (JStr (Handoff.utc_timestamp env))
      /\ dict_get "sender_id" message = Some (JStr sender_id)
      /\ dict_get "message_id" message = Some (JStr (Handoff.message_id env))
      /\ dict_get "type" message = Some (JStr message_type) in
    (forall description file_patterns priority priority_value specification
            dependencies estimated_duration_minutes deadline metadata,
        header "task_assignment"
          (Handoff.create_task_assignment_message env sender_id task_id description
             file_patterns priority priority_value specification dependencies
             estimated_duration_minutes deadline metadata))
    /\ (forall status completion_summary files_modified test_results
               errors_encountered warnings time_spent_minutes next_tasks metadata,
        header "task_completion"
          (Handoff.create_task_completion_message env sender_id task_id status
             completion_summary files_modified test_results errors_encountered
             warnings time_spent_minutes next_tasks metadata))
    /\ (forall severity error_code error_message stack_trace error_context
               attempted_solutions reproduction_steps needs_human_intervention
               suggested_actions impact attachments,
        header "error_report"
          (Handoff.create_error_report_message env sender_id task_id severity
             error_code error_message stack_trace error_context attempted_solutions
             reproduction_steps needs_human_intervention suggested_actions impact
             attachments))
    /\ (forall update_type status_summary progress metrics blockers
               next_milestone metadata,
        header "status_update"
          (Handoff.create_status_update_message env sender_id task_id update_type
             status_summary progress metrics blockers next_milestone metadata)).
Proof.
  intros env sender_id task_id header. unfold header.
  split; [|split; [|split]]; intros.
  - unfold Handoff.create_task_assignment_message.
    repeat split; skip_optional_fields; reflexivity.
  - unfold Handoff.create_task_completion_message.
    repeat split; skip_optional_fields; reflexivity.
  - unfold Handoff.create_error_report_message.
    repeat split; skip_optional_fields; reflexivity.
  - unfold Handoff.create_status_update_message.
    destruct blockers as [[|b bs]|];
      repeat split; skip_fields; reflexivity.
Qed.

(** X14. A completion envelope always lists [files_modified] and
    [errors_encountered], as empty lists when the arguments are absent or
    empty, and gives back the task id, status and summary it was built
    from. *)
Theorem completion_envelope_required_fields :
  forall (env : Handoff.stamp) (sender_id task_id status completion_summary : string)
         (files_modified : option (list string)) (test_results : option (dict json))
         (errors_encountered warnings : option (list string))
         (time_spent_minutes : option Z) (next_tasks : option (list (dict json)))
         (metadata : option (dict json)),
    let message :=
      Handoff.create_task_completion_message env sender_id task_id status
        completion_summary files_modified test_results errors_encountered warnings
        time_spent_minutes next_tasks metadata in
    dict_get "task_id" message = Some (JStr task_id)
    /\ dict_get "status" message = Some (JStr status)
    /\ dict_get "completion_summary" message = Some (JStr completion_summary)
    /\ dict_get "files_modified" message
       = Some (JArr (map JStr match files_modified with Some l => l | None => [] end))
    /\ dict_get "errors_encountered" message
       = Some (JArr (map JStr
                       match errors_encountered with Some l => l | None => [] end))
    /\ dict_get "time_spent_minutes" message
       = match time_spent_minutes with
         | Some n => if (n =? 0)%Z then None else Some (JInt n)
         | None => None
         end.
Proof.
  intros. unfold message, Handoff.create_task_completion_message.
  repeat split; skip_optional_fields; try reflexivity.
  - now destruct files_modified as [[|x l]|].
  - now destruct errors_encountered as [[|x l]|].
  - rewrite dict_get_set_if_truthy_same. skip_optional_fields.
    destruct time_spent_minutes as [n|]; [|reflexivity].
    cbn [option_map Py.truthy]. now destruct (n =? 0)%Z.
Qed.

(** X15. An error report always carries the flag
    [needs_human_intervention], also when it is false, and a nested
    [error] object with [code] and [message]; that object has a
    [stack_trace] only for a non-empty trace and a [context] only for a
    non-empty one. *)
Theorem error_report_required_fields :
  forall (env : Handoff.stamp)
         (sender_id task_id severity error_code error_message : string)
         (stack_trace : option string) (error_context : option (dict json))
         (attempted_solutions : option (list (dict json)))
         (reproduction_steps : option (list string))
         (needs_human_intervention : bool)
         (suggested_actions : option (list string)) (impact : option (dict json))
         (attachments : option (list (dict json))),
    let message :=
      Handoff.create_error_report_message env sender_id task_id severity error_code
        error_message stack_trace error_context attempted_solutions
        reproduction_steps needs_human_intervention suggested_actions impact
        attachments in
    dict_get "task_id" message = Some (JStr task_id)
    /\ dict_get "severity" message = Some (JStr severity)
    /\ dict_get "needs_human_intervention" message
       = Some (JBool needs_human_intervention)
    /\ exists error_obj,
         dict_get "error" message = Some (JObj error_obj)
         /\ dict_get "code" error_obj = Some (JStr error_code)
         /\ dict_get "message" error_obj = Some (JStr error_message)
         /\ dict_get "stack_trace" error_obj
            = match stack_trace with
              | Some t => if String.eqb t "" then None else Some (JStr t)
              | None => None
              end
         /\ dict_get "context" error_obj
            = match error_context with
              | Some (f :: fs) => Some (JObj (f :: fs))
              | _ => None
              end.
Proof.
  intros. unfold message, Handoff.create_error_report_message.
  split; [skip_optional_fields; reflexivity|].
  split; [skip_optional_fields; reflexivity|].
  split; [skip_optional_fields; reflexivity|].
  exists (Handoff.error_object error_code error_message stack_trace error_context).
  split; [skip_optional_fields; reflexivity|].
  unfold Handoff.error_object.
  repeat split; skip_optional_fields; try reflexivity.
  - rewrite dict_get_set_if_truthy_same.
    destruct stack_trace as [t|]; [|reflexivity].
    cbn [option_map Py.truthy]. now destruct (String.eqb t "").
  - rewrite dict_get_set_if_truthy_same. skip_optional_fields.
    now destruct error_context as [[|f fs]|].
Qed.

(** X16. A status update always has a [blockers] key: the given list,
    or the empty list when none or an empty one is given. *)
Theorem status_update_blockers :
  forall (env : Handoff.stamp)
         (sender_id task_id update_type status_summary : string)
         (progress metrics : option (dict json)) (blockers : option (list string))
         (next_milestone : option string) (metadata : option (dict json)),
    let message :=
      Handoff.create_status_update_message env sender_id task_id update_type
        status_summary progress metrics blockers next_milestone metadata in
    dict_get "blockers" message
      = Some (JArr (map JStr match blockers with Some l => l | None => [] end))
    /\ dict_get "task_id" message = Some (JStr task_id)
    /\ dict_get "update_type" message = Some (JStr update_type)
    /\ dict_get "status_summary" message = Some (JStr status_summary).
Proof.
  intros. unfold message, Handoff.create_status_update_message.
  destruct blockers as [[|b bs]|]; repeat split; skip_optional_fields;
    try apply dict_get_set_same; skip_fields; reflexivity.
Qed.

(** X17. The module-level [delegate_task] always succeeds with the id of
    the stamp.  Its envelope labels the task [high] with value 1 for more
    than 120 minutes and [normal] with value 2 otherwise, carries the
    tags as [labels], and has the duration unless it is zero. *)
Theorem handoff_delegate_task_envelope :
  forall (env : Handoff.stamp) (task_id agent_name description : string)
         (file_patterns specialist_tags : list string) (estimated_minutes : Z)
         (project_key orchestrator_name : string),
    let message :=
      Handoff.delegate_task_message env task_id description file_patterns
        specialist_tags estimated_minutes orchestrator_name in
    Handoff.delegate_task env task_id agent_name description file_patterns
      specialist_tags estimated_minutes project_key orchestrator_name
      = (true, Some (JStr (Handoff.message_id env)))
    /\ dict_get "sender_id" message = Some (JStr orchestrator_name)
    /\ (dict_get "priority" message, dict_get "priority_value" message)
       = (if (120 <? estimated_minutes)%Z
          then (Some (JStr "high"), Some (JInt 1))
          else (Some (JStr "normal"), Some (JInt 2)))
    /\ dict_get "estimated_duration_minutes" message
       = (if (estimated_minutes =? 0)%Z then None else Some (JInt estimated_minutes))
    /\ dict_get "metadata" message
       = Some (JObj [ ("labels", JArr (map JStr specialist_tags));
                      ("agent_role", JStr "implementation") ]).
Proof.
  intros. unfold Handoff.delegate_task, Handoff.sent_id.
  fold message. unfold message, Handoff.delegate_task_message,
    Handoff.create_task_assignment_message.
  skip_optional_fields.
  split; [reflexivity|]. split; [reflexivity|].
  split; [now destruct (120 <? estimated_minutes)%Z|].
  split.
  - rewrite dict_get_set_if_truthy_same. skip_optional_fields.
    cbn [option_map Py.truthy]. now destruct (estimated_minutes =? 0)%Z.
  - rewrite dict_get_set_if_truthy_same. reflexivity.
Qed.

(** X18. [report_task_completion] always succeeds with the id of the
    stamp; its envelope has status [complete] and, when no test results
    or empty ones are given, the all-zero results for unit and
    integration tests. *)
Theorem report_task_completion_envelope :
  forall (env : Handoff.stamp) (task_id agent_name completion_summary : string)
         (files_modified : list string) (time_spent_minutes : Z)
         (project_key : string) (test_results : option (dict json)),
    let message :=
      Handoff.report_task_completion_message env task_id agent_name
        completion_summary files_modified time_spent_minutes test_results in
    Handoff.report_task_completion env task_id agent_name completion_summary
      files_modified time_spent_minutes project_key test_results
      = (true, Some (JStr (Handoff.message_id env)))
    /\ dict_get "sender_id" message = Some (JStr agent_name)
    /\ dict_get "status" message = Some (JStr "complete")
    /\ dict_get "files_modified" message = Some (JArr (map JStr files_modified))
    /\ dict_get "test_results" message
       = Some (JObj match test_results with
                    | Some (r :: rs) => r :: rs
                    | _ => Handoff.DEFAULT_TEST_RESULTS
                    end).
Proof.
  intros. unfold Handoff.report_task_completion, Handoff.sent_id.
  fold message. unfold message, Handoff.report_task_completion_message,
    Handoff.create_task_completion_message.
  skip_optional_fields.
  split; [reflexivity|]. split; [reflexivity|]. split; [reflexivity|].
  split; [now destruct files_modified|].
  rewrite dict_get_set_if_truthy_same.
  now destruct test_results as [[|r rs]|].
Qed.

(** ** More on tag extraction *)

Section ExtractFacts.

Import EnhancedOrchestrator.

Lemma in_add_inv (x y : json) (s : list json) :
  In y (PySet.add x s) -> In y s \/ y = x.
Proof.
  unfold PySet.add. destruct (PySet.mem x s); [now left|].
  intros H. apply in_app_or in H. destruct H as [H | [H | []]]; auto.
Qed.

Lemma detect_in_table (text : string) (table : dict (list string)) :
  forall (tags : list json) (tag : string) (keywords : list string),
    In (tag, keywords) table ->
    existsb (fun keyword => PyStr.contains keyword text) keywords = true ->
    In (JStr tag)
       (fold_left
          (fun tags '(tag, keywords) =>
             if existsb (fun keyword => PyStr.contains keyword text) keywords
             then PySet.add (JStr tag) tags else tags)
          table tags).
Proof.
  induction table as [|[t kws] table IH]; intros tags tag keywords Hin Hex;
    [contradiction|].
  cbn [fold_left]. destruct Hin as [E | Hin].
  - injection E as -> ->. rewrite Hex.
    assert (G : forall l acc, In (JStr tag) acc ->
              In (JStr tag)
                (fold_left
                   (fun tags '(tag, keywords) =>
                      if existsb (fun keyword => PyStr.contains keyword text) keywords
                      then PySet.add (JStr tag) tags else tags) l acc)).
    { induction l as [|[t2 k2] l IHl]; intros acc Hacc; [exact Hacc|].
      cbn [fold_left]. apply IHl.
      destruct (existsb _ k2); [now apply in_add_keep | exact Hacc]. }
    apply G. apply in_add_str.
  - now apply (IH _ tag keywords).
Qed.

Lemma detect_from_table (text : string) (table : dict (list string)) :
  forall (tags : list json) (x : json),
    In x (fold_left
            (fun tags '(tag, keywords) =>
               if existsb (fun keyword => PyStr.contains keyword text) keywords
               then PySet.add (JStr tag) tags else tags)
            table tags) ->
    In x tags
    \/ exists tag keywords keyword,
         x = JStr tag /\ In (tag, keywords) table /\ In keyword keywords
         /\ PyStr.contains keyword text = true.
Proof.
  induction table as [|[t kws] table IH]; intros tags x H; [now left|].
  cbn [fold_left] in H. apply IH in H.
  destruct H as [H | [tag [keywords [keyword [E [Hin [Hk Hc]]]]]]].
  - destruct (existsb _ kws) eqn:Ex; [|now left].
    apply in_add_inv in H. destruct H as [H | ->]; [now left|].
    right. apply existsb_exists in Ex. destruct Ex as [keyword [Hk Hc]].
    exists t, kws, keyword. repeat split; auto. now left.
  - right. exists tag, keywords, keyword. repeat split; auto. now right.
Qed.

End ExtractFacts.

(** X19. Keyword detection is complete: whenever the extraction returns,
    each tag of the keyword table one of whose keywords occurs, in any
    letter case and anywhere, in the title, a space and the description
    is among the tags. *)
Theorem keyword_occurrence_gives_tag :
  forall (title descr notes : string) (tags : list json)
         (tag : string) (keywords : list string) (keyword : string),
    EnhancedOrchestrator.extract_specialist_tags (task_record title descr notes)
      = Returns tags ->
    In (tag, keywords) EnhancedOrchestrator.keyword_map ->
    In keyword keywords ->
    SubstringNoCase keyword (title ++ " " ++ descr) ->
    In (JStr tag) tags.
Proof.
  intros title descr notes tags tag keywords keyword Hx Hin Hk Hs.
  rewrite extract_of_record in Hx.
  destruct (EnhancedOrchestrator.explicit_tags _) as [tags0| |];
    cbn [bind] in Hx; try discriminate Hx.
  injection Hx as <-. apply general_if_empty_keeps.
  unfold EnhancedOrchestrator.detect_keywords.
  apply (detect_in_table _ _ _ tag keywords Hin).
  apply existsb_exists. exists keyword. split; [exact Hk|].
  now apply contains_lower_iff.
Qed.

(** The substring match is blind to word boundaries: [description]
    holds the keyword [script]. *)
Lemma keyword_inside_a_word :
  EnhancedOrchestrator.extract_specialist_tags (task_record "Update description" "" "")
    = Returns [JStr "shell"]
  /\ In ("shell", ["bash"; "shell"; "script"; "automation"])
        EnhancedOrchestrator.keyword_map
  /\ In "script" ["bash"; "shell"; "script"; "automation"]
  /\ SubstringNoCase "script" ("Update description" ++ " " ++ "")
  /\ In (JStr "shell") [JStr "shell"].
Proof.
  assert (Hx : EnhancedOrchestrator.extract_specialist_tags
                 (task_record "Update description" "" "") = Returns [JStr "shell"])
    by (vm_compute; reflexivity).
  assert (Hin : In ("shell", ["bash"; "shell"; "script"; "automation"])
                   EnhancedOrchestrator.keyword_map)
    by (unfold EnhancedOrchestrator.keyword_map; simpl; tauto).
  assert (Hk : In "script" ["bash"; "shell"; "script"; "automation"])
    by (simpl; tauto).
  assert (Hs : SubstringNoCase "script" ("Update description" ++ " " ++ "")).
  { exists "Update de", "script", "ion ". split; reflexivity. }
  split; [exact Hx | split; [exact Hin | split; [exact Hk | split; [exact Hs|]]]].
  exact (keyword_occurrence_gives_tag "Update description" "" "" [JStr "shell"]
           "shell" ["bash"; "shell"; "script"; "automation"] "script"
           Hx Hin Hk Hs).
Defined.

(** X20. Nothing else becomes a tag: each returned tag was announced by
    the annotation, or is a tag of the keyword table with a keyword that
    occurs in the text, or is the sentinel [general], and then it is the
    only tag. *)
Theorem tags_have_a_source :
  forall (title descr notes : string) (tags : list json),
    EnhancedOrchestrator.extract_specialist_tags (task_record title descr notes)
      = Returns tags ->
    exists announced,
      EnhancedOrchestrator.explicit_tags (task_record title descr notes)
        = Returns announced
      /\ forall x, In x tags ->
           In x announced
           \/ (exists tag keywords keyword,
                 x = JStr tag
                 /\ In (tag, keywords) EnhancedOrchestrator.keyword_map
                 /\ In keyword keywords
                 /\ SubstringNoCase keyword (title ++ " " ++ descr))
           \/ (x = JStr "general" /\ tags = [JStr "general"]).
Proof.
  intros title descr notes tags Hx.
  rewrite extract_of_record in Hx.
  destruct (EnhancedOrchestrator.explicit_tags _) as [tags0| |];
    cbn [bind] in Hx; try discriminate Hx.
  injection Hx as <-. exists tags0. split; [reflexivity|].
  intros x Hin.
  destruct (EnhancedOrchestrator.detect_keywords _ tags0) as [|y l] eqn:Ed.
  - right. right. destruct Hin as [<- | []]. now split.
  - cbn [EnhancedOrchestrator.general_if_empty] in Hin. rewrite <- Ed in Hin.
    apply detect_from_table in Hin.
    destruct Hin as [H | [tag [keywords [keyword [E [Ht [Hk Hc]]]]]]];
      [now left|].
    right. left. exists tag, keywords, keyword. repeat split; auto.
    now apply contains_lower_iff.
Qed.

Lemma tags_have_a_source_example :
  EnhancedOrchestrator.extract_specialist_tags
    (task_record "Fix the login bug" "" "")
  = Returns [JStr "fixing"]
  /\ exists announced,
       EnhancedOrchestrator.explicit_tags (task_record "Fix the login bug" "" "")
         = Returns announced
       /\ forall x, In x [JStr "fixing"] ->
            In x announced
            \/ (exists tag keywords keyword,
                  x = JStr tag
                  /\ In (tag, keywords) EnhancedOrchestrator.keyword_map
                  /\ In keyword keywords
                  /\ SubstringNoCase keyword ("Fix the login bug" ++ " " ++ ""))
            \/ (x = JStr "general" /\ [JStr "fixing"] = [JStr "general"]).
Proof.
  assert (Hx : EnhancedOrchestrator.extract_specialist_tags
                 (task_record "Fix the login bug" "" "") = Returns [JStr "fixing"])
    by (vm_compute; reflexivity).
  split; [exact Hx|].
  exact (tags_have_a_source "Fix the login bug" "" "" [JStr "fixing"] Hx).
Defined.

(** An exception leaves [parse_notes_for_handoff] on string notes only
    when the decoder raised it and it is neither of the two that are
    caught. *)
Lemma parse_notes_raises (notes : string) (e : exn) :
  EnhancedOrchestrator.parse_notes_for_handoff (JStr notes) = Raises e ->
  Substring EnhancedOrchestrator.HANDOFF_MARKER notes
  /\ Json.loads (EnhancedOrchestrator.handoff_json_str notes) = Raises e
  /\ e <> JSONDecodeError
  /\ e <> ValueError.
Proof.
  destruct (PyStr.contains EnhancedOrchestrator.HANDOFF_MARKER notes) eqn:Em.
  - rewrite (parse_notes_marked _ Em). intros H.
    split; [now apply contains_iff|].
    destruct (Json.loads _) as [v| e0 |]; try discriminate H.
    destruct e0; try discriminate H; injection H as <-;
      (split; [reflexivity | split; discriminate]).
  - rewrite (parse_notes_unmarked _ Em). discriminate.
Qed.


(** X22. On a task record with text fields the extraction fails with
    [TypeError]; any other exception is one the decoder raised on the
    annotation and that [parse_notes_for_handoff] does not catch. *)
Theorem extract_raises_type_error_only :
  forall (title descr notes : string) (e : exn),
    EnhancedOrchestrator.extract_specialist_tags (task_record title descr notes)
      = Raises e ->
    e = TypeError
    \/ (Json.loads (EnhancedOrchestrator.handoff_json_str notes) = Raises e
        /\ e <> JSONDecodeError
        /\ e <> ValueError).
Proof.
  intros title descr notes e H.
  rewrite extract_of_record, explicit_tags_of_record in H.
  destruct (String.eqb notes ""); [discriminate H|].
  destruct (EnhancedOrchestrator.parse_notes_for_handoff (JStr notes))
    as [handoff| e0 |] eqn:Ep; cbn [bind] in H; try discriminate H.
  2: { injection H as <-. right. exact (proj2 (parse_notes_raises _ _ Ep)). }
  left.
  assert (Hup : forall items s e1, PySet.update s items = Raises e1 -> e1 = TypeError).
  { induction items as [|x items IH]; intros s e1 Hu; [discriminate Hu|].
    cbn [PySet.update] in Hu.
    destruct x; cbn [PySet.hashable bind] in Hu;
      try (exact (IH _ _ Hu)); try discriminate Hu; now injection Hu as <-. }
  destruct handoff as [| b | z | lex | s | items | fields];
    cbn [Py.truthy Py.contains Py.item bind] in H; try discriminate H.
  - destruct b; cbn in H; [now injection H as <- | discriminate H].
  - destruct (negb (z =? 0)%Z); cbn in H; [now injection H as <- | discriminate H].
  - destruct (negb (String.eqb s "")); cbn [bind] in H; [|discriminate H].
    destruct (PyStr.contains "specialist_tags" s); cbn [bind] in H;
      [now injection H as <- | discriminate H].
  - destruct items as [|x l]; cbn [bind] in H; [discriminate H|].
    destruct (existsb _ (x :: l)); cbn [bind] in H;
      [now injection H as <- | discriminate H].
  - destruct fields as [|f fs]; cbn [bind] in H; [discriminate H|].
    unfold has_key in H.
    destruct (dict_get "specialist_tags" (f :: fs)) as [announced|];
      cbn [bind] in H; [|discriminate H].
    destruct (PySet.elements announced) as [items| e1 |] eqn:Ee;
      cbn [bind] in H; try discriminate H.
    + destruct (PySet.update [] items) as [s| e1 |] eqn:Eu;
        cbn [bind] in H; try discriminate H.
      injection H as <-. exact (Hup _ _ _ Eu).
    + injection H as <-. destruct announced; try discriminate Ee;
        now injection Ee as <-.
Qed.

Lemma extract_raises_type_error_on_nested_tags :
  EnhancedOrchestrator.extract_specialist_tags
    (task_record "" ""
       (EnhancedOrchestrator.HANDOFF_MARKER ++ " {"
          ++ Json.quoted "specialist_tags" ++ ":[[1]]}"))
  = Raises TypeError
  /\ (TypeError = TypeError
      \/ (Json.loads
            (EnhancedOrchestrator.handoff_json_str
               (EnhancedOrchestrator.HANDOFF_MARKER ++ " {"
                  ++ Json.quoted "specialist_tags" ++ ":[[1]]}"))
          = Raises TypeError
          /\ TypeError <> JSONDecodeError
          /\ TypeError <> ValueError)).
Proof.
  assert (H : EnhancedOrchestrator.extract_specialist_tags
                (task_record "" ""
                   (EnhancedOrchestrator.HANDOFF_MARKER ++ " {"
                      ++ Json.quoted "specialist_tags" ++ ":[[1]]}"))
              = Raises TypeError) by (vm_compute; reflexivity).
  split; [exact H|].
  exact (extract_raises_type_error_only _ _ _ _ H).
Defined.

(** X23. When the annotation decodes to an object whose
    [specialist_tags] is a list of strings, the extraction returns and
    every one of those strings is a tag. *)
Theorem announced_strings_become_tags :
  forall (title descr notes : string) (fields : dict json) (names : list string),
    Substring EnhancedOrchestrator.HANDOFF_MARKER notes ->
    Json.loads (EnhancedOrchestrator.handoff_json_str notes) = Returns (JObj fields) ->
    dict_get "specialist_tags" fields = Some (JArr (map JStr names)) ->
    exists tags,
      EnhancedOrchestrator.extract_specialist_tags (task_record title descr notes)
        = Returns tags
      /\ forall name, In name names -> In (JStr name) tags.
Proof.
  intros title descr notes fields names Hm Hl Hd.
  apply contains_iff in Hm.
  rewrite extract_of_record, explicit_tags_of_record.
  destruct (String.eqb_spec notes "") as [E|_];
    [now elim (contains_marker_nonempty _ Hm)|].
  rewrite (parse_notes_marked _ Hm), Hl.
  cbn [bind Py.truthy Py.contains Py.item].
  destruct fields as [|f fs]; [discriminate Hd|].
  unfold has_key. rewrite Hd. cbn [bind PySet.elements].
  assert (G : forall l s,
             exists s', PySet.update s (map JStr l) = Returns s'
                        /\ (forall x, In x s -> In x s')
                        /\ (forall name, In name l -> In (JStr name) s')).
  { induction l as [|n l IH]; intros s.
    - exists s. split; [reflexivity|]. split; [auto | intros ? []].
    - cbn [map PySet.update PySet.hashable bind].
      destruct (IH (PySet.add (JStr n) s)) as [s' [Hu [Hk Hn]]].
      exists s'. split; [exact Hu|]. split.
      + intros x Hx. apply Hk. now apply in_add_keep.
      + intros name [<- | Hin]; [apply Hk, in_add_str | now apply Hn]. }
  destruct (G names []) as [s' [Hu [_ Hn]]].
  rewrite Hu. cbn [bind]. eexists. split; [reflexivity|].
  intros name Hin.
  apply general_if_empty_keeps, detect_keywords_keeps. now apply Hn.
Qed.

(** ** More on matching *)

Section ScoreFacts.

Import EnhancedOrchestrator.

Local Open Scope Q_scope.

Lemma jaccard_bounds (a b : list json) : 0 <= jaccard a b /\ jaccard a b <= 1.
Proof.
  unfold jaccard, total, overlap, ratio.
  pose proof (inter_length_le a b) as Hle.
  destruct (Nat.ltb_spec 0 (List.length (PySet.union a b))) as [Hpos | Hz].
  - unfold Qle. cbn [Qnum Qden]. split; [lia|].
    rewrite Z.mul_1_r, Z.mul_1_l.
    assert (E : Z.pos (Pos.of_nat (List.length (PySet.union a b)))
                = Z.of_nat (List.length (PySet.union a b))).
    { destruct (List.length (PySet.union a b)) as [|n]; [lia|].
      rewrite <- Pos.of_nat_succ. now rewrite Zpos_P_of_succ_nat, Nat2Z.inj_succ. }
    rewrite E. lia.
  - split; [apply Qle_refl | discriminate].
Qed.

Lemma jaccard_zero_iff (a b : list json) :
  jaccard a b == 0 <-> PySet.inter a b = [].
Proof.
  unfold jaccard, total, overlap, ratio.
  pose proof (inter_length_le a b) as Hle.
  destruct (Nat.ltb_spec 0 (List.length (PySet.union a b))) as [Hpos | Hz].
  - unfold Qeq. cbn [Qnum Qden]. rewrite Z.mul_1_r, Z.mul_0_l.
    split; intros H.
    + apply length_zero_iff_nil. lia.
    + now rewrite H.
  - split; [|reflexivity]. intros _. apply length_zero_iff_nil. lia.
Qed.

(** [max_from] returns the first of the candidates with the largest key. *)
Lemma max_from_first {A : Type} (key : A -> Q) (items : list A) :
  forall best,
    exists l1 l2,
      (best :: items)%list = (l1 ++ max_from key best items :: l2)%list
      /\ (forall x, In x l1 -> key x < key (max_from key best items))
      /\ (forall x, In x l2 -> key x <= key (max_from key best items)).
Proof.
  induction items as [|y items IH]; intros best.
  - exists [], []. simpl. repeat split; intros ? [].
  - cbn [max_from]. destruct (Qltb (key best) (key y)) eqn:E.
    + destruct (IH y) as [l1 [l2 [El [H1 H2]]]].
      exists (best :: l1)%list, l2. split; [simpl; now rewrite El|]. split.
      * intros x [<- | Hx]; [|now apply H1].
        apply Qltb_lt in E. eapply Qlt_le_trans; [exact E|].
        apply (proj2 (max_from_spec key items y)). now left.
      * exact H2.
    + destruct (IH best) as [l1 [l2 [El [H1 H2]]]].
      destruct l1 as [|z l1].
      * simpl in El. injection El as Eb El.
        exists [], (y :: items)%list. split; [simpl; now rewrite <- Eb|].
        split; [intros ? []|].
        intros x [<- | Hx].
        -- apply Qltb_ge in E. now rewrite <- Eb.
        -- rewrite El in Hx. now apply H2.
      * simpl in El. injection El as Ez El.
        exists (best :: y :: l1)%list, l2.
        split; [simpl; do 2 f_equal; exact El|]. split.
        -- intros x [<- | [<- | Hx]].
           ++ apply H1. left. now subst z.
           ++ apply Qltb_ge in E. eapply Qle_lt_trans; [exact E|].
              apply H1. left. now subst z.
           ++ apply H1. now right.
        -- exact H2.
Qed.

End ScoreFacts.

(** X24. The overlap score lies between zero and one, and is zero
    exactly when no tag of the agent is among the tags of the task. *)
Theorem score_between_zero_and_one :
  forall agent_tags task_tag_set : list json,
    (0 <= EnhancedOrchestrator.jaccard agent_tags task_tag_set)%Q
    /\ (EnhancedOrchestrator.jaccard agent_tags task_tag_set <= 1)%Q
    /\ ((EnhancedOrchestrator.jaccard agent_tags task_tag_set == 0)%Q
        <-> PySet.inter agent_tags task_tag_set = []).
Proof.
  intros a b. destruct (jaccard_bounds a b) as [H0 H1].
  split; [exact H0 | split; [exact H1 | apply jaccard_zero_iff]].
Qed.

(** X25. Ties go to the agent registered first: the agent the matcher
    returns scores strictly more than every agent before it in the
    registry and at least as much as every agent after it. *)
Theorem first_best_agent_wins :
  forall (agent_registry : dict EnhancedOrchestrator.agent_info)
         (task_data : dict json) (tags : list json) (name : string),
    NoDup (keys agent_registry) ->
    EnhancedOrchestrator.extract_specialist_tags task_data = Returns tags ->
    EnhancedOrchestrator.match_agent_to_task agent_registry task_data
      = Returns (Some name) ->
    exists before info after,
      agent_registry = (before ++ (name, info) :: after)%list
      /\ (forall n i, In (n, i) before -> (score i tags < score info tags)%Q)
      /\ (forall n i, In (n, i) after -> (score i tags <= score info tags)%Q)
      /\ (EnhancedOrchestrator.THRESHOLD <= score info tags)%Q.
Proof.
  intros reg task_data tags name Hnd Hx Hm.
  unfold EnhancedOrchestrator.match_agent_to_task in Hm.
  rewrite Hx in Hm. cbn [bind] in Hm.
  pose proof (extract_nonempty _ _ Hx) as Hne.
  destruct tags as [|t tags']; [now elim Hne|].
  rewrite (agent_scores_map reg Hnd) in Hm.
  destruct reg as [|[n0 i0] reg']; [discriminate Hm|].
  set (g := fun entry : string * EnhancedOrchestrator.agent_info =>
              (fst entry, score (snd entry) (t :: tags'))) in *.
  cbn [map EnhancedOrchestrator.max_by bind] in Hm.
  destruct (max_from_first snd (map g reg') (g (n0, i0))) as [l1 [l2 [El [H1 H2]]]].
  set (r := EnhancedOrchestrator.max_from snd (g (n0, i0)) (map g reg')) in *.
  change (g (n0, i0) :: map g reg')%list with (map g ((n0, i0) :: reg')) in El.
  apply map_eq_app in El. destruct El as [before [rest [Ereg [Eb Er]]]].
  apply map_eq_cons in Er. destruct Er as [[n info] [after [Erest [Egx Ea]]]].
  destruct (Qle_bool EnhancedOrchestrator.THRESHOLD (snd r)) eqn:Et;
    [|discriminate Hm].
  assert (Hname : fst r = name) by congruence.
  assert (Er : r = (name, score info (t :: tags'))).
  { rewrite <- Hname, <- Egx. reflexivity. }
  assert (En : n = name) by (rewrite <- Hname, <- Egx; reflexivity).
  exists before, info, after. split; [|split; [|split]].
  - rewrite Ereg, Erest. now rewrite En.
  - intros n' i' Hin. rewrite Er in H1.
    apply (H1 (g (n', i'))). rewrite <- Eb. now apply in_map.
  - intros n' i' Hin. rewrite Er in H2.
    apply (H2 (g (n', i'))). rewrite <- Ea. now apply in_map.
  - rewrite Er in Et. now apply Qle_bool_iff in Et.
Qed.

(** X26. When no registered agent shares a tag with the task the matcher
    answers [None]. *)
Theorem no_common_tag_no_agent :
  forall (agent_registry : dict EnhancedOrchestrator.agent_info)
         (task_data : dict json) (tags : list json),
    NoDup (keys agent_registry) ->
    agent_registry <> [] ->
    EnhancedOrchestrator.extract_specialist_tags task_data = Returns tags ->
    (forall n i, In (n, i) agent_registry ->
       PySet.inter (EnhancedOrchestrator.agent_tag_set i) (PySet.of_list tags) = []) ->
    EnhancedOrchestrator.match_agent_to_task agent_registry task_data = Returns None.
Proof.
  intros reg task_data tags Hnd Hne Hx Hdis.
  destruct (match_agent_cases reg Hnd task_data tags Hx)
    as [[E _] | [name [info [Hin [_ Hm]]]]]; [contradiction|].
  rewrite Hm.
  destruct (Qle_bool EnhancedOrchestrator.THRESHOLD (score info tags)) eqn:Et;
    [|reflexivity].
  apply Qle_bool_iff in Et.
  assert (Hz : (score info tags == 0)%Q)
    by (apply jaccard_zero_iff; exact (Hdis _ _ Hin)).
  rewrite Hz in Et.
  unfold EnhancedOrchestrator.THRESHOLD, Qle in Et. simpl in Et. lia.
Qed.

(** The demonstration notes of the source, a tie on the default registry
    and the empty record. *)
Lemma announced_strings_in_demo_notes :
  Substring EnhancedOrchestrator.HANDOFF_MARKER demo_annotation_notes
  /\ exists tags,
       EnhancedOrchestrator.extract_specialist_tags
         (task_record "" "" demo_annotation_notes) = Returns tags
       /\ forall name, In name ["testing"; "python"; "validation"] ->
                       In (JStr name) tags.
Proof.
  assert (Hm : Substring EnhancedOrchestrator.HANDOFF_MARKER demo_annotation_notes).
  { apply contains_iff. reflexivity. }
  split; [exact Hm|].
  exact (announced_strings_become_tags "" "" demo_annotation_notes
           [ ("agent_role", JStr "testing");
             ("specialist_tags",
              JArr [JStr "testing"; JStr "python"; JStr "validation"]) ]
           ["testing"; "python"; "validation"] Hm eq_refl eq_refl).
Defined.

Lemma first_of_two_equal_agents :
  EnhancedOrchestrator.extract_specialist_tags tie_task
    = Returns (map JStr tie_tag_names)
  /\ EnhancedOrchestrator.match_agent_to_task
       EnhancedOrchestrator.load_agent_definitions tie_task
     = Returns (Some "orchestrator")
  /\ score testing_agent (map JStr tie_tag_names) = (0 # 9)%Q
  /\ exists before info after,
       EnhancedOrchestrator.load_agent_definitions
         = (before ++ ("orchestrator", info) :: after)%list
       /\ (forall n i, In (n, i) before ->
             (score i (map JStr tie_tag_names) < score info (map JStr tie_tag_names))%Q)
       /\ (forall n i, In (n, i) after ->
             (score i (map JStr tie_tag_names) <= score info (map JStr tie_tag_names))%Q)
       /\ (EnhancedOrchestrator.THRESHOLD <= score info (map JStr tie_tag_names))%Q.
Proof.
  assert (Hx : EnhancedOrchestrator.extract_specialist_tags tie_task
               = Returns (map JStr tie_tag_names)) by (vm_compute; reflexivity).
  assert (Hm : EnhancedOrchestrator.match_agent_to_task
                 EnhancedOrchestrator.load_agent_definitions tie_task
               = Returns (Some "orchestrator")) by (vm_compute; reflexivity).
  split; [exact Hx | split; [exact Hm | split; [vm_compute; reflexivity|]]].
  exact (first_best_agent_wins EnhancedOrchestrator.load_agent_definitions tie_task
           (map JStr tie_tag_names) "orchestrator" default_registry_unique Hx Hm).
Defined.

Example tie_scores :
  EnhancedOrchestrator.agent_scores EnhancedOrchestrator.load_agent_definitions
    (map JStr tie_tag_names)
  = [ ("orchestrator", 3 # 6); ("prd", 0 # 10); ("generate-tasks", 0 # 9);
      ("task-coordinator", 0 # 10); ("codebase-researcher", 0 # 10);
      ("git-history-analyzer", 0 # 10); ("figma-design-extractor", 0 # 10);
      ("implementation", 0 # 9); ("testing", 0 # 9); ("fixing", 3 # 6);
      ("verification", 0 # 9) ]%Q.
Proof. vm_compute. reflexivity. Qed.

Lemma general_task_is_unrouted :
  EnhancedOrchestrator.extract_specialist_tags (task_record "" "" "")
    = Returns [JStr "general"]
  /\ (forall n i, In (n, i) EnhancedOrchestrator.load_agent_definitions ->
        PySet.inter (EnhancedOrchestrator.agent_tag_set i)
          (PySet.of_list [JStr "general"]) = [])
  /\ EnhancedOrchestrator.match_agent_to_task
       EnhancedOrchestrator.load_agent_definitions (task_record "" "" "")
     = Returns None.
Proof.
  assert (Hx : EnhancedOrchestrator.extract_specialist_tags (task_record "" "" "")
               = Returns [JStr "general"]) by (vm_compute; reflexivity).
  assert (Hd : forall n i, In (n, i) EnhancedOrchestrator.load_agent_definitions ->
             PySet.inter (EnhancedOrchestrator.agent_tag_set i)
               (PySet.of_list [JStr "general"]) = []).
  { intros n i Hin. unfold EnhancedOrchestrator.load_agent_definitions in Hin.
    simpl in Hin.
    repeat (destruct Hin as [E | Hin]; [injection E as _ <-; reflexivity|]).
    contradiction. }
  assert (Hne : EnhancedOrchestrator.load_agent_definitions <> []) by discriminate.
  split; [exact Hx | split; [exact Hd|]].
  exact (no_common_tag_no_agent EnhancedOrchestrator.load_agent_definitions
           (task_record "" "" "") [JStr "general"] default_registry_unique Hne Hx Hd).
Defined.

(** ** More on routing *)

(** X27. [route_task] raises nothing.  A success carries an agent with
    a non-empty name and says so in its message; a failure has no agent; a
    failing task lookup and an undecodable task record are reported with
    the text of the exception. *)
Theorem route_task_outcomes :
  forall (agent_registry : dict EnhancedOrchestrator.agent_info)
         (bd_show : string -> result string) (exn_text : exn -> string)
         (task_id orchestrator_name : string),
    let outcome :=
      EnhancedOrchestrator.route_task agent_registry bd_show exn_text task_id
        orchestrator_name in
    (forall e, outcome <> Raises e)
    /\ (forall message agent,
          outcome = Returns (true, message, agent) ->
          exists name,
            agent = Some name /\ name <> ""
            /\ message = ("Task " ++ task_id ++ " routed to " ++ name)%string)
    /\ (forall message agent,
          outcome = Returns (false, message, agent) -> agent = None)
    /\ (forall e,
          bd_show task_id = Raises e ->
          outcome = Returns (false,
                             ("Error routing task " ++ task_id ++ ": "
                                ++ exn_text e)%string,
                             None))
    /\ (forall stdout,
          bd_show task_id = Returns stdout ->
          Json.loads stdout = Raises JSONDecodeError ->
          outcome = Returns (false,
                             ("Error routing task " ++ task_id ++ ": "
                                ++ exn_text JSONDecodeError)%string,
                             None)).
Proof.
  intros reg bd_show exn_text task_id oname outcome.
  unfold outcome, EnhancedOrchestrator.route_task.
  split; [|split; [|split; [|split]]].
  - intros e. destruct (EnhancedOrchestrator.route_task_try _ _ _ _); discriminate.
  - intros message agent H.
    destruct (EnhancedOrchestrator.route_task_try reg bd_show task_id oname)
      as [out| e |] eqn:Et; try discriminate H.
    injection H as ->.
    unfold EnhancedOrchestrator.route_task_try in Et.
    destruct (bd_show task_id) as [stdout| |]; cbn [bind] in Et; try discriminate Et.
    destruct (Json.loads stdout) as [task_data| |]; cbn [bind] in Et;
      try discriminate Et.
    set (td := match task_data with JArr (first :: _) => first | _ => task_data end)
      in Et.
    destruct (Py.get td "title" _); cbn [bind] in Et; try discriminate Et.
    destruct (Py.get td "description" _); cbn [bind] in Et; try discriminate Et.
    destruct td; try discriminate Et.
    destruct (EnhancedOrchestrator.extract_specialist_tags fields);
      cbn [bind] in Et; try discriminate Et.
    destruct (EnhancedOrchestrator.match_agent_to_task reg fields)
      as [assigned| |]; cbn [bind] in Et; try discriminate Et.
    destruct (EnhancedOrchestrator.named assigned) eqn:En; [|discriminate Et].
    injection Et as <- <-.
    destruct assigned as [name|]; [|discriminate En].
    exists name. split; [reflexivity|]. split; [|reflexivity].
    intros ->. discriminate En.
  - intros message agent H.
    destruct (EnhancedOrchestrator.route_task_try reg bd_show task_id oname)
      as [out| e |] eqn:Et; try discriminate H.
    + injection H as ->.
      unfold EnhancedOrchestrator.route_task_try in Et.
      destruct (bd_show task_id) as [stdout| |]; cbn [bind] in Et;
        try discriminate Et.
      destruct (Json.loads stdout) as [task_data| |]; cbn [bind] in Et;
        try discriminate Et.
      set (td := match task_data with JArr (first :: _) => first | _ => task_data end)
        in Et.
      destruct (Py.get td "title" _); cbn [bind] in Et; try discriminate Et.
      destruct (Py.get td "description" _); cbn [bind] in Et; try discriminate Et.
      destruct td; try discriminate Et.
      destruct (EnhancedOrchestrator.extract_specialist_tags fields);
        cbn [bind] in Et; try discriminate Et.
      destruct (EnhancedOrchestrator.match_agent_to_task reg fields)
        as [assigned| |]; cbn [bind] in Et; try discriminate Et.
      destruct (EnhancedOrchestrator.named assigned); [discriminate Et|].
      now injection Et as _ <-.
    + now injection H as _ <-.
  - intros e He. unfold EnhancedOrchestrator.route_task_try. now rewrite He.
  - intros stdout Hs Hl. unfold EnhancedOrchestrator.route_task_try.
    rewrite Hs. cbn [bind]. now rewrite Hl.
Qed.

(** X28. A suggestion that names an agent has a confidence between 30
    and 100; its tags are those the extraction returns. *)
Theorem named_suggestion_confidence_range :
  forall (task_data : dict json) (s : EnhancedOrchestrator.suggestion)
         (name : string),
    EnhancedOrchestrator.get_routing_suggestion
      EnhancedOrchestrator.load_agent_definitions task_data = Returns s ->
    EnhancedOrchestrator.suggested_agent s = Some name ->
    (30 <= EnhancedOrchestrator.confidence s)%Q
    /\ (EnhancedOrchestrator.confidence s <= 100)%Q
    /\ EnhancedOrchestrator.extract_specialist_tags task_data
       = Returns (EnhancedOrchestrator.suggestion_tags s).
Proof.
  intros task_data s name H Hs.
  pose proof (suggestion_agrees_on_registry
                EnhancedOrchestrator.load_agent_definitions task_data
                default_registry_unique default_registry_named) as A.
  destruct (EnhancedOrchestrator.match_agent_to_task
              EnhancedOrchestrator.load_agent_definitions task_data)
    as [assigned| e |]; [|rewrite A in H; discriminate H..].
  destruct A as [s' [tags [Hs' [Hx [Ha [Et Hc]]]]]].
  rewrite Hs' in H. injection H as ->.
  rewrite Hs in Ha. subst assigned.
  destruct Hc as [info [Hin [Ht Ec]]].
  destruct (default_confidence info name tags Hin Ht)
    as [o [t [Eo [Eu [_ [_ [Hd [_ Hr]]]]]]]].
  rewrite <- Eo, <- Eu in Ec. rewrite <- Ec in Hd, Hr.
  split; [|split; [|now rewrite Et]].
  - destruct (EnhancedOrchestrator.confidence s) as [n d].
    cbn [Qnum Qden] in *. subst d. unfold Qle. cbn [Qnum Qden]. lia.
  - destruct (EnhancedOrchestrator.confidence s) as [n d].
    cbn [Qnum Qden] in *. subst d. unfold Qle. cbn [Qnum Qden]. lia.
Qed.

Lemma pytest_suggestion_confidence_range :
  EnhancedOrchestrator.get_routing_suggestion
    EnhancedOrchestrator.load_agent_definitions pytest_task
  = Returns {| EnhancedOrchestrator.suggested_agent := Some "testing";
               EnhancedOrchestrator.confidence := (333 # 10)%Q;
               EnhancedOrchestrator.reason := "Matched on tags: testing";
               EnhancedOrchestrator.suggestion_tags := [JStr "testing"] |}
  /\ (30 <= 333 # 10)%Q /\ (333 # 10 <= 100)%Q.
Proof.
  assert (H : EnhancedOrchestrator.get_routing_suggestion
                EnhancedOrchestrator.load_agent_definitions pytest_task
              = Returns {| EnhancedOrchestrator.suggested_agent := Some "testing";
                           EnhancedOrchestrator.confidence := (333 # 10)%Q;
                           EnhancedOrchestrator.reason := "Matched on tags: testing";
                           EnhancedOrchestrator.suggestion_tags := [JStr "testing"] |})
    by (vm_compute; reflexivity).
  split; [exact H|].
  destruct (named_suggestion_confidence_range pytest_task _ "testing" H eq_refl)
    as [Hlo [Hhi _]].
  split; [exact Hlo | exact Hhi].
Defined.
